(** * Rules (policy) evaluation engine: a shallow embedding of
    [modules/rules/rules.service.ts] and the properties of its decision
    loop, condition evaluator and rule life cycle.

    The embedding follows the TypeScript source function by function and
    keeps its names.  Promises are modelled by their outcome (a value or a
    thrown error), the Prisma store by two tables, and the in-memory
    [rulesCache] by a finite map. *)

From Stdlib Require Import ZArith Ascii String Bool Lia.
From Stdlib Require Import DecimalString Sorted Permutation.
From stdpp Require Import base option list strings gmap fin_maps.

Set Warnings "-register-all".

Local Open Scope string_scope.
Local Open Scope list_scope.
Local Open Scope Z_scope.

(** ** Outcomes of fallible code *)

(** A JavaScript computation either returns or throws; [Throw] carries the
    message of the [Error]. *)
Inductive Result (A : Type) : Type :=
| Ok (a : A)
| Throw (e : string).
Arguments Ok {A} a.
Arguments Throw {A} e.

(** [try { body } catch (error) { return handler }] for pure code. *)
Definition tryCatch {A} (body : Result A) (handler : string -> A) : Result A :=
  match body with
  | Ok a => Ok a
  | Throw e => Ok (handler e)
  end.

Definition bindR {A B} (m : Result A) (k : A -> Result B) : Result B :=
  match m with
  | Ok a => k a
  | Throw e => Throw e
  end.

(** [Promise.all(xs.map(f))]: the first rejection rejects the whole. *)
Definition promiseAll {A B} (f : A -> Result B) : list A -> Result (list B) :=
  fix go (xs : list A) : Result (list B) :=
    match xs with
    | [] => Ok []
    | x :: rest => bindR (f x) (fun b => bindR (go rest) (fun bs => Ok (b :: bs)))
    end.

(** ** JavaScript values *)

Module Js.

(** Numbers are modelled by the integers together with [NaN]: the
    engine only compares them, and the integers of a request (scores,
    counts, epoch milliseconds, minutes of the day) are exact as
    doubles.  Fractions, infinities and numbers beyond 2^53 are outside
    the model. *)
Inductive number : Type :=
| NaN
| Num (z : Z).

(** The values that occur in rule payloads and in [resourceData].
    [VNative] stands for a built-in function object reached through the
    prototype chain; it carries the text [String(f)] gives. *)
Inductive value : Type :=
| VUndefined
| VNull
| VBool (b : bool)
| VNum (n : number)
| VStr (s : string)
| VArr (items : list value)
| VObj (fields : list (string * value))
| VNative (text : string).

Definition isNaN (n : number) : bool :=
  match n with NaN => true | Num _ => false end.

(** [a < b], [a <= b], [a > b], [a >= b]: false as soon as one side is NaN. *)
Definition lessThan (a b : number) : bool :=
  match a, b with Num x, Num y => x <? y | _, _ => false end.
Definition lessEqual (a b : number) : bool :=
  match a, b with Num x, Num y => x <=? y | _, _ => false end.
Definition greaterThan (a b : number) : bool := lessThan b a.
Definition greaterEqual (a b : number) : bool := lessEqual b a.

Definition multiply (a b : number) : number :=
  match a, b with Num x, Num y => Num (x * y) | _, _ => NaN end.
Definition addition (a b : number) : number :=
  match a, b with Num x, Num y => Num (x + y) | _, _ => NaN end.

(** [Boolean(v)] *)
Definition truthy (v : value) : bool :=
  match v with
  | VUndefined | VNull => false
  | VBool b => b
  | VNum NaN => false
  | VNum (Num z) => negb (z =? 0)
  | VStr s => negb (String.eqb s EmptyString)
  | VArr _ | VObj _ | VNative _ => true
  end.

(** [a === b].  Arrays and objects are compared by reference; the two
    sides of every comparison of the engine come from different
    documents (a rule payload and the request), so they never are the
    same reference. *)
Definition strictEquals (a b : value) : bool :=
  match a, b with
  | VUndefined, VUndefined => true
  | VNull, VNull => true
  | VBool x, VBool y => Bool.eqb x y
  | VNum (Num x), VNum (Num y) => x =? y
  | VStr x, VStr y => String.eqb x y
  | _, _ => false
  end.

(** SameValueZero, the comparison of [Array.prototype.includes]. *)
Definition sameValueZero (a b : value) : bool :=
  match a, b with
  | VNum NaN, VNum NaN => true
  | _, _ => strictEquals a b
  end.

Definition arrayIncludes (items : list value) (x : value) : bool :=
  existsb (fun y => sameValueZero y x) items.

Definition stringOfZ (z : Z) : string := NilZero.string_of_int (Z.to_int z).

Definition join (sep : string) (parts : list string) : string :=
  match parts with
  | [] => EmptyString
  | p :: rest => fold_left (fun acc q => acc +:+ sep +:+ q) rest p
  end.

(** [String(v)] *)
Fixpoint toString (v : value) : string :=
  match v with
  | VUndefined => "undefined"
  | VNull => "null"
  | VBool true => "true"
  | VBool false => "false"
  | VNum NaN => "NaN"
  | VNum (Num z) => stringOfZ z
  | VStr s => s
  | VArr items =>
      join "," (map (fun x => match x with
                              | VUndefined | VNull => EmptyString
                              | _ => toString x
                              end) items)
  | VObj _ => "[object Object]"
  | VNative text => text
  end.

(** [hay.includes(needle)] on strings. *)
Fixpoint stringIncludes (hay needle : string) : bool :=
  String.prefix needle hay ||
  match hay with
  | EmptyString => false
  | String _ rest => stringIncludes rest needle
  end.

(** [s.split(sep)] for a one-character separator. *)
Fixpoint splitOn (sep : ascii) (s : string) (cur : string) : list string :=
  match s with
  | EmptyString => [cur]
  | String c rest =>
      if Ascii.eqb c sep then cur :: splitOn sep rest EmptyString
      else splitOn sep rest (cur +:+ String c EmptyString)
  end.
Definition split (sep : ascii) (s : string) : list string :=
  splitOn sep s EmptyString.

End Js.

Import Js.

(** ** The host *)

(** What the engine takes from the JavaScript run time and cannot be
    written as a function of its inputs alone. *)
Record Host : Type := {
  (** [new Function(body)()] where [body] returns the expression [e] in
      strict mode, called at the instant [now]: the value of the
      expression text, or the error it raises (a [SyntaxError] when the
      text does not parse, any error of the evaluation otherwise).  The
      text may read the clock ([new Date()]) and the other global state
      of the run time, so its value depends on the instant of the
      call. *)
  runFunction : Z -> string -> Result value;
  (** [Number(s)] for a string [s]. *)
  stringToNumber : string -> number;
  (** [s.toLowerCase()], which folds the letters of every script. *)
  toLowerCase : string -> string;
  (** [new Date(s).getTime()], [NaN] for an invalid date. *)
  parseDate : value -> number;
  (** [d.getHours()] and [d.getMinutes()] in the server's time zone, for
      the date with epoch milliseconds [d]. *)
  getHours : Z -> Z;
  getMinutes : Z -> Z;
  (** a property inherited from [Object.prototype] ([constructor],
      [toString], ...): the text of the function; [None] for every other
      name. *)
  inherited : string -> option string;
}.

(** [Number(v)] *)
Definition toNumber (H : Host) (v : value) : number :=
  match v with
  | VUndefined => NaN
  | VNull => Num 0
  | VBool true => Num 1
  | VBool false => Num 0
  | VNum n => n
  | VStr s => stringToNumber H s
  | VArr _ | VObj _ | VNative _ => stringToNumber H (toString v)
  end.

(** ** Data model ([types/index.ts]) *)

Module User.
Record t : Type := {
  id : string;
  email : string;
  roles : list string;
  permissions : list string;
}.
End User.

Module Context.
(** [RuleEvaluationContext]; dates are epoch milliseconds. *)
Record t : Type := {
  user : User.t;
  action : string;
  moduleName : string;
  resourceData : option (gmap string value);
  timestamp : option Z;
}.
End Context.

Module Condition.
(** [RuleCondition].  The members of a composite are not validated
    ([z.array(z.any())]): [None] stands for a member that is [null] or
    not an object.  The bounds of [timeRange] and [dateRange] are kept as
    values, since the evaluator parses them itself. *)
Inductive t : Type := make {
  type : option string;
  expression : option string;
  field : option string;
  operator : option string;
  value : Js.value;
  conditions : option (list (option t));
  logic : option string;
  timeRange : option (Js.value * Js.value);
  dateRange : option (Js.value * Js.value);
  roles : option (list string);
  permissions : option (list string);
}.
End Condition.

(** [!s] for an optional string member: absent or empty. *)
Definition missing (s : option string) : bool :=
  match s with
  | None => true
  | Some s => String.eqb s EmptyString
  end.

(** ** Condition evaluator *)

Section ConditionEvaluator.

Variable H : Host.
(** [new Date()] at the time of the call, used when the context carries
    no timestamp. *)
Variable wallClock : Z.

(** [obj[name]] for a plain object: own member first, then
    [Object.prototype]. *)
Definition getProperty (own : option value) (name : string) : value :=
  match own with
  | Some v => v
  | None =>
      match inherited H name with
      | Some text => VNative text
      | None => VUndefined
      end
  end.

(** [context.resourceData?.[name]] *)
Definition resourceField (context : Context.t) (name : string) : value :=
  match Context.resourceData context with
  | None => VUndefined
  | Some data => getProperty (data !! name) name
  end.

(** *** Expressions *)

Definition isDigit (c : ascii) : bool :=
  let n := nat_of_ascii c in (48 <=? n)%nat && (n <=? 57)%nat.
Definition isLetter (c : ascii) : bool :=
  let n := nat_of_ascii c in
  ((65 <=? n)%nat && (n <=? 90)%nat) || ((97 <=? n)%nat && (n <=? 122)%nat).
(** [\w] *)
Definition isWord (c : ascii) : bool :=
  isLetter c || isDigit c || Ascii.eqb c "_".
(** The white space of ASCII: tab, line feed, vertical tab, form feed,
    carriage return and space. *)
Definition isAsciiSpace (c : ascii) : bool :=
  let n := nat_of_ascii c in ((9 <=? n)%nat && (n <=? 13)%nat) || (n =? 32)%nat.

Definition doubleQuote : ascii := ascii_of_nat 34.
Definition backslash : ascii := ascii_of_nat 92.

(** The punctuation kept by the sanitizer: the dot, parentheses and
    square brackets, the comparison, boolean and arithmetic operator
    characters, both quote characters and the underscore. *)
Definition isAllowedPunctuation (c : ascii) : bool :=
  existsb (Ascii.eqb c)
    (doubleQuote :: list_ascii_of_string ".()[]<>=!&|+-*/%'_").

(** Strings hold the UTF-8 encoding of the text.  A character is one
    byte below 128, or a lead byte with the continuation bytes that
    follow it. *)
Definition isContinuation (c : ascii) : bool :=
  let n := nat_of_ascii c in (128 <=? n)%nat && (n <=? 191)%nat.

(** The number of bytes announced by the first byte of a character. *)
Definition sequenceLength (c : ascii) : nat :=
  let n := nat_of_ascii c in
  if (n <? 192)%nat then 1%nat
  else if (n <? 224)%nat then 2%nat
  else if (n <? 240)%nat then 3%nat
  else if (n <? 248)%nat then 4%nat
  else 1%nat.

Definition flush (pending : string) : list string :=
  match pending with
  | EmptyString => []
  | _ => [pending]
  end.

(** The characters of [s], [pending] being the bytes read of the current
    character and [need] the number of continuation bytes it still
    lacks. *)
Fixpoint charactersFrom (s pending : string) (need : nat) : list string :=
  match s with
  | EmptyString => flush pending
  | String c rest =>
      if (0 <? need)%nat && isContinuation c then
        if (need =? 1)%nat
        then (pending +:+ String c EmptyString) :: charactersFrom rest EmptyString O
        else charactersFrom rest (pending +:+ String c EmptyString) (need - 1)
      else
        flush pending ++
        (if (sequenceLength c =? 1)%nat
         then String c EmptyString :: charactersFrom rest EmptyString O
         else charactersFrom rest (String c EmptyString) (sequenceLength c - 1))
  end.

Definition characters (s : string) : list string := charactersFrom s EmptyString O.

Fixpoint joinCharacters (chs : list string) : string :=
  match chs with
  | [] => EmptyString
  | ch :: rest => ch +:+ joinCharacters rest
  end.

Definition utf8 (bytes : list nat) : string :=
  string_of_list_ascii (map ascii_of_nat bytes).

(** The white space outside ASCII: U+00A0, U+1680, U+2000 to U+200A,
    U+2028, U+2029, U+202F, U+205F, U+3000 and U+FEFF. *)
Definition unicodeSpaces : list string :=
  [ utf8 [194; 160]%nat; utf8 [225; 154; 128]%nat;
    utf8 [226; 128; 128]%nat; utf8 [226; 128; 129]%nat; utf8 [226; 128; 130]%nat;
    utf8 [226; 128; 131]%nat; utf8 [226; 128; 132]%nat; utf8 [226; 128; 133]%nat;
    utf8 [226; 128; 134]%nat; utf8 [226; 128; 135]%nat; utf8 [226; 128; 136]%nat;
    utf8 [226; 128; 137]%nat; utf8 [226; 128; 138]%nat;
    utf8 [226; 128; 168]%nat; utf8 [226; 128; 169]%nat; utf8 [226; 128; 175]%nat;
    utf8 [226; 129; 159]%nat; utf8 [227; 128; 128]%nat; utf8 [239; 187; 191]%nat ].

(** [\s], which is also the white space of [trim()]. *)
Definition isSpace (ch : string) : bool :=
  match ch with
  | String c EmptyString => isAsciiSpace c
  | _ => existsb (String.eqb ch) unicodeSpaces
  end.

(** The class of the regular expression of [safeEvaluate]. *)
Definition isAllowed (ch : string) : bool :=
  isSpace ch
  || match ch with
     | String c EmptyString => isLetter c || isDigit c || isAllowedPunctuation c
     | _ => false
     end.

Fixpoint trimStart (chs : list string) : list string :=
  match chs with
  | [] => []
  | ch :: rest => if isSpace ch then trimStart rest else chs
  end.

Fixpoint trimEnd (chs : list string) : list string :=
  match chs with
  | [] => []
  | ch :: rest =>
      match trimEnd rest with
      | [] => if isSpace ch then [] else [ch]
      | rest' => ch :: rest'
      end
  end.

Definition trim (chs : list string) : list string := trimEnd (trimStart chs).

(** The longest prefix of word characters. *)
Fixpoint takeWord (s : string) : string :=
  match s with
  | EmptyString => EmptyString
  | String c rest => if isWord c then String c (takeWord rest) else EmptyString
  end.

Fixpoint dropString (n : nat) (s : string) : string :=
  match n, s with
  | O, _ => s
  | S k, EmptyString => EmptyString
  | S k, String _ rest => dropString k rest
  end.

(** A match of [/root\.(\w+)/] starting at the head of [s]. *)
Definition matchReferenceAt (root s : string) : option string :=
  let head := root +:+ "." in
  if String.prefix head s then
    match takeWord (dropString (String.length head) s) with
    | EmptyString => None
    | word => Some (head +:+ word)
    end
  else None.

(** [s.match(/root\.(\w+)/g)]: the matches from left to right, each
    search resuming after the previous match.  [skip] counts the
    characters of the current match still to pass. *)
Fixpoint matchReferences (root s : string) (skip : nat) : list string :=
  match s with
  | EmptyString => []
  | String _ rest =>
      match skip with
      | S k => matchReferences root rest k
      | O =>
          match matchReferenceAt root s with
          | Some m => m :: matchReferences root rest (String.length m - 1)
          | None => matchReferences root rest O
          end
      end
  end.

(** The first occurrence of [pattern] in [s]: what precedes it and what
    follows it. *)
Fixpoint findFirst (pattern s : string) (before : string) : option (string * string) :=
  if String.prefix pattern s
  then Some (before, dropString (String.length pattern) s)
  else
    match s with
    | EmptyString => None
    | String c rest => findFirst pattern rest (before +:+ String c EmptyString)
    end.

(** The replacement text of [String.prototype.replace] for a string
    pattern: a dollar sign followed by a dollar sign, an ampersand, a
    backquote or a quote is expanded. *)
Fixpoint getSubstitution (matched before after replacement : string) : string :=
  match replacement with
  | EmptyString => EmptyString
  | String c rest =>
      if Ascii.eqb c "$" then
        match rest with
        | String d rest' =>
            if Ascii.eqb d "$" then
              String "$" (getSubstitution matched before after rest')
            else if Ascii.eqb d "&" then
              matched +:+ getSubstitution matched before after rest'
            else if Ascii.eqb d "`" then
              before +:+ getSubstitution matched before after rest'
            else if Ascii.eqb d "'" then
              after +:+ getSubstitution matched before after rest'
            else String c (getSubstitution matched before after rest)
        | EmptyString => String c EmptyString
        end
      else String c (getSubstitution matched before after rest)
  end.

(** [s.replace(pattern, replacement)] with a string pattern: the first
    occurrence only. *)
Definition replaceFirst (s pattern replacement : string) : string :=
  match findFirst pattern s EmptyString with
  | None => s
  | Some (before, after) =>
      before +:+ getSubstitution pattern before after replacement +:+ after
  end.

(** Every double quote of [s] is preceded by a backslash (the global
    [replace] of [safeEvaluate]). *)
Fixpoint escapeQuotes (s : string) : string :=
  match s with
  | EmptyString => EmptyString
  | String c rest =>
      if Ascii.eqb c doubleQuote
      then String backslash (String doubleQuote (escapeQuotes rest))
      else String c (escapeQuotes rest)
  end.

(** The literal substituted for a reference whose value is defined. *)
Definition safeValue (v : value) : string :=
  match v with
  | VStr s => String doubleQuote (escapeQuotes s) +:+ String doubleQuote EmptyString
  | _ => toString v
  end.

(** The object [safeEvaluate] receives from [evaluateExpression]. *)
Record EvalContext : Type := {
  ec_user : User.t;
  ec_data : gmap string value;
  ec_action : string;
  ec_timestamp : Z;
}.

(** [context.user?.[name]] *)
Definition userField (u : User.t) (name : string) : value :=
  getProperty
    (if String.eqb name "id" then Some (VStr (User.id u))
     else if String.eqb name "email" then Some (VStr (User.email u))
     else if String.eqb name "roles" then Some (VArr (map VStr (User.roles u)))
     else if String.eqb name "permissions"
          then Some (VArr (map VStr (User.permissions u)))
     else None)
    name.

(** One step of the [forEach] over the matches: replace the first
    occurrence of the reference by its literal, or by [null]. *)
Definition substitute (lookup : string -> value) (processed m : string) : string :=
  let name := nth 1 (split "." m) EmptyString in
  match lookup name with
  | VUndefined => replaceFirst processed m "null"
  | v => replaceFirst processed m (safeValue v)
  end.

(** The first statement of [safeEvaluate]: drop every character outside
    the allowed set, then trim. *)
Definition sanitize (expression : string) : string :=
  joinCharacters (trim (List.filter isAllowed (characters expression))).

(** The two [forEach] loops of [safeEvaluate]: the references to
    [data] are replaced first, then those to [user]; both lists of
    matches are taken from the sanitized expression. *)
Definition substituteReferences (sanitizedExpression : string)
    (context : EvalContext) : string :=
  let dataMatches := matchReferences "data" sanitizedExpression O in
  let processedExpression :=
    fold_left
      (substitute (fun name => getProperty (ec_data context !! name) name))
      dataMatches sanitizedExpression in
  let userMatches := matchReferences "user" sanitizedExpression O in
  fold_left (substitute (userField (ec_user context)))
    userMatches processedExpression.

Definition safeEvaluate (expression : string) (context : EvalContext) : Result bool :=
  tryCatch
    (let sanitizedExpression := sanitize expression in
     if String.eqb sanitizedExpression EmptyString then Ok false
     else
       bindR (runFunction H wallClock
                (substituteReferences sanitizedExpression context))
         (fun result => Ok (truthy result)))
    (fun _ => false).

(** The object [evaluateExpression] builds for [safeEvaluate]. *)
Definition evalContextOf (context : Context.t) : EvalContext :=
  {| ec_user := Context.user context;
     ec_data := default ∅ (Context.resourceData context);
     ec_action := Context.action context;
     ec_timestamp := default wallClock (Context.timestamp context) |}.

Definition evaluateExpression (condition : Condition.t) (context : Context.t)
  : Result bool :=
  if missing (Condition.expression condition) then Ok false
  else
    tryCatch
      (safeEvaluate (default EmptyString (Condition.expression condition))
         (evalContextOf context))
      (fun _ => false).

(** *** Thresholds *)

Definition evaluateThreshold (condition : Condition.t) (context : Context.t)
  : Result bool :=
  if missing (Condition.field condition)
     || missing (Condition.operator condition)
     || match Condition.value condition with VUndefined => true | _ => false end
  then Ok false
  else
    let fieldValue :=
      resourceField context (default EmptyString (Condition.field condition)) in
    match fieldValue with
    | VUndefined | VNull => Ok false
    | _ =>
        let value := Condition.value condition in
        let operator := default EmptyString (Condition.operator condition) in
        tryCatch
          (if String.eqb operator "eq" then Ok (strictEquals fieldValue value)
           else if String.eqb operator "ne" then Ok (negb (strictEquals fieldValue value))
           else if String.eqb operator "gt"
                then Ok (greaterThan (toNumber H fieldValue) (toNumber H value))
           else if String.eqb operator "gte"
                then Ok (greaterEqual (toNumber H fieldValue) (toNumber H value))
           else if String.eqb operator "lt"
                then Ok (lessThan (toNumber H fieldValue) (toNumber H value))
           else if String.eqb operator "lte"
                then Ok (lessEqual (toNumber H fieldValue) (toNumber H value))
           else if String.eqb operator "in"
                then Ok (match value with
                         | VArr items => arrayIncludes items fieldValue
                         | _ => false
                         end)
           else if String.eqb operator "nin"
                then Ok (match value with
                         | VArr items => negb (arrayIncludes items fieldValue)
                         | _ => false
                         end)
           else if String.eqb operator "contains"
                then Ok (stringIncludes (toLowerCase H (toString fieldValue))
                                        (toLowerCase H (toString value)))
           else if String.eqb operator "between"
                then Ok (match value with
                         | VArr [lo; hi] =>
                             let numValue := toNumber H fieldValue in
                             greaterEqual numValue (toNumber H lo) && lessEqual numValue (toNumber H hi)
                         | _ => false
                         end)
           else Ok false)
          (fun _ => false)
    end.

(** *** Time windows *)

(** [bound.split(':').map(Number)]; a bound that is not a string has no
    [split] method, and the call throws a [TypeError]. *)
Definition parseClock (bound : value) : Result (list number) :=
  match bound with
  | VStr s => Ok (map (stringToNumber H) (split ":" s))
  | _ => Throw "TypeError: split is not a function"
  end.

(** An element of a destructured array; a missing one is [undefined],
    for which [isNaN] holds. *)
Definition element (i : nat) (xs : list number) : number := nth i xs NaN.

Definition evaluateTimeBased (condition : Condition.t) (context : Context.t)
  : Result bool :=
  let now := default wallClock (Context.timestamp context) in
  tryCatch
    (match Condition.timeRange condition with
     | Some (start, end_) =>
         let currentTime := Num (getHours H now * 60 + getMinutes H now) in
         bindR (parseClock start) (fun startParts =>
         bindR (parseClock end_) (fun endParts =>
         let startHour := element 0 startParts in
         let startMin := element 1 startParts in
         let endHour := element 0 endParts in
         let endMin := element 1 endParts in
         if isNaN startHour || isNaN startMin || isNaN endHour || isNaN endMin
         then Ok false
         else
           let startTime := addition (multiply startHour (Num 60)) startMin in
           let endTime := addition (multiply endHour (Num 60)) endMin in
           Ok (greaterEqual currentTime startTime && lessEqual currentTime endTime)))
     | None =>
         match Condition.dateRange condition with
         | Some (start, end_) =>
             let start := parseDate H start in
             let end_ := parseDate H end_ in
             if isNaN start || isNaN end_ then Ok false
             else Ok (greaterEqual (Num now) start && lessEqual (Num now) end_)
         | None => Ok false
         end
     end)
    (fun _ => false).

(** *** Roles and permissions *)

(** [declared.some(x => held.includes(x))] *)
Definition anyHeld (declared held : list string) : bool :=
  existsb (fun x => existsb (String.eqb x) held) declared.

Definition evaluateRoleBased (condition : Condition.t) (context : Context.t)
  : Result bool :=
  match Condition.roles condition with
  | None | Some [] => Ok false
  | Some roles => Ok (anyHeld roles (User.roles (Context.user context)))
  end.

Definition evaluatePermissionBased (condition : Condition.t) (context : Context.t)
  : Result bool :=
  match Condition.permissions condition with
  | None | Some [] => Ok false
  | Some permissions =>
      Ok (anyHeld permissions (User.permissions (Context.user context)))
  end.

(** *** Composite conditions and the dispatcher *)

(** [evaluateComposite], with the evaluator it calls on each member as
    an argument.  The guard on [conditions] stands before the [try]. *)
Definition evaluateComposite
    (evaluateMember : option Condition.t -> Result bool)
    (condition : Condition.t) : Result bool :=
  match Condition.conditions condition with
  | None | Some [] => Ok false
  | Some conditions =>
      tryCatch
        (bindR (promiseAll evaluateMember conditions) (fun results =>
         match Condition.logic condition with
         | Some "OR" => Ok (existsb (fun r => r) results)
         | _ => Ok (forallb (fun r => r) results)
         end))
        (fun _ => false)
  end.

(** The body of [evaluateCondition] for a condition that is an object.
    The synchronous evaluators run inside the [try]; the promise of
    [evaluateComposite] is returned without being awaited, so its
    outcome is not subject to the [catch]. *)
Fixpoint evaluateConditionObject (context : Context.t) (condition : Condition.t)
  : Result bool :=
  if missing (Condition.type condition) then Ok false
  else
    let type := default EmptyString (Condition.type condition) in
    if String.eqb type "expression"
    then tryCatch (evaluateExpression condition context) (fun _ => false)
    else if String.eqb type "threshold"
    then tryCatch (evaluateThreshold condition context) (fun _ => false)
    else if String.eqb type "time_based"
    then tryCatch (evaluateTimeBased condition context) (fun _ => false)
    else if String.eqb type "role_based"
    then tryCatch (evaluateRoleBased condition context) (fun _ => false)
    else if String.eqb type "permission_based"
    then tryCatch (evaluatePermissionBased condition context) (fun _ => false)
    else if String.eqb type "composite"
    then evaluateComposite
           (fun member =>
              match member with
              | None => Ok false
              | Some c => evaluateConditionObject context c
              end)
           condition
    else Ok false.

Definition evaluateCondition (condition : option Condition.t) (context : Context.t)
  : Result bool :=
  match condition with
  | None => Ok false
  | Some c => evaluateConditionObject context c
  end.

End ConditionEvaluator.

(** ** Rules, exceptions and results *)

Inductive ActionType : Type := ALLOW | BLOCK | MODIFY | WARN | REQUIRE_APPROVAL.

Inductive Decision : Type :=
  ALLOWED | BLOCKED | MODIFIED | WARNING | APPROVAL_REQUIRED | ERROR.

Module Action.
(** [RuleAction] *)
Record t : Type := {
  type : string;
  message : option string;
  modifications : option (gmap string value);
  approvers : option (list string);
  notifyUsers : option (list string);
}.
End Action.

Module Rule.
(** A row of the [Rule] table.  [actionType] is an enumeration of the
    database, so the [default] case of the [switch] in [evaluateRules]
    has no counterpart. *)
Record t : Type := {
  id : string;
  name : string;
  moduleName : string;
  description : option string;
  category : string;
  conditionType : string;
  conditionPayload : Condition.t;
  actionType : ActionType;
  actionPayload : option Action.t;
  severityLevel : string;
  priority : Z;
  isActive : bool;
  effectiveFrom : Z;
  effectiveTo : option Z;
  version : Z;
  parentRuleId : option string;
  createdBy : string;
  createdAt : Z;
}.
End Rule.

Module RuleException.
(** A row of the [RuleException] table, with the columns the engine
    queries. *)
Record t : Type := {
  id : string;
  userId : string;
  ruleId : string;
  isActive : bool;
  effectiveFrom : Z;
  effectiveTo : Z;
}.
End RuleException.

Module UpdateRuleDTO.
Record t : Type := {
  name : option string;
  description : option string;
  conditionPayload : option Condition.t;
  actionPayload : option Action.t;
  severityLevel : option string;
  priority : option Z;
  isActive : option bool;
  effectiveFrom : option Z;
  effectiveTo : option Z;
}.
End UpdateRuleDTO.

Module CreateRuleDTO.
Record t : Type := {
  name : string;
  moduleName : string;
  description : option string;
  category : string;
  conditionType : string;
  conditionPayload : Condition.t;
  actionType : ActionType;
  actionPayload : option Action.t;
  severityLevel : option string;
  priority : option Z;
  isActive : option bool;
  effectiveFrom : option Z;
  effectiveTo : option Z;
}.
End CreateRuleDTO.

Module BulkUpdate.
(** An element of the [updates] argument of [bulkUpdateRules]. *)
Record t : Type := {
  ruleId : string;
  isActive : option bool;
  priority : option Z;
}.
End BulkUpdate.

Module Triggered.
(** An entry of [triggeredRules]. *)
Record t : Type := {
  ruleId : string;
  ruleName : string;
  severity : string;
  action : ActionType;
}.
End Triggered.

Module EvaluationResult.
(** [RuleEvaluationResult]; the members [createResult] may leave
    undefined are options. *)
Record t : Type := {
  decision : Decision;
  message : option string;
  triggeredRules : list Triggered.t;
  modifications : option (gmap string value);
  requiresApproval : option bool;
  approvers : option (list string);
  executionTimeMs : Z;
  error : option string;
}.
End EvaluationResult.

(** ** The world the engine runs in *)

Inductive AuditStatus : Type := SUCCESS | FAILURE.

(** What a call does to its collaborators, in program order.
    [EvaluateCondition] records a call of the condition evaluator on the
    payload of a rule and [CheckRuleException] a call of the exception
    checker; the others are the queries and writes handed to Prisma and to
    the audit service. *)
Inductive Event : Type :=
| RuleFindMany (moduleName : string)
| CheckRuleException (userId : string) (ruleIds : list string)
| RuleExceptionFindFirst (userId : string) (ruleIds : list string)
| EvaluateCondition (ruleId : string)
| RuleLogCreate (ruleId : string) (conditionMet : bool)
    (actionTaken : ActionType) (decision : Decision)
| AuditLog (status : AuditStatus) (userId action resource : string)
    (errorMessage resourceId : option string).

Record CacheEntry : Type := {
  rules : list Rule.t;
  lastUpdated : Z;
}.

(** The two tables behind Prisma, whether the database answers, the
    identifiers it gives to created rows ([cuid()]: the n-th row created
    gets [idSupply n]) and how many it has given, the module-level
    [rulesCache], the wall clock and the trace of effects.
    A call is atomic for the clock: every [Date.now()] and [new Date()]
    of one call reads the same instant; the environment moves the clock
    between calls. *)
Record World : Type := {
  ruleTable : list Rule.t;
  exceptionTable : list RuleException.t;
  storeAvailable : bool;
  idSupply : nat -> string;
  idsIssued : nat;
  rulesCache : gmap string CacheEntry;
  clock : Z;
  events : list Event;
}.

Definition setCache (f : gmap string CacheEntry -> gmap string CacheEntry) (w : World)
  : World :=
  {| ruleTable := ruleTable w; exceptionTable := exceptionTable w;
     storeAvailable := storeAvailable w; idSupply := idSupply w;
     idsIssued := idsIssued w;
     rulesCache := f (rulesCache w);
     clock := clock w; events := events w |}.

Definition setRuleTable (f : list Rule.t -> list Rule.t) (w : World) : World :=
  {| ruleTable := f (ruleTable w); exceptionTable := exceptionTable w;
     storeAvailable := storeAvailable w; idSupply := idSupply w;
     idsIssued := idsIssued w;
     rulesCache := rulesCache w;
     clock := clock w; events := events w |}.

Definition addEvent (e : Event) (w : World) : World :=
  {| ruleTable := ruleTable w; exceptionTable := exceptionTable w;
     storeAvailable := storeAvailable w; idSupply := idSupply w;
     idsIssued := idsIssued w;
     rulesCache := rulesCache w;
     clock := clock w; events := events w ++ [e] |}.

(** The environment between two calls: time passes. *)
Definition advanceClock (d : Z) (w : World) : World :=
  {| ruleTable := ruleTable w; exceptionTable := exceptionTable w;
     storeAvailable := storeAvailable w; idSupply := idSupply w;
     idsIssued := idsIssued w;
     rulesCache := rulesCache w;
     clock := clock w + d; events := events w |}.

(** *** State and exceptions *)

(** An asynchronous computation of the service: it reads and updates the
    world and resolves or rejects.  The world survives a rejection. *)
Definition M (A : Type) : Type := World -> Result A * World.

Definition ret {A} (a : A) : M A := fun w => (Ok a, w).
Definition throw {A} (e : string) : M A := fun w => (Throw e, w).
Definition bind {A B} (m : M A) (k : A -> M B) : M B :=
  fun w =>
    match m w with
    | (Ok a, w') => k a w'
    | (Throw e, w') => (Throw e, w')
    end.
Definition tryM {A} (body : M A) (handler : string -> M A) : M A :=
  fun w =>
    match body w with
    | (Ok a, w') => (Ok a, w')
    | (Throw e, w') => handler e w'
    end.
Definition liftResult {A} (r : Result A) : M A := fun w => (r, w).
Definition emit (e : Event) : M unit := fun w => (Ok tt, addEvent e w).
Definition dateNow : M Z := fun w => (Ok (clock w), w).

Notation "'let*' x ':=' m 'in' k" := (bind m (fun x => k))
  (at level 10, x name, m at level 100, k at level 200).
Notation "m ';;' k" := (bind m (fun _ => k))
  (at level 100, k at level 200, right associativity).

(** ** Collaborators *)

(** *** Prisma *)

(** [orderBy: [{ priority: 'asc' }, { createdAt: 'asc' }]] *)
Definition ruleOrder (a b : Rule.t) : bool :=
  (Rule.priority a <? Rule.priority b)
  || ((Rule.priority a =? Rule.priority b) && (Rule.createdAt a <=? Rule.createdAt b)).

Fixpoint insertRule (r : Rule.t) (sorted : list Rule.t) : list Rule.t :=
  match sorted with
  | [] => [r]
  | x :: rest => if ruleOrder r x then r :: sorted else x :: insertRule r rest
  end.

(** The database leaves the order of rows with equal sort keys open; here
    they come in table order. *)
Fixpoint orderBy (rows : list Rule.t) : list Rule.t :=
  match rows with
  | [] => []
  | r :: rest => insertRule r (orderBy rest)
  end.

(** The two columns the query orders by. *)
Definition sortKey (r : Rule.t) : Z * Z := (Rule.priority r, Rule.createdAt r).

(** The [where] clause of [getCachedRules], at the instant [now]. *)
Definition activeRuleWhere (moduleName : string) (now : Z) (r : Rule.t) : bool :=
  String.eqb (Rule.moduleName r) moduleName
  && Rule.isActive r
  && (Rule.effectiveFrom r <=? now)
  && match Rule.effectiveTo r with
     | None => true
     | Some to => now <=? to
     end.

(** [prisma.rule.findMany] with that clause and order; it rejects when
    the database does not answer. *)
Definition ruleFindMany (moduleName : string) : M (list Rule.t) :=
  emit (RuleFindMany moduleName) ;;
  fun w =>
    if storeAvailable w
    then (Ok (orderBy (List.filter (activeRuleWhere moduleName (clock w))
                              (ruleTable w))), w)
    else (Throw "Can't reach database server", w).

(** The [where] clause of [checkRuleException]. *)
Definition exceptionWhere (userId : string) (ruleIds : list string) (now : Z)
    (e : RuleException.t) : bool :=
  String.eqb (RuleException.userId e) userId
  && existsb (String.eqb (RuleException.ruleId e)) ruleIds
  && RuleException.isActive e
  && (RuleException.effectiveFrom e <=? now)
  && (now <=? RuleException.effectiveTo e).

(** [prisma.ruleException.findFirst] *)
Definition ruleExceptionFindFirst (userId : string) (ruleIds : list string)
  : M (option RuleException.t) :=
  emit (RuleExceptionFindFirst userId ruleIds) ;;
  fun w =>
    if storeAvailable w
    then (Ok (List.find (exceptionWhere userId ruleIds (clock w)) (exceptionTable w)), w)
    else (Throw "Can't reach database server", w).

(** *** Audit service *)

(** [AuditService.logSuccess] and [AuditService.logFailure] schedule the
    write and never reject. *)
Definition logSuccess (userId action resource : string) (resourceId : option string)
  : M unit :=
  emit (AuditLog SUCCESS userId action resource None resourceId).

Definition logFailure (userId action resource errorMessage : string)
    (resourceId : option string) : M unit :=
  emit (AuditLog FAILURE userId action resource (Some errorMessage) resourceId).

(** ** The rules service *)

Definition CACHE_TTL : Z := 5 * 60 * 1000.

(** [getCachedRules]: the cached list while it is younger than the TTL,
    a fresh query (stored in the cache) otherwise. *)
Definition getCachedRules (moduleName : string) : M (list Rule.t) :=
  fun w =>
    let cached := rulesCache w !! moduleName in
    let now := clock w in
    match cached with
    | Some entry =>
        if now - lastUpdated entry <? CACHE_TTL then (Ok (rules entry), w)
        else
          (let* rules := ruleFindMany moduleName in
           fun w' =>
             (Ok rules,
              setCache (insert moduleName {| rules := rules; lastUpdated := now |}) w')) w
    | None =>
        (let* rules := ruleFindMany moduleName in
         fun w' =>
           (Ok rules,
            setCache (insert moduleName {| rules := rules; lastUpdated := now |}) w')) w
    end.

(** [clearCache(moduleName?)] *)
Definition clearCache (moduleName : option string) : M unit :=
  fun w =>
    match moduleName with
    | Some m => if String.eqb m EmptyString
                then (Ok tt, setCache (fun _ => ∅) w)
                else (Ok tt, setCache (delete m) w)
    | None => (Ok tt, setCache (fun _ => ∅) w)
    end.

(** [checkRuleException]: no query for an empty id list; a failing query
    counts as no exception. *)
Definition checkRuleException (userId : string) (ruleIds : list string) : M bool :=
  emit (CheckRuleException userId ruleIds) ;;
  match ruleIds with
  | [] => ret false
  | _ =>
      tryM
        (let* exception := ruleExceptionFindFirst userId ruleIds in
         ret (match exception with Some _ => true | None => false end))
        (fun _ => ret false)
  end.

(** [logRuleEvaluation]: called without [await]; the write is scheduled
    and its failure is swallowed. *)
Definition logRuleEvaluation (ruleId : string) (conditionMet : bool)
    (actionTaken : ActionType) (decision : Decision) : M unit :=
  emit (RuleLogCreate ruleId conditionMet actionTaken decision).

Definition createResult (decision : Decision) (triggeredRules : list Triggered.t)
    (startTime : Z) (message : option string)
    (modifications : option (gmap string value))
    (requiresApproval : option bool) (approvers : option (list string))
  : M EvaluationResult.t :=
  let* now := dateNow in
  ret {| EvaluationResult.decision := decision;
         EvaluationResult.message := message;
         EvaluationResult.triggeredRules := triggeredRules;
         EvaluationResult.modifications := modifications;
         EvaluationResult.requiresApproval := requiresApproval;
         EvaluationResult.approvers := approvers;
         EvaluationResult.executionTimeMs := now - startTime;
         EvaluationResult.error := None |}.

(** The local variables of [evaluateRules] that the loop updates. *)
Record LoopState : Type := {
  triggeredRules : list Triggered.t;
  finalDecision : Decision;
  finalMessage : string;
  modifications : gmap string value;
  requiresApproval : bool;
  approvers : list string;
}.

Definition initialState : LoopState :=
  {| triggeredRules := []; finalDecision := ALLOWED; finalMessage := EmptyString;
     modifications := ∅; requiresApproval := false; approvers := [] |}.

(** [payload?.message || fallback] *)
Definition messageOr (payload : option Action.t) (fallback : string) : string :=
  match payload with
  | Some a =>
      match Action.message a with
      | Some m => if String.eqb m EmptyString then fallback else m
      | None => fallback
      end
  | None => fallback
  end.

(** [[...new Set(xs)]]: the first occurrence of each element, in order. *)
Fixpoint uniqueFrom (seen xs : list string) : list string :=
  match xs with
  | [] => []
  | x :: rest =>
      if existsb (String.eqb x) seen then uniqueFrom seen rest
      else x :: uniqueFrom (x :: seen) rest
  end.
Definition unique (xs : list string) : list string := uniqueFrom [] xs.

(** [{ ...acc, ...more }]: the members of [more] overwrite those of [acc]. *)
Definition spread (acc more : gmap string value) : gmap string value := more ∪ acc.

Definition decisionEqb (a b : Decision) : bool :=
  match a, b with
  | ALLOWED, ALLOWED | BLOCKED, BLOCKED | MODIFIED, MODIFIED
  | WARNING, WARNING | APPROVAL_REQUIRED, APPROVAL_REQUIRED | ERROR, ERROR => true
  | _, _ => false
  end.

(** What one iteration of the loop leaves: the updated variables, or the
    value [evaluateRules] returns from inside the loop. *)
Inductive Step : Type :=
| Continue (st : LoopState)
| Return (result : EvaluationResult.t).

Section DecisionResolver.

(** [this.evaluateCondition], at the wall-clock instant of the call.
    The loop guards each call with its own [try], whatever the
    evaluator is. *)
Variable evaluator : Z -> option Condition.t -> Context.t -> Result bool.

Definition pushTriggered (rule : Rule.t) (st : LoopState) : LoopState :=
  {| triggeredRules :=
       triggeredRules st ++
       [{| Triggered.ruleId := Rule.id rule; Triggered.ruleName := Rule.name rule;
           Triggered.severity := Rule.severityLevel rule;
           Triggered.action := Rule.actionType rule |}];
     finalDecision := finalDecision st; finalMessage := finalMessage st;
     modifications := modifications st; requiresApproval := requiresApproval st;
     approvers := approvers st |}.

(** The messages of the four cases, each with its fallback. *)
Definition blockMessage (rule : Rule.t) : string :=
  messageOr (Rule.actionPayload rule) ("Action blocked by rule: " +:+ Rule.name rule).
Definition approvalMessage (rule : Rule.t) : string :=
  messageOr (Rule.actionPayload rule)
    ("Approval required by rule: " +:+ Rule.name rule).
Definition modifyMessage (rule : Rule.t) : string :=
  messageOr (Rule.actionPayload rule) ("Action modified by rule: " +:+ Rule.name rule).
Definition warnMessage (rule : Rule.t) : string :=
  messageOr (Rule.actionPayload rule) ("Warning from rule: " +:+ Rule.name rule).

(** [case 'REQUIRE_APPROVAL'] *)
Definition onRequireApproval (rule : Rule.t) (st : LoopState) : LoopState :=
  let actionPayload := Rule.actionPayload rule in
  if decisionEqb (finalDecision st) BLOCKED then st
  else
    {| triggeredRules := triggeredRules st;
       finalDecision := APPROVAL_REQUIRED;
       finalMessage := approvalMessage rule;
       modifications := modifications st;
       requiresApproval := true;
       approvers :=
         match actionPayload with
         | Some a =>
             match Action.approvers a with
             | Some more => unique (approvers st ++ more)
             | None => approvers st
             end
         | None => approvers st
         end |}.

(** [case 'MODIFY']: three independent statements, on the decision, on
    the accumulated modifications and on the message. *)
Definition onModify (rule : Rule.t) (st : LoopState) : LoopState :=
  let actionPayload := Rule.actionPayload rule in
  {| triggeredRules := triggeredRules st;
     finalDecision :=
       if decisionEqb (finalDecision st) BLOCKED
          || decisionEqb (finalDecision st) APPROVAL_REQUIRED
       then finalDecision st else MODIFIED;
     finalMessage :=
       if String.eqb (finalMessage st) EmptyString
       then modifyMessage rule
       else finalMessage st;
     modifications :=
       match actionPayload with
       | Some a =>
           match Action.modifications a with
           | Some more => spread (modifications st) more
           | None => modifications st
           end
       | None => modifications st
       end;
     requiresApproval := requiresApproval st;
     approvers := approvers st |}.

(** [case 'WARN'] *)
Definition onWarn (rule : Rule.t) (st : LoopState) : LoopState :=
  if decisionEqb (finalDecision st) ALLOWED then
    {| triggeredRules := triggeredRules st;
       finalDecision := WARNING;
       finalMessage := warnMessage rule;
       modifications := modifications st;
       requiresApproval := requiresApproval st;
       approvers := approvers st |}
  else st.

(** The [switch] on [rule.actionType], for a rule already pushed on
    [triggeredRules].  [case 'BLOCK'] returns from [evaluateRules]. *)
Definition applyAction (context : Context.t) (startTime : Z) (rule : Rule.t)
    (st : LoopState) : M Step :=
  match Rule.actionType rule with
  | BLOCK =>
      let finalMessage := blockMessage rule in
      logFailure (User.id (Context.user context))
        ("RULE_BLOCKED_" +:+ Context.action context)
        (Context.moduleName context) finalMessage None ;;
      let* result :=
        createResult BLOCKED (triggeredRules st) startTime (Some finalMessage)
          None None None in
      ret (Return result)
  | REQUIRE_APPROVAL => ret (Continue (onRequireApproval rule st))
  | MODIFY => ret (Continue (onModify rule st))
  | WARN => ret (Continue (onWarn rule st))
  | ALLOW => ret (Continue st)
  end.

(** [rule.effectiveFrom > now || (rule.effectiveTo && rule.effectiveTo < now)] *)
Definition notEffective (rule : Rule.t) (now : Z) : bool :=
  (now <? Rule.effectiveFrom rule)
  || match Rule.effectiveTo rule with
     | Some to => to <? now
     | None => false
     end.

(** The body of the [for] loop with its [try] and [catch]. *)
Definition evaluateRule (context : Context.t) (startTime : Z) (rule : Rule.t)
    (st : LoopState) : M Step :=
  tryM
    (let* wall := dateNow in
     let now := default wall (Context.timestamp context) in
     if notEffective rule now then ret (Continue st)
     else
       emit (EvaluateCondition (Rule.id rule)) ;;
       let* conditionMet :=
         liftResult (evaluator wall (Some (Rule.conditionPayload rule)) context) in
       logRuleEvaluation (Rule.id rule) conditionMet (Rule.actionType rule)
         (finalDecision st) ;;
       if conditionMet
       then applyAction context startTime rule (pushTriggered rule st)
       else ret (Continue st))
    (fun ruleError =>
       logFailure (User.id (Context.user context)) "RULE_EVALUATION_ERROR"
         (Context.moduleName context)
         ("Error in rule " +:+ Rule.name rule +:+ ": " +:+ ruleError)
         (Some (Rule.id rule)) ;;
       ret (Continue st)).

(** The [for] loop and what follows it. *)
Fixpoint evaluateLoop (context : Context.t) (startTime : Z) (rules : list Rule.t)
    (st : LoopState) : M EvaluationResult.t :=
  match rules with
  | [] =>
      let* result :=
        createResult (finalDecision st) (triggeredRules st) startTime
          (Some (finalMessage st)) (Some (modifications st))
          (Some (requiresApproval st)) (Some (approvers st)) in
      logSuccess (User.id (Context.user context))
        ("RULE_EVALUATION_" +:+ Context.action context)
        (Context.moduleName context) None ;;
      ret result
  | rule :: rest =>
      let* step := evaluateRule context startTime rule st in
      match step with
      | Continue st' => evaluateLoop context startTime rest st'
      | Return result => ret result
      end
  end.

(** [!context.user?.id || !context.moduleName || !context.action] *)
Definition invalidContext (context : Context.t) : bool :=
  String.eqb (User.id (Context.user context)) EmptyString
  || String.eqb (Context.moduleName context) EmptyString
  || String.eqb (Context.action context) EmptyString.

(** The body of [evaluateRules], for any implementation of
    [this.evaluateCondition]. *)
Definition evaluateRulesWith (context : Context.t) : M EvaluationResult.t :=
  let* startTime := dateNow in
  tryM
    (if invalidContext context
     then throw "Invalid evaluation context: missing required fields"
     else
       let* rules := getCachedRules (Context.moduleName context) in
       match rules with
       | [] => createResult ALLOWED [] startTime (Some "No active rules found")
                 None None None
       | _ =>
           let* hasException :=
             checkRuleException (User.id (Context.user context))
               (map Rule.id rules) in
           if hasException
           then createResult ALLOWED [] startTime (Some "User has rule exception")
                  None None None
           else evaluateLoop context startTime rules initialState
       end)
    (fun error =>
       let* now := dateNow in
       logFailure (User.id (Context.user context))
         ("RULE_EVALUATION_ERROR_" +:+ Context.action context)
         (Context.moduleName context) error None ;;
       ret {| EvaluationResult.decision := ERROR;
              EvaluationResult.message := Some "Rule evaluation failed";
              EvaluationResult.triggeredRules := [];
              EvaluationResult.modifications := None;
              EvaluationResult.requiresApproval := None;
              EvaluationResult.approvers := None;
              EvaluationResult.executionTimeMs := now - startTime;
              EvaluationResult.error := Some error |}).

End DecisionResolver.

(** [RulesService.evaluateRules] *)
Definition evaluateRules (H : Host) (context : Context.t) : M EvaluationResult.t :=
  evaluateRulesWith (evaluateCondition H) context.

(** ** Rule life cycle *)

(** [prisma.rule.findUnique({ where: { id } })] *)
Definition ruleFindUnique (ruleId : string) : M (option Rule.t) :=
  fun w =>
    if storeAvailable w
    then (Ok (List.find (fun r => String.eqb (Rule.id r) ruleId) (ruleTable w)), w)
    else (Throw "Can't reach database server", w).

(** [prisma.rule.create]: the database assigns the identifier and the
    creation time; the identifier is a primary key. *)
Definition ruleCreate (row : string -> Z -> Rule.t) : M Rule.t :=
  fun w =>
    if storeAvailable w then
      let newId := idSupply w (idsIssued w) in
      if existsb (fun r => String.eqb (Rule.id r) newId) (ruleTable w)
      then (Throw "Unique constraint failed on the fields: (id)", w)
      else
        let created := row newId (clock w) in
        (Ok created,
         {| ruleTable := ruleTable w ++ [created];
            exceptionTable := exceptionTable w;
            storeAvailable := storeAvailable w; idSupply := idSupply w;
            idsIssued := S (idsIssued w);
            rulesCache := rulesCache w; clock := clock w;
            events := events w |})
    else (Throw "Can't reach database server", w).

Definition deactivate (r : Rule.t) : Rule.t :=
  {| Rule.id := Rule.id r; Rule.name := Rule.name r;
     Rule.moduleName := Rule.moduleName r; Rule.description := Rule.description r;
     Rule.category := Rule.category r; Rule.conditionType := Rule.conditionType r;
     Rule.conditionPayload := Rule.conditionPayload r;
     Rule.actionType := Rule.actionType r; Rule.actionPayload := Rule.actionPayload r;
     Rule.severityLevel := Rule.severityLevel r; Rule.priority := Rule.priority r;
     Rule.isActive := false;
     Rule.effectiveFrom := Rule.effectiveFrom r; Rule.effectiveTo := Rule.effectiveTo r;
     Rule.version := Rule.version r; Rule.parentRuleId := Rule.parentRuleId r;
     Rule.createdBy := Rule.createdBy r; Rule.createdAt := Rule.createdAt r |}.

(** [prisma.rule.update({ where: { id }, data: { isActive: false } })] *)
Definition ruleDeactivate (ruleId : string) : M unit :=
  fun w =>
    if storeAvailable w
    then (Ok tt,
          setRuleTable
            (map (fun r => if String.eqb (Rule.id r) ruleId then deactivate r else r)) w)
    else (Throw "Can't reach database server", w).

(** [given || inherited] on optional strings: an empty string is falsy. *)
Definition orElse (given : option string) (inherited : string) : string :=
  match given with
  | Some s => if String.eqb s EmptyString then inherited else s
  | None => inherited
  end.

(** [RulesService.updateRule] *)
Definition updateRule (ruleId : string) (data : UpdateRuleDTO.t) (updatedBy : string)
  : M Rule.t :=
  let* found := ruleFindUnique ruleId in
  match found with
  | None => throw "Rule not found"
  | Some existingRule =>
      let* newVersion :=
        ruleCreate (fun newId now =>
          {| Rule.id := newId;
             Rule.name := orElse (UpdateRuleDTO.name data) (Rule.name existingRule);
             Rule.moduleName := Rule.moduleName existingRule;
             Rule.description :=
               match UpdateRuleDTO.description data with
               | Some d => if String.eqb d EmptyString
                           then Rule.description existingRule else Some d
               | None => Rule.description existingRule
               end;
             Rule.category := Rule.category existingRule;
             Rule.conditionType := Rule.conditionType existingRule;
             Rule.conditionPayload :=
               default (Rule.conditionPayload existingRule)
                 (UpdateRuleDTO.conditionPayload data);
             Rule.actionType := Rule.actionType existingRule;
             Rule.actionPayload :=
               match UpdateRuleDTO.actionPayload data with
               | Some a => Some a
               | None => Rule.actionPayload existingRule
               end;
             Rule.severityLevel :=
               orElse (UpdateRuleDTO.severityLevel data)
                 (Rule.severityLevel existingRule);
             Rule.priority :=
               default (Rule.priority existingRule) (UpdateRuleDTO.priority data);
             Rule.isActive :=
               default (Rule.isActive existingRule) (UpdateRuleDTO.isActive data);
             Rule.effectiveFrom :=
               default (Rule.effectiveFrom existingRule)
                 (UpdateRuleDTO.effectiveFrom data);
             Rule.effectiveTo := UpdateRuleDTO.effectiveTo data;
             Rule.version := Rule.version existingRule + 1;
             Rule.parentRuleId := Some ruleId;
             Rule.createdBy := updatedBy;
             Rule.createdAt := now |}) in
      ruleDeactivate ruleId ;;
      clearCache (Some (Rule.moduleName existingRule)) ;;
      logSuccess updatedBy "RULE_UPDATED" "Rule" (Some (Rule.id newVersion)) ;;
      ret newVersion
  end.

(** [data.priority || fallback]: zero is falsy. *)
Definition priorityOr (given : option Z) (fallback : Z) : Z :=
  match given with
  | Some p => if p =? 0 then fallback else p
  | None => fallback
  end.

(** [RulesService.createRule].  The call leaves [version] and
    [parentRuleId] to the database: the row gets the column default
    [initialVersion] of the schema and no parent. *)
Definition createRule (initialVersion : Z) (data : CreateRuleDTO.t) (createdBy : string)
  : M Rule.t :=
  let* rule :=
    ruleCreate (fun newId now =>
      {| Rule.id := newId;
         Rule.name := CreateRuleDTO.name data;
         Rule.moduleName := CreateRuleDTO.moduleName data;
         Rule.description := CreateRuleDTO.description data;
         Rule.category := CreateRuleDTO.category data;
         Rule.conditionType := CreateRuleDTO.conditionType data;
         Rule.conditionPayload := CreateRuleDTO.conditionPayload data;
         Rule.actionType := CreateRuleDTO.actionType data;
         Rule.actionPayload := CreateRuleDTO.actionPayload data;
         Rule.severityLevel := orElse (CreateRuleDTO.severityLevel data) "MEDIUM";
         Rule.priority := priorityOr (CreateRuleDTO.priority data) 100;
         Rule.isActive := default true (CreateRuleDTO.isActive data);
         Rule.effectiveFrom := default now (CreateRuleDTO.effectiveFrom data);
         Rule.effectiveTo := CreateRuleDTO.effectiveTo data;
         Rule.version := initialVersion;
         Rule.parentRuleId := None;
         Rule.createdBy := createdBy;
         Rule.createdAt := now |}) in
  clearCache (Some (CreateRuleDTO.moduleName data)) ;;
  logSuccess createdBy "RULE_CREATED" "Rule" (Some (Rule.id rule)) ;;
  ret rule.

(** [orderBy: { priority: 'asc' }]; rows of equal priority come in table
    order. *)
Fixpoint insertByPriority (r : Rule.t) (sorted : list Rule.t) : list Rule.t :=
  match sorted with
  | [] => [r]
  | x :: rest =>
      if Rule.priority r <=? Rule.priority x then r :: sorted
      else x :: insertByPriority r rest
  end.

Fixpoint orderByPriority (rows : list Rule.t) : list Rule.t :=
  match rows with
  | [] => []
  | r :: rest => insertByPriority r (orderByPriority rest)
  end.

(** [RulesService.getRulesByModule]: the active rules of a module,
    whatever their dates. *)
Definition getRulesByModule (moduleName : string) : M (list Rule.t) :=
  fun w =>
    if storeAvailable w
    then (Ok (orderByPriority
                (List.filter
                   (fun r => String.eqb (Rule.moduleName r) moduleName && Rule.isActive r)
                   (ruleTable w))), w)
    else (Throw "Can't reach database server", w).

Definition setActive (isActive : bool) (r : Rule.t) : Rule.t :=
  {| Rule.id := Rule.id r; Rule.name := Rule.name r;
     Rule.moduleName := Rule.moduleName r; Rule.description := Rule.description r;
     Rule.category := Rule.category r; Rule.conditionType := Rule.conditionType r;
     Rule.conditionPayload := Rule.conditionPayload r;
     Rule.actionType := Rule.actionType r; Rule.actionPayload := Rule.actionPayload r;
     Rule.severityLevel := Rule.severityLevel r; Rule.priority := Rule.priority r;
     Rule.isActive := isActive;
     Rule.effectiveFrom := Rule.effectiveFrom r; Rule.effectiveTo := Rule.effectiveTo r;
     Rule.version := Rule.version r; Rule.parentRuleId := Rule.parentRuleId r;
     Rule.createdBy := Rule.createdBy r; Rule.createdAt := Rule.createdAt r |}.

Definition setPriority (priority : Z) (r : Rule.t) : Rule.t :=
  {| Rule.id := Rule.id r; Rule.name := Rule.name r;
     Rule.moduleName := Rule.moduleName r; Rule.description := Rule.description r;
     Rule.category := Rule.category r; Rule.conditionType := Rule.conditionType r;
     Rule.conditionPayload := Rule.conditionPayload r;
     Rule.actionType := Rule.actionType r; Rule.actionPayload := Rule.actionPayload r;
     Rule.severityLevel := Rule.severityLevel r; Rule.priority := priority;
     Rule.isActive := Rule.isActive r;
     Rule.effectiveFrom := Rule.effectiveFrom r; Rule.effectiveTo := Rule.effectiveTo r;
     Rule.version := Rule.version r; Rule.parentRuleId := Rule.parentRuleId r;
     Rule.createdBy := Rule.createdBy r; Rule.createdAt := Rule.createdAt r |}.

(** [prisma.rule.update({ where: { id }, data })], [change] being the
    effect of [data] on a row; it rejects when no row has the
    identifier. *)
Definition ruleUpdate (ruleId : string) (change : Rule.t -> Rule.t) : M unit :=
  fun w =>
    if storeAvailable w then
      if existsb (fun r => String.eqb (Rule.id r) ruleId) (ruleTable w)
      then (Ok tt,
            setRuleTable
              (map (fun r => if String.eqb (Rule.id r) ruleId then change r else r)) w)
      else (Throw "Record to update not found.", w)
    else (Throw "Can't reach database server", w).

(** [RulesService.toggleRuleStatus] *)
Definition toggleRuleStatus (ruleId : string) (isActive : bool) (updatedBy : string)
  : M unit :=
  let* rule := ruleFindUnique ruleId in
  match rule with
  | None => throw "Rule not found"
  | Some rule =>
      ruleUpdate ruleId (setActive isActive) ;;
      clearCache (Some (Rule.moduleName rule)) ;;
      logSuccess updatedBy (if isActive then "RULE_ACTIVATED" else "RULE_DEACTIVATED")
        "Rule" (Some ruleId)
  end.

(** [affectedModules.add(moduleName)] on a [Set]: insertion order, no
    duplicate. *)
Definition setAdd (x : string) (xs : list string) : list string :=
  if existsb (String.eqb x) xs then xs else xs ++ [x].

(** The effect of [data: { isActive: update.isActive, priority:
    update.priority }] on a row: an undefined member leaves its column as
    it is. *)
Definition bulkChange (update : BulkUpdate.t) (r : Rule.t) : Rule.t :=
  let r := match BulkUpdate.isActive update with
           | Some isActive => setActive isActive r
           | None => r
           end in
  match BulkUpdate.priority update with
  | Some priority => setPriority priority r
  | None => r
  end.

(** The body of the transaction of [bulkUpdateRules]: the [for] loop over
    [updates], with the set of affected modules it fills. *)
Fixpoint bulkUpdateLoop (updates : list BulkUpdate.t) (affectedModules : list string)
  : M (list string) :=
  match updates with
  | [] => ret affectedModules
  | update :: rest =>
      let* rule := ruleFindUnique (BulkUpdate.ruleId update) in
      match rule with
      | Some rule =>
          let affectedModules := setAdd (Rule.moduleName rule) affectedModules in
          ruleUpdate (BulkUpdate.ruleId update) (bulkChange update) ;;
          bulkUpdateLoop rest affectedModules
      | None => bulkUpdateLoop rest affectedModules
      end
  end.

(** [prisma.$transaction(body)]: it needs the database, and the writes of
    a body that rejects are rolled back. *)
Definition transaction {A} (body : M A) : M A :=
  fun w =>
    if storeAvailable w then
      match body w with
      | (Ok a, w') => (Ok a, w')
      | (Throw e, w') => (Throw e, setRuleTable (fun _ => ruleTable w) w')
      end
    else (Throw "Can't reach database server", w).

(** [xs.forEach(f)] *)
Fixpoint forEach {A} (f : A -> M unit) (xs : list A) : M unit :=
  match xs with
  | [] => ret tt
  | x :: rest => f x ;; forEach f rest
  end.

(** [RulesService.bulkUpdateRules] *)
Definition bulkUpdateRules (updates : list BulkUpdate.t) (updatedBy : string) : M unit :=
  let* affectedModules := transaction (bulkUpdateLoop updates []) in
  forEach (fun moduleName => clearCache (Some moduleName)) affectedModules ;;
  logSuccess updatedBy "RULES_BULK_UPDATED" "Rule" None.

(** ** Observations on a run *)

Definition addEvents (evs : list Event) (w : World) : World :=
  {| ruleTable := ruleTable w; exceptionTable := exceptionTable w;
     storeAvailable := storeAvailable w; idSupply := idSupply w;
     idsIssued := idsIssued w;
     rulesCache := rulesCache w; clock := clock w; events := events w ++ evs |}.

(** The rules whose condition was handed to the evaluator, in order. *)
Fixpoint evaluatedRules (evs : list Event) : list string :=
  match evs with
  | [] => []
  | EvaluateCondition ruleId :: rest => ruleId :: evaluatedRules rest
  | _ :: rest => evaluatedRules rest
  end.

(** The calls of the exception checker, with their arguments. *)
Fixpoint exceptionChecks (evs : list Event) : list (string * list string) :=
  match evs with
  | [] => []
  | CheckRuleException userId ruleIds :: rest =>
      (userId, ruleIds) :: exceptionChecks rest
  | _ :: rest => exceptionChecks rest
  end.


(** The instant a rule is checked against, [context.timestamp || new Date()],
    for a call at the wall-clock instant [wall]. *)
Definition evaluationInstant (context : Context.t) (wall : Z) : Z :=
  default wall (Context.timestamp context).

(** The loop reaches the condition of [rule] (the rule is effective) and
    the evaluator answers [true]: the rule is triggered. *)
Definition fires (evaluator : Z -> option Condition.t -> Context.t -> Result bool)
    (context : Context.t) (wall : Z) (rule : Rule.t) : bool :=
  negb (notEffective rule (evaluationInstant context wall))
  && match evaluator wall (Some (Rule.conditionPayload rule)) context with
     | Ok true => true
     | _ => false
     end.

Definition isBlock (rule : Rule.t) : bool :=
  match Rule.actionType rule with BLOCK => true | _ => false end.

(** The rules of a list that are effective at the evaluation instant. *)
Definition effectiveRules (context : Context.t) (wall : Z) (rules : list Rule.t)
  : list Rule.t :=
  List.filter (fun r => negb (notEffective r (evaluationInstant context wall))) rules.

(** The non-terminal cases of the [switch]. *)
Definition resolve (rule : Rule.t) (st : LoopState) : LoopState :=
  match Rule.actionType rule with
  | BLOCK => st
  | REQUIRE_APPROVAL => onRequireApproval rule st
  | MODIFY => onModify rule st
  | WARN => onWarn rule st
  | ALLOW => st
  end.

(** One iteration that does not return: the variables after it. *)
Definition advance (evaluator : Z -> option Condition.t -> Context.t -> Result bool)
    (context : Context.t) (wall : Z) (st : LoopState) (rule : Rule.t) : LoopState :=
  if fires evaluator context wall rule then resolve rule (pushTriggered rule st) else st.

(** The result built after the loop from the final variables. *)
Definition completedResult (st : LoopState) (elapsed : Z) : EvaluationResult.t :=
  {| EvaluationResult.decision := finalDecision st;
     EvaluationResult.message := Some (finalMessage st);
     EvaluationResult.triggeredRules := triggeredRules st;
     EvaluationResult.modifications := Some (modifications st);
     EvaluationResult.requiresApproval := Some (requiresApproval st);
     EvaluationResult.approvers := Some (approvers st);
     EvaluationResult.executionTimeMs := elapsed;
     EvaluationResult.error := None |}.

(** The result [case 'BLOCK'] returns for [rule], [st] being the variables
    after the rule was pushed. *)
Definition blockedResult (rule : Rule.t) (st : LoopState) (elapsed : Z)
  : EvaluationResult.t :=
  {| EvaluationResult.decision := BLOCKED;
     EvaluationResult.message := Some (blockMessage rule);
     EvaluationResult.triggeredRules := triggeredRules st;
     EvaluationResult.modifications := None;
     EvaluationResult.requiresApproval := None;
     EvaluationResult.approvers := None;
     EvaluationResult.executionTimeMs := elapsed;
     EvaluationResult.error := None |}.

(** The result of the loop as a function of the candidate list: the
    first triggered [BLOCK] rule ends it. *)
Fixpoint loopResult (evaluator : Z -> option Condition.t -> Context.t -> Result bool)
    (context : Context.t) (wall elapsed : Z) (rules : list Rule.t) (st : LoopState)
  : EvaluationResult.t :=
  match rules with
  | [] => completedResult st elapsed
  | rule :: rest =>
      if fires evaluator context wall rule then
        if isBlock rule then blockedResult rule (pushTriggered rule st) elapsed
        else loopResult evaluator context wall elapsed rest
               (resolve rule (pushTriggered rule st))
      else loopResult evaluator context wall elapsed rest st
  end.

(** The rules whose condition the loop hands to the evaluator: the
    effective ones, up to and including the first triggered [BLOCK]. *)
Fixpoint loopEvaluated (evaluator : Z -> option Condition.t -> Context.t -> Result bool)
    (context : Context.t) (wall : Z) (rules : list Rule.t) : list string :=
  match rules with
  | [] => []
  | rule :: rest =>
      if notEffective rule (evaluationInstant context wall)
      then loopEvaluated evaluator context wall rest
      else
        Rule.id rule ::
        (if fires evaluator context wall rule && isBlock rule then []
         else loopEvaluated evaluator context wall rest)
  end.

(** What [getCachedRules] answers in the world [w]: the cached list while
    it is fresh, the query otherwise. *)
Definition candidateRules (moduleName : string) (w : World) : Result (list Rule.t) :=
  match rulesCache w !! moduleName with
  | Some entry =>
      if clock w - lastUpdated entry <? CACHE_TTL then Ok (rules entry)
      else fst (ruleFindMany moduleName w)
  | None => fst (ruleFindMany moduleName w)
  end.

(** What [checkRuleException] answers in the world [w]. *)
Definition holdsException (w : World) (userId : string) (ruleIds : list string) : bool :=
  match ruleIds with
  | [] => false
  | _ => storeAvailable w
         && existsb (exceptionWhere userId ruleIds (clock w)) (exceptionTable w)
  end.

(** The table holds an exception of the user for one of the rules
    [ruleIds], active and in force at the wall-clock instant of [w]. *)
Definition activeExceptionFor (w : World) (userId : string) (ruleIds : list string)
  : Prop :=
  exists e,
    In e (exceptionTable w)
    /\ RuleException.userId e = userId
    /\ In (RuleException.ruleId e) ruleIds
    /\ RuleException.isActive e = true
    /\ RuleException.effectiveFrom e <= clock w <= RuleException.effectiveTo e.

(** The result of the outer [catch]. *)
Definition failedResult (error : string) (elapsed : Z) : EvaluationResult.t :=
  {| EvaluationResult.decision := ERROR;
     EvaluationResult.message := Some "Rule evaluation failed";
     EvaluationResult.triggeredRules := [];
     EvaluationResult.modifications := None;
     EvaluationResult.requiresApproval := None;
     EvaluationResult.approvers := None;
     EvaluationResult.executionTimeMs := elapsed;
     EvaluationResult.error := Some error |}.

(** The result of the two early returns. *)
Definition allowedResult (message : string) (elapsed : Z) : EvaluationResult.t :=
  {| EvaluationResult.decision := ALLOWED;
     EvaluationResult.message := Some message;
     EvaluationResult.triggeredRules := [];
     EvaluationResult.modifications := None;
     EvaluationResult.requiresApproval := None;
     EvaluationResult.approvers := None;
     EvaluationResult.executionTimeMs := elapsed;
     EvaluationResult.error := None |}.

(** The result of a call of [evaluateRules] in the world [w], as a
    function of what the cache, the store and the evaluator answer. *)
Definition outcome (evaluator : Z -> option Condition.t -> Context.t -> Result bool)
    (context : Context.t) (w : World) : EvaluationResult.t :=
  if invalidContext context
  then failedResult "Invalid evaluation context: missing required fields" 0
  else
    match candidateRules (Context.moduleName context) w with
    | Throw e => failedResult e 0
    | Ok [] => allowedResult "No active rules found" 0
    | Ok rules =>
        if holdsException w (User.id (Context.user context)) (map Rule.id rules)
        then allowedResult "User has rule exception" 0
        else loopResult evaluator context (clock w) 0 rules initialState
    end.

(** The rules whose condition is evaluated during that call. *)
Definition evaluatedDuring
    (evaluator : Z -> option Condition.t -> Context.t -> Result bool)
    (context : Context.t) (w : World) : list string :=
  if invalidContext context then []
  else
    match candidateRules (Context.moduleName context) w with
    | Throw _ | Ok [] => []
    | Ok rules =>
        if holdsException w (User.id (Context.user context)) (map Rule.id rules)
        then []
        else loopEvaluated evaluator context (clock w) rules
    end.

(** The calls of the exception checker during that call. *)
Definition checksDuring (context : Context.t) (w : World)
  : list (string * list string) :=
  if invalidContext context then []
  else
    match candidateRules (Context.moduleName context) w with
    | Throw _ | Ok [] => []
    | Ok rules => [(User.id (Context.user context), map Rule.id rules)]
    end.

(** The value a rule writes under the key [k] when its [MODIFY] action
    is applied. *)
Definition written (rule : Rule.t) (k : string) : option value :=
  match Rule.actionType rule, Rule.actionPayload rule with
  | MODIFY, Some a =>
      match Action.modifications a with
      | Some more => more !! k
      | None => None
      end
  | _, _ => None
  end.

(** The value under [k] after the rules [applied] were applied in that
    order to an accumulator holding [before]: the last write wins. *)
Definition lastWrite (k : string) (applied : list Rule.t) (before : option value)
  : option value :=
  fold_left (fun acc rule => match written rule k with
                             | Some v => Some v
                             | None => acc
                             end) applied before.

(** The evaluator that answers [false] wherever [evaluator] raises. *)
Definition recover (evaluator : Z -> option Condition.t -> Context.t -> Result bool)
  : Z -> option Condition.t -> Context.t -> Result bool :=
  fun wall condition context =>
    match evaluator wall condition context with
    | Ok b => Ok b
    | Throw _ => Ok false
    end.


(** The internal failures of the condition evaluator: an absent
    condition; an absent or unknown type; an expression that is absent
    or whose evaluation raises; a threshold that lacks its field, its
    operator or its value, whose field the request does not carry or
    carries as [null], whose operator is outside the ten known ones, or
    whose value is not the list or the pair of bounds that its operator
    needs; a composite without members; a time window without a range, a clock range whose start or whose
    end is not a string or does not parse, and a date range one of whose
    bounds is not a date. *)
Inductive InternalFailure (H : Host) (wall : Z) (context : Context.t)
  : option Condition.t -> Prop :=
| NoCondition : InternalFailure H wall context None
| MissingType c :
    missing (Condition.type c) = true ->
    InternalFailure H wall context (Some c)
| UnknownType c t :
    Condition.type c = Some t ->
    ~ In t ["expression"; "threshold"; "time_based"; "role_based";
            "permission_based"; "composite"] ->
    InternalFailure H wall context (Some c)
| ExpressionRaises c e msg :
    Condition.type c = Some "expression" ->
    Condition.expression c = Some e ->
    runFunction H wall
      (substituteReferences H (sanitize e) (evalContextOf wall context))
      = Throw msg ->
    InternalFailure H wall context (Some c)
| MissingField c name :
    Condition.type c = Some "threshold" ->
    Condition.field c = Some name ->
    resourceField H context name = VUndefined ->
    InternalFailure H wall context (Some c)
| BadOperator c op :
    Condition.type c = Some "threshold" ->
    Condition.operator c = Some op ->
    ~ In op ["eq"; "ne"; "gt"; "gte"; "lt"; "lte"; "in"; "nin"; "contains";
             "between"] ->
    InternalFailure H wall context (Some c)
| UnparseableTime c start end_ :
    Condition.type c = Some "time_based" ->
    Condition.timeRange c = Some (start, end_) ->
    (forall parts, parseClock H start = Ok parts ->
                   isNaN (element 0 parts) || isNaN (element 1 parts) = true) ->
    InternalFailure H wall context (Some c)
| UnparseableEndTime c start end_ :
    Condition.type c = Some "time_based" ->
    Condition.timeRange c = Some (start, end_) ->
    (forall parts, parseClock H end_ = Ok parts ->
                   isNaN (element 0 parts) || isNaN (element 1 parts) = true) ->
    InternalFailure H wall context (Some c)
| UnparseableDate c start end_ :
    Condition.type c = Some "time_based" ->
    Condition.timeRange c = None ->
    Condition.dateRange c = Some (start, end_) ->
    isNaN (parseDate H start) || isNaN (parseDate H end_) = true ->
    InternalFailure H wall context (Some c)
| NoTimeWindow c :
    Condition.type c = Some "time_based" ->
    Condition.timeRange c = None ->
    Condition.dateRange c = None ->
    InternalFailure H wall context (Some c)
| MissingExpression c :
    Condition.type c = Some "expression" ->
    missing (Condition.expression c) = true ->
    InternalFailure H wall context (Some c)
| IncompleteThreshold c :
    Condition.type c = Some "threshold" ->
    missing (Condition.field c) || missing (Condition.operator c)
    || match Condition.value c with VUndefined => true | _ => false end = true ->
    InternalFailure H wall context (Some c)
| NullField c name :
    Condition.type c = Some "threshold" ->
    Condition.field c = Some name ->
    resourceField H context name = VNull ->
    InternalFailure H wall context (Some c)
| NotAList c op :
    Condition.type c = Some "threshold" ->
    Condition.operator c = Some op ->
    op = "in" \/ op = "nin" ->
    (forall items, Condition.value c <> VArr items) ->
    InternalFailure H wall context (Some c)
| NotARange c :
    Condition.type c = Some "threshold" ->
    Condition.operator c = Some "between" ->
    (forall lo hi, Condition.value c <> VArr [lo; hi]) ->
    InternalFailure H wall context (Some c)
| NoMembers c :
    Condition.type c = Some "composite" ->
    Condition.conditions c = None \/ Condition.conditions c = Some [] ->
    InternalFailure H wall context (Some c).

(** The entry pushed on [triggeredRules] for a rule. *)
Definition toTriggered (rule : Rule.t) : Triggered.t :=
  {| Triggered.ruleId := Rule.id rule; Triggered.ruleName := Rule.name rule;
     Triggered.severity := Rule.severityLevel rule;
     Triggered.action := Rule.actionType rule |}.

(** The rules the loop reaches: all of them, up to and including the
    first triggered [BLOCK]. *)
Fixpoint reached (evaluator : Z -> option Condition.t -> Context.t -> Result bool)
    (context : Context.t) (wall : Z) (rules : list Rule.t) : list Rule.t :=
  match rules with
  | [] => []
  | rule :: rest =>
      if fires evaluator context wall rule && isBlock rule then [rule]
      else rule :: reached evaluator context wall rest
  end.

Definition hasAction (a : ActionType) (rule : Rule.t) : bool :=
  match a, Rule.actionType rule with
  | ALLOW, ALLOW | BLOCK, BLOCK | MODIFY, MODIFY | WARN, WARN
  | REQUIRE_APPROVAL, REQUIRE_APPROVAL => true
  | _, _ => false
  end.

(** Some rule of the list is triggered and has the action [a]. *)
Definition triggersAction
    (evaluator : Z -> option Condition.t -> Context.t -> Result bool)
    (context : Context.t) (wall : Z) (a : ActionType) (rules : list Rule.t) : bool :=
  existsb (fun r => fires evaluator context wall r && hasAction a r) rules.

(** The strongest of the actions triggered in a list without a triggered
    [BLOCK]: approval before modification before warning. *)
Definition decisionByPrecedence
    (evaluator : Z -> option Condition.t -> Context.t -> Result bool)
    (context : Context.t) (wall : Z) (rules : list Rule.t) : Decision :=
  if triggersAction evaluator context wall REQUIRE_APPROVAL rules then APPROVAL_REQUIRED
  else if triggersAction evaluator context wall MODIFY rules then MODIFIED
  else if triggersAction evaluator context wall WARN rules then WARNING
  else ALLOWED.

(** The approvers a rule names. *)
Definition approversOf (rule : Rule.t) : list string :=
  match Rule.actionPayload rule with
  | Some a => default [] (Action.approvers a)
  | None => []
  end.

(** The cache entry of the module is younger than the TTL. *)
Definition cacheIsFresh (moduleName : string) (w : World) : bool :=
  match rulesCache w !! moduleName with
  | Some entry => clock w - lastUpdated entry <? CACHE_TTL
  | None => false
  end.

(** The cache [getCachedRules] leaves. *)
Definition cacheAfter (moduleName : string) (w : World) : gmap string CacheEntry :=
  if cacheIsFresh moduleName w then rulesCache w
  else
    match fst (ruleFindMany moduleName w) with
    | Ok rules =>
        <[moduleName := {| rules := rules; lastUpdated := clock w |}]> (rulesCache w)
    | Throw _ => rulesCache w
    end.

(** The events of one iteration of the loop, [st] being the variables
    before it. *)
Definition ruleTrace (evaluator : Z -> option Condition.t -> Context.t -> Result bool)
    (context : Context.t) (wall : Z) (rule : Rule.t) (st : LoopState) : list Event :=
  if notEffective rule (evaluationInstant context wall) then []
  else
    EvaluateCondition (Rule.id rule) ::
    match evaluator wall (Some (Rule.conditionPayload rule)) context with
    | Ok conditionMet =>
        RuleLogCreate (Rule.id rule) conditionMet (Rule.actionType rule)
          (finalDecision st) ::
        (if conditionMet && isBlock rule
         then [AuditLog FAILURE (User.id (Context.user context))
                 ("RULE_BLOCKED_" +:+ Context.action context)
                 (Context.moduleName context) (Some (blockMessage rule)) None]
         else [])
    | Throw ruleError =>
        [AuditLog FAILURE (User.id (Context.user context)) "RULE_EVALUATION_ERROR"
           (Context.moduleName context)
           (Some ("Error in rule " +:+ Rule.name rule +:+ ": " +:+ ruleError))
           (Some (Rule.id rule))]
    end.

(** The events of the loop and of what follows it. *)
Fixpoint loopTrace (evaluator : Z -> option Condition.t -> Context.t -> Result bool)
    (context : Context.t) (wall : Z) (rules : list Rule.t) (st : LoopState)
  : list Event :=
  match rules with
  | [] =>
      [AuditLog SUCCESS (User.id (Context.user context))
         ("RULE_EVALUATION_" +:+ Context.action context)
         (Context.moduleName context) None None]
  | rule :: rest =>
      ruleTrace evaluator context wall rule st ++
      (if fires evaluator context wall rule && isBlock rule then []
       else loopTrace evaluator context wall rest (advance evaluator context wall st rule))
  end.

(** The events of a call of [evaluateRules] in the world [w]. *)
Definition callTrace (evaluator : Z -> option Condition.t -> Context.t -> Result bool)
    (context : Context.t) (w : World) : list Event :=
  let userId := User.id (Context.user context) in
  let moduleName := Context.moduleName context in
  if invalidContext context
  then [AuditLog FAILURE userId ("RULE_EVALUATION_ERROR_" +:+ Context.action context)
          moduleName (Some "Invalid evaluation context: missing required fields") None]
  else
    (if cacheIsFresh moduleName w then [] else [RuleFindMany moduleName]) ++
    match candidateRules moduleName w with
    | Throw e =>
        [AuditLog FAILURE userId ("RULE_EVALUATION_ERROR_" +:+ Context.action context)
           moduleName (Some e) None]
    | Ok [] => []
    | Ok rules =>
        CheckRuleException userId (map Rule.id rules) ::
        RuleExceptionFindFirst userId (map Rule.id rules) ::
        (if holdsException w userId (map Rule.id rules) then []
         else loopTrace evaluator context (clock w) rules initialState)
    end.

(** The decisions recorded in the rule logs of a trace. *)
Fixpoint loggedDecisions (evs : list Event) : list Decision :=
  match evs with
  | [] => []
  | RuleLogCreate _ _ _ decision :: rest => decision :: loggedDecisions rest
  | _ :: rest => loggedDecisions rest
  end.

(** The entries handed to the audit service in a trace. *)
Fixpoint auditEntries (evs : list Event) : list (AuditStatus * string) :=
  match evs with
  | [] => []
  | AuditLog status _ action _ _ _ :: rest => (status, action) :: auditEntries rest
  | _ :: rest => auditEntries rest
  end.

(** A member of a composite condition holds. *)
Definition memberHolds (H : Host) (wall : Z) (context : Context.t)
    (member : option Condition.t) : bool :=
  match evaluateCondition H wall member context with
  | Ok true => true
  | _ => false
  end.

(** The columns of a rule other than [isActive] and [priority]. *)
Definition otherColumns (r : Rule.t) :=
  (Rule.id r, Rule.name r, Rule.moduleName r, Rule.description r, Rule.category r,
   Rule.conditionType r, Rule.conditionPayload r, Rule.actionType r,
   Rule.actionPayload r, Rule.severityLevel r, Rule.effectiveFrom r,
   Rule.effectiveTo r, Rule.version r, Rule.parentRuleId r, Rule.createdBy r,
   Rule.createdAt r).

(** ** Worked examples

    The rules and the context of the service's unit tests
    ([rules.service.test.ts]), run on a small host. *)

Module Examples.

Fixpoint digits (s : string) (acc : Z) : number :=
  match s with
  | EmptyString => Num acc
  | String c rest =>
      let n := nat_of_ascii c in
      if ((48 <=? n)%nat && (n <=? 57)%nat)%bool
      then digits rest (10 * acc + Z.of_nat (n - 48))
      else NaN
  end.

Definition isUpper (c : ascii) : bool :=
  let n := nat_of_ascii c in ((65 <=? n)%nat && (n <=? 90)%nat)%bool.

Definition lowerChar (c : ascii) : ascii :=
  if isUpper c then ascii_of_nat (nat_of_ascii c + 32) else c.

Fixpoint asciiLowerCase (s : string) : string :=
  match s with
  | EmptyString => EmptyString
  | String c rest => String (lowerChar c) (asciiLowerCase rest)
  end.

(** A host in the UTC time zone, whose [Number] reads unsigned decimal
    literals, whose dates are epoch milliseconds, whose strings are
    ASCII, and whose expression evaluator knows the two boolean literals
    and does not read the clock. *)
Definition host : Host :=
  {| runFunction := fun _ e =>
       if String.eqb e "true" then Ok (VBool true)
       else if String.eqb e "false" then Ok (VBool false)
       else Throw "SyntaxError";
     stringToNumber := fun s => digits s 0;
     toLowerCase := asciiLowerCase;
     parseDate := fun v => match v with VNum n => n | _ => NaN end;
     getHours := fun ms => (ms / 3600000) mod 24;
     getMinutes := fun ms => (ms / 60000) mod 60;
     inherited := fun _ => None |}.

Definition mockContext : Context.t :=
  {| Context.user :=
       {| User.id := "user123"; User.email := "test@example.com";
          User.roles := ["TEACHER"]; User.permissions := ["attendance.create"] |};
     Context.action := "SUBMIT_ATTENDANCE";
     Context.moduleName := "attendance";
     Context.resourceData :=
       Some (<["studentId" := VStr "student123"]>
             (<["status" := VStr "PRESENT"]> ∅));
     Context.timestamp := Some 1000 |}.

Definition statusIsPresent : Condition.t :=
  Condition.make (Some "threshold") None (Some "status") (Some "eq")
    (VStr "PRESENT") None None None None None None.

Definition isTeacher : Condition.t :=
  Condition.make (Some "role_based") None None None VUndefined None None None None
    (Some ["TEACHER"]) None.

Definition payload (type message : string)
    (modifications : option (gmap string value))
    (approvers : option (list string)) : option Action.t :=
  Some {| Action.type := type; Action.message := Some message;
          Action.modifications := modifications; Action.approvers := approvers;
          Action.notifyUsers := None |}.

Definition rule (id name : string) (condition : Condition.t) (actionType : ActionType)
    (actionPayload : option Action.t) (severityLevel : string) (priority : Z)
  : Rule.t :=
  {| Rule.id := id; Rule.name := name; Rule.moduleName := "attendance";
     Rule.description := None; Rule.category := "ATTENDANCE";
     Rule.conditionType := "THRESHOLD"; Rule.conditionPayload := condition;
     Rule.actionType := actionType; Rule.actionPayload := actionPayload;
     Rule.severityLevel := severityLevel; Rule.priority := priority;
     Rule.isActive := true; Rule.effectiveFrom := 0; Rule.effectiveTo := None;
     Rule.version := 1; Rule.parentRuleId := None; Rule.createdBy := "admin123";
     Rule.createdAt := 0 |}.

Definition blockingRule : Rule.t :=
  rule "rule123" "Block Test" statusIsPresent BLOCK
    (payload "block" "Action blocked for testing" None None) "HIGH" 10.

Definition modifyRule : Rule.t :=
  rule "rule456" "Modify Test" statusIsPresent MODIFY
    (payload "modify" "Action modified"
       (Some (<["status" := VStr "VERIFIED_PRESENT"]> ∅)) None) "MEDIUM" 20.

Definition approvalRule : Rule.t :=
  rule "rule789" "Approval Test" isTeacher REQUIRE_APPROVAL
    (payload "require_approval" "Requires approval" None (Some ["admin123"]))
    "HIGH" 15.

Definition lowPriorityRule : Rule.t :=
  rule "rule_low" "Low Priority" statusIsPresent WARN
    (payload "warn" "Low priority warning" None None) "LOW" 100.

Definition highPriorityRule : Rule.t :=
  rule "rule_high" "High Priority" statusIsPresent BLOCK
    (payload "block" "High priority block" None None) "HIGH" 10.

(** A world whose database holds [table] and [exceptions], with an empty
    cache, at the instant 1000. *)
Definition world (table : list Rule.t) (exceptions : list RuleException.t) : World :=
  {| ruleTable := table; exceptionTable := exceptions; storeAvailable := true;
     idSupply := fun _ => "rule_new"; idsIssued := O;
     rulesCache := ∅; clock := 1000; events := [] |}.

Definition secondWarning : Rule.t :=
  rule "rule_later" "Later Warning" isTeacher WARN
    (payload "warn" "Later warning" None None) "LOW" 200.

Definition secondModify : Rule.t :=
  rule "rule_later_modify" "Later Modify" isTeacher MODIFY
    (payload "modify" "Later modification"
       (Some (<["status" := VStr "LATE"]> (<["remarks" := VStr "auto"]> ∅))) None)
    "LOW" 300.

(** An expression the host cannot parse once the reference is replaced. *)
Definition brokenExpression : Condition.t :=
  Condition.make (Some "expression") (Some "data.status ===") None None VUndefined
    None None None None None None.

(** A clock range from midnight whose end is not a time of day. *)
Definition officeHours : Condition.t :=
  Condition.make (Some "time_based") None None None VUndefined None None
    (Some (VStr "00:00", VStr "late")) None None None.

(** An evaluator that raises on every condition, as a mocked
    [evaluateCondition] would. *)
Definition raising : Z -> option Condition.t -> Context.t -> Result bool :=
  fun _ _ _ => Throw "Unexpected token".

(** [blockingRule] with an end date. *)
Definition expiringRule : Rule.t :=
  {| Rule.id := "rule123"; Rule.name := "Block Test"; Rule.moduleName := "attendance";
     Rule.description := None; Rule.category := "ATTENDANCE";
     Rule.conditionType := "THRESHOLD"; Rule.conditionPayload := statusIsPresent;
     Rule.actionType := BLOCK;
     Rule.actionPayload := payload "block" "Action blocked for testing" None None;
     Rule.severityLevel := "HIGH"; Rule.priority := 10; Rule.isActive := true;
     Rule.effectiveFrom := 0; Rule.effectiveTo := Some 5000; Rule.version := 1;
     Rule.parentRuleId := None; Rule.createdBy := "admin123"; Rule.createdAt := 0 |}.

(** The update of the unit test: a new name and nothing else. *)
Definition renameOnly : UpdateRuleDTO.t :=
  {| UpdateRuleDTO.name := Some "Updated Rule"; UpdateRuleDTO.description := None;
     UpdateRuleDTO.conditionPayload := None; UpdateRuleDTO.actionPayload := None;
     UpdateRuleDTO.severityLevel := None; UpdateRuleDTO.priority := None;
     UpdateRuleDTO.isActive := None; UpdateRuleDTO.effectiveFrom := None;
     UpdateRuleDTO.effectiveTo := None |}.

(** [mockContext] for a request made at the instant 6001. *)
Definition laterContext : Context.t :=
  {| Context.user := Context.user mockContext;
     Context.action := Context.action mockContext;
     Context.moduleName := "attendance";
     Context.resourceData := Context.resourceData mockContext;
     Context.timestamp := Some 6001 |}.

(** Two warnings with the same priority and the same creation time. *)
Definition tiedWarningA : Rule.t :=
  rule "rule_a" "Warning A" statusIsPresent WARN
    (payload "warn" "Warning A" None None) "LOW" 50.

Definition tiedWarningB : Rule.t :=
  rule "rule_b" "Warning B" isTeacher WARN
    (payload "warn" "Warning B" None None) "LOW" 50.

(** A world whose store answered [served], in that order, at the instant
    900: the list is in the cache and still fresh at the instant 1000. *)
Definition servedWorld (served : list Rule.t) : World :=
  {| ruleTable := served; exceptionTable := []; storeAvailable := true;
     idSupply := fun _ => "rule_new"; idsIssued := O; events := [];
     rulesCache := <["attendance" := {| rules := served; lastUpdated := 900 |}]> ∅;
     clock := 1000 |}.

(** An exception granted to the user of [mockContext] for
    [blockingRule], in force from 0 to 5000. *)
Definition exception123 : RuleException.t :=
  {| RuleException.id := "exception123"; RuleException.userId := "user123";
     RuleException.ruleId := "rule123"; RuleException.isActive := true;
     RuleException.effectiveFrom := 0; RuleException.effectiveTo := 5000 |}.

(** [mockContext] without an action name. *)
Definition contextWithoutAction : Context.t :=
  {| Context.user := Context.user mockContext; Context.action := EmptyString;
     Context.moduleName := "attendance";
     Context.resourceData := Context.resourceData mockContext;
     Context.timestamp := Some 1000 |}.

(** A world whose cache holds [cached] for the attendance module, filled
    at the instant 900, and whose database does not answer. *)
Definition cachedWorld (cached : list Rule.t) (exceptions : list RuleException.t)
  : World :=
  {| ruleTable := cached; exceptionTable := exceptions; storeAvailable := false;
     idSupply := fun _ => "rule_new"; idsIssued := O; events := [];
     rulesCache := <["attendance" := {| rules := cached; lastUpdated := 900 |}]> ∅;
     clock := 1000 |}.

(** Two blocking rules served after [approvalRule] and [modifyRule]. *)
Definition lateBlock : Rule.t :=
  rule "rule_late_block" "Late Block" statusIsPresent BLOCK
    (payload "block" "Late block" None None) "HIGH" 30.

Definition laterBlock : Rule.t :=
  rule "rule_later_block" "Later Block" isTeacher BLOCK
    (payload "block" "Later block" None None) "HIGH" 40.

(** An evaluator that raises on the conditions on roles and answers as
    [host] does on the others. *)
Definition raisingOnRoles : Z -> option Condition.t -> Context.t -> Result bool :=
  fun wall condition context =>
    match condition with
    | Some c =>
        if String.eqb (default EmptyString (Condition.type c)) "role_based"
        then Throw "Unexpected token"
        else evaluateCondition host wall condition context
    | None => evaluateCondition host wall condition context
    end.




(** The rule data of the unit test on rule creation. *)
Definition testRuleData : CreateRuleDTO.t :=
  {| CreateRuleDTO.name := "Test Rule"; CreateRuleDTO.moduleName := "test";
     CreateRuleDTO.description := None; CreateRuleDTO.category := "GENERAL";
     CreateRuleDTO.conditionType := "THRESHOLD";
     CreateRuleDTO.conditionPayload :=
       Condition.make (Some "threshold") None (Some "value") (Some "gt")
         (VNum (Num 10)) None None None None None None;
     CreateRuleDTO.actionType := BLOCK; CreateRuleDTO.actionPayload := None;
     CreateRuleDTO.severityLevel := None; CreateRuleDTO.priority := None;
     CreateRuleDTO.isActive := None; CreateRuleDTO.effectiveFrom := None;
     CreateRuleDTO.effectiveTo := None |}.

(** The row [createRule] writes for it at the instant 1000. *)
Definition testRule : Rule.t :=
  {| Rule.id := "rule_new"; Rule.name := "Test Rule"; Rule.moduleName := "test";
     Rule.description := None; Rule.category := "GENERAL";
     Rule.conditionType := "THRESHOLD";
     Rule.conditionPayload :=
       Condition.make (Some "threshold") None (Some "value") (Some "gt")
         (VNum (Num 10)) None None None None None None;
     Rule.actionType := BLOCK; Rule.actionPayload := None;
     Rule.severityLevel := "MEDIUM"; Rule.priority := 100; Rule.isActive := true;
     Rule.effectiveFrom := 1000; Rule.effectiveTo := None; Rule.version := 1;
     Rule.parentRuleId := None; Rule.createdBy := "admin123";
     Rule.createdAt := 1000 |}.

(** A world whose cache holds a list for the module of the unit test,
    filled at the instant 900. *)
Definition testWorld : World :=
  {| ruleTable := []; exceptionTable := []; storeAvailable := true;
     idSupply := fun _ => "rule_new"; idsIssued := O; events := [];
     rulesCache := <["test" := {| rules := []; lastUpdated := 900 |}]> ∅;
     clock := 1000 |}.

(** The new version [updateRule] writes for [expiringRule] and
    [renameOnly] at the instant 1000. *)
Definition renamedRule : Rule.t :=
  {| Rule.id := "rule_new"; Rule.name := "Updated Rule";
     Rule.moduleName := "attendance";
     Rule.description := None; Rule.category := "ATTENDANCE";
     Rule.conditionType := "THRESHOLD"; Rule.conditionPayload := statusIsPresent;
     Rule.actionType := BLOCK;
     Rule.actionPayload := payload "block" "Action blocked for testing" None None;
     Rule.severityLevel := "HIGH"; Rule.priority := 10; Rule.isActive := true;
     Rule.effectiveFrom := 0; Rule.effectiveTo := None; Rule.version := 2;
     Rule.parentRuleId := Some "rule123"; Rule.createdBy := "admin123";
     Rule.createdAt := 1000 |}.

(** A bulk update that switches [blockingRule] off, moves [modifyRule]
    to the front and names a rule that does not exist. *)
Definition bulkUpdates : list BulkUpdate.t :=
  [ {| BulkUpdate.ruleId := "rule123"; BulkUpdate.isActive := Some false;
       BulkUpdate.priority := None |};
    {| BulkUpdate.ruleId := "rule456"; BulkUpdate.isActive := None;
       BulkUpdate.priority := Some 1 |};
    {| BulkUpdate.ruleId := "rule000"; BulkUpdate.isActive := Some true;
       BulkUpdate.priority := Some 2 |} ].

End Examples.

(** * Properties *)

(** ** The condition evaluator *)

Lemma tryCatch_ok {A} (body : Result A) (handler : string -> A) :
  exists a, tryCatch body handler = Ok a.
Proof. destruct body; simpl; eauto. Qed.

Lemma evaluateComposite_ok evaluateMember condition :
  exists b, evaluateComposite evaluateMember condition = Ok b.
Proof.
  unfold evaluateComposite.
  destruct (Condition.conditions condition) as [[|first rest]|]; eauto.
  apply tryCatch_ok.
Qed.

Lemma evaluateConditionObject_unfold H wall context c :
  evaluateConditionObject H wall context c =
  if missing (Condition.type c) then Ok false
  else
    let type := default EmptyString (Condition.type c) in
    if String.eqb type "expression"
    then tryCatch (evaluateExpression H wall c context) (fun _ => false)
    else if String.eqb type "threshold"
    then tryCatch (evaluateThreshold H c context) (fun _ => false)
    else if String.eqb type "time_based"
    then tryCatch (evaluateTimeBased H wall c context) (fun _ => false)
    else if String.eqb type "role_based"
    then tryCatch (evaluateRoleBased c context) (fun _ => false)
    else if String.eqb type "permission_based"
    then tryCatch (evaluatePermissionBased c context) (fun _ => false)
    else if String.eqb type "composite"
    then evaluateComposite (fun member => evaluateCondition H wall member context) c
    else Ok false.
Proof. destruct c; reflexivity. Qed.

Lemma evaluateConditionObject_ok H wall context c :
  exists b, evaluateConditionObject H wall context c = Ok b.
Proof.
  rewrite evaluateConditionObject_unfold. cbv zeta.
  repeat (match goal with
          | |- exists b, (if ?x then _ else _) = Ok b => destruct x
          end; eauto using tryCatch_ok).
  apply evaluateComposite_ok.
Qed.

Lemma string_eqb_false_of_neq (a b : string) : a <> b -> String.eqb a b = false.
Proof. intros Hne. apply String.eqb_neq. exact Hne. Qed.

(** C5. [evaluateCondition] never throws: for every host, condition and
    context it returns a boolean, and on each internal failure (absent or
    unknown type; an expression that is absent or raises; a threshold
    that is incomplete, on a field the request lacks or carries as
    [null], with an unknown operator or with a value that is not the
    list or the range its operator needs; a composite without members;
    a clock range whose start or end
    does not parse, a date range with a bound that is not a date, a time
    window without a range) that boolean is [false]. *)
Theorem evaluateCondition_never_throws H wall condition context :
  (exists b, evaluateCondition H wall condition context = Ok b)
  /\ (InternalFailure H wall context condition ->
      evaluateCondition H wall condition context = Ok false).
Proof.
  split.
  - destruct condition as [c|]; simpl; [apply evaluateConditionObject_ok | eauto].
  - intros Hfail. destruct Hfail as
      [ | c Hmiss | c t Ht Hnot | c e msg Ht He Hrun | c name Ht Hf Hres
        | c op Ht Hop Hnot | c start end_ Ht Htr Hbad
        | c start end_ Ht Htr Hbad | c start end_ Ht Htr Hdr Hbad
        | c Ht Htr Hdr | c Ht Hmiss | c Ht Hmiss | c name Ht Hf Hres
        | c op Ht Hop Hin Hnot | c Ht Hop Hnot | c Ht Hnone ]; simpl;
      try rewrite evaluateConditionObject_unfold.
    + reflexivity.
    + rewrite Hmiss. reflexivity.
    + rewrite Ht. simpl.
      destruct (String.eqb t EmptyString); [reflexivity |].
      rewrite !string_eqb_false_of_neq; [reflexivity | ..];
        intros ->; apply Hnot; simpl; tauto.
    + rewrite Ht. simpl.
      unfold evaluateExpression. rewrite He. simpl.
      destruct (String.eqb e EmptyString); [reflexivity |].
      unfold safeEvaluate.
      destruct (String.eqb (sanitize e) EmptyString); [reflexivity |].
      rewrite Hrun. reflexivity.
    + rewrite Ht. simpl.
      unfold evaluateThreshold. rewrite Hf. simpl.
      match goal with |- context [if ?x then Ok false else _] => destruct x end;
        [reflexivity |].
      rewrite Hres. reflexivity.
    + rewrite Ht. simpl.
      unfold evaluateThreshold. rewrite Hop. simpl.
      match goal with |- context [if ?x then Ok false else _] => destruct x end;
        [reflexivity |].
      destruct (resourceField H context (default EmptyString (Condition.field c)));
        try reflexivity;
        (rewrite !string_eqb_false_of_neq; [reflexivity | ..];
         intros ->; apply Hnot; simpl; tauto).
    + rewrite Ht. simpl.
      unfold evaluateTimeBased. rewrite Htr. simpl.
      destruct (parseClock H start) as [parts|e] eqn:Hstart; simpl; [| reflexivity].
      specialize (Hbad parts eq_refl).
      destruct (parseClock H end_) as [parts'|e']; simpl; [| reflexivity].
      apply orb_true_iff in Hbad as [Hbad|Hbad]; rewrite Hbad; simpl;
        rewrite ?orb_true_r; reflexivity.
    + rewrite Ht. simpl.
      unfold evaluateTimeBased. rewrite Htr. simpl.
      destruct (parseClock H start) as [parts|e]; simpl; [| reflexivity].
      destruct (parseClock H end_) as [parts'|e'] eqn:Hend; simpl; [| reflexivity].
      specialize (Hbad parts' eq_refl).
      apply orb_true_iff in Hbad as [Hbad|Hbad]; rewrite Hbad;
        rewrite ?orb_true_r; reflexivity.
    + rewrite Ht. simpl.
      unfold evaluateTimeBased. rewrite Htr, Hdr. simpl.
      rewrite Hbad. reflexivity.
    + rewrite Ht. simpl.
      unfold evaluateTimeBased. rewrite Htr, Hdr. reflexivity.
    + rewrite Ht. simpl.
      unfold evaluateExpression. rewrite Hmiss. reflexivity.
    + rewrite Ht. simpl.
      unfold evaluateThreshold. rewrite Hmiss. reflexivity.
    + rewrite Ht. simpl.
      unfold evaluateThreshold. rewrite Hf. simpl.
      match goal with |- context [if ?x then Ok false else _] => destruct x end;
        [reflexivity |].
      rewrite Hres. reflexivity.
    + rewrite Ht. simpl.
      unfold evaluateThreshold. rewrite Hop. simpl.
      match goal with |- context [if ?x then Ok false else _] => destruct x end;
        [reflexivity |].
      destruct (resourceField H context (default EmptyString (Condition.field c)));
        try reflexivity;
        destruct Hin as [-> | ->]; simpl;
        destruct (Condition.value c) as [| | | | |listed| |] eqn:Hvalue;
        try reflexivity; by destruct (Hnot listed).
    + rewrite Ht. simpl.
      unfold evaluateThreshold. rewrite Hop. simpl.
      match goal with |- context [if ?x then Ok false else _] => destruct x end;
        [reflexivity |].
      destruct (resourceField H context (default EmptyString (Condition.field c)));
        try reflexivity;
        destruct (Condition.value c)
          as [| | | | |[|lower [|upper [|]]]| |] eqn:Hvalue;
        try reflexivity; by destruct (Hnot lower upper).
    + rewrite Ht. simpl. unfold evaluateComposite.
      by destruct Hnone as [-> | ->].
Qed.

(** ** The trace *)

Lemma addEvent_addEvents e evs w :
  addEvent e (addEvents evs w) = addEvents (evs ++ [e]) w.
Proof. unfold addEvent, addEvents; simpl. by rewrite <- app_assoc. Qed.

Lemma addEvents_addEvents evs evs' w :
  addEvents evs' (addEvents evs w) = addEvents (evs ++ evs') w.
Proof. unfold addEvents; simpl. by rewrite <- app_assoc. Qed.

Lemma addEvent_one e w : addEvent e w = addEvents [e] w.
Proof. reflexivity. Qed.

Ltac merge_events :=
  rewrite ?addEvent_one, ?addEvents_addEvents; simpl app.

Lemma addEvents_nil w : addEvents [] w = w.
Proof. destruct w; unfold addEvents; simpl. by rewrite app_nil_r. Qed.

Lemma evaluatedRules_app evs evs' :
  evaluatedRules (evs ++ evs') = evaluatedRules evs ++ evaluatedRules evs'.
Proof.
  induction evs as [|e evs IH]; [done |].
  destruct e; simpl; by rewrite ?IH.
Qed.

Lemma exceptionChecks_app evs evs' :
  exceptionChecks (evs ++ evs') = exceptionChecks evs ++ exceptionChecks evs'.
Proof.
  induction evs as [|e evs IH]; [done |].
  destruct e; simpl; by rewrite ?IH.
Qed.

(** ** One iteration of the loop *)

Section Iteration.

Variable evaluator : Z -> option Condition.t -> Context.t -> Result bool.
Variable context : Context.t.
Variable startTime : Z.

Lemma applyAction_block rule st w :
  Rule.actionType rule = BLOCK ->
  applyAction context startTime rule st w =
  (Ok (Return (blockedResult rule st (clock w - startTime))),
   addEvents
     [AuditLog FAILURE (User.id (Context.user context))
        ("RULE_BLOCKED_" +:+ Context.action context)
        (Context.moduleName context) (Some (blockMessage rule)) None] w).
Proof. intros Hblock. unfold applyAction. rewrite Hblock. reflexivity. Qed.

Lemma applyAction_continue rule st w :
  Rule.actionType rule <> BLOCK ->
  applyAction context startTime rule st w = (Ok (Continue (resolve rule st)), w).
Proof.
  intros Hne. unfold applyAction, resolve.
  destruct (Rule.actionType rule); try reflexivity. congruence.
Qed.

(** An iteration whose rule is not triggered leaves the variables as
    they are: the rule is skipped, its condition is false, or its
    evaluation raised. *)
Lemma evaluateRule_not_fired rule st w :
  fires evaluator context (clock w) rule = false ->
  exists evs,
    evaluateRule evaluator context startTime rule st w
    = (Ok (Continue st), addEvents evs w)
    /\ evaluatedRules evs =
       (if notEffective rule (evaluationInstant context (clock w)) then []
        else [Rule.id rule])
    /\ exceptionChecks evs = [].
Proof.
  unfold fires, evaluationInstant. intros Hfires.
  unfold evaluateRule, tryM, bind, dateNow, emit, liftResult, logRuleEvaluation, ret.
  destruct (notEffective rule (default (clock w) (Context.timestamp context)))
    eqn:Heff; simpl in *.
  - exists []. by rewrite addEvents_nil.
  - destruct (evaluator (clock w) (Some (Rule.conditionPayload rule)) context)
      as [[|]|e] eqn:Hev; simpl; [discriminate | |].
    + eexists. split; [merge_events; reflexivity | done].
    + unfold logFailure, emit. simpl.
      eexists. split; [merge_events; reflexivity | done].
Qed.

Lemma evaluateRule_fired rule st w :
  fires evaluator context (clock w) rule = true ->
  exists evs,
    evaluateRule evaluator context startTime rule st w
    = (Ok (if isBlock rule
           then Return (blockedResult rule (pushTriggered rule st)
                          (clock w - startTime))
           else Continue (resolve rule (pushTriggered rule st))),
       addEvents evs w)
    /\ evaluatedRules evs = [Rule.id rule]
    /\ exceptionChecks evs = [].
Proof.
  unfold fires, evaluationInstant. intros Hfires.
  apply andb_true_iff in Hfires as [Heff Hev].
  apply negb_true_iff in Heff.
  destruct (evaluator (clock w) (Some (Rule.conditionPayload rule)) context)
    as [[|]|e] eqn:Hev'; try discriminate.
  unfold evaluateRule, tryM, bind, dateNow, emit, liftResult, logRuleEvaluation, ret.
  simpl. rewrite Heff, Hev'. simpl. unfold isBlock.
  destruct (Rule.actionType rule) eqn:Hact.
  2: {
    rewrite applyAction_block by exact Hact. simpl.
    eexists. split; [merge_events; reflexivity | done].
  }
  all: rewrite <- Hact; rewrite applyAction_continue by congruence;
    rewrite Hact; eexists;
    (split; [merge_events; reflexivity | done]).
Qed.

End Iteration.

(** ** The loop as a function of the candidate list *)

Section Loop.

Variable evaluator : Z -> option Condition.t -> Context.t -> Result bool.
Variable context : Context.t.
Variable startTime : Z.

Lemma evaluateLoop_run rules : forall st w,
  exists evs,
    evaluateLoop evaluator context startTime rules st w
    = (Ok (loopResult evaluator context (clock w) (clock w - startTime) rules st),
       addEvents evs w)
    /\ evaluatedRules evs = loopEvaluated evaluator context (clock w) rules
    /\ exceptionChecks evs = [].
Proof.
  induction rules as [|rule rest IH]; intros st w.
  - eexists [_]. split; [reflexivity | done].
  - cbn [evaluateLoop loopResult loopEvaluated]. unfold bind at 1.
    destruct (fires evaluator context (clock w) rule) eqn:Hfires.
    + destruct (evaluateRule_fired evaluator context startTime rule st w Hfires)
        as (evs & Hrun & Hevs & Hexc).
      rewrite Hrun.
      assert (Heff : notEffective rule (evaluationInstant context (clock w)) = false).
      { unfold fires in Hfires. apply andb_true_iff in Hfires as [Heff _].
        by apply negb_true_iff in Heff. }
      rewrite Heff. simpl andb.
      destruct (isBlock rule).
      * exists evs. by rewrite Hevs.
      * destruct (IH (resolve rule (pushTriggered rule st)) (addEvents evs w))
          as (evs' & Hrun' & Hevs' & Hexc').
        rewrite Hrun'. exists (evs ++ evs'). simpl clock.
        rewrite addEvents_addEvents, evaluatedRules_app, exceptionChecks_app.
        rewrite Hevs, Hevs', Hexc, Hexc'. done.
    + destruct (evaluateRule_not_fired evaluator context startTime rule st w Hfires)
        as (evs & Hrun & Hevs & Hexc).
      rewrite Hrun.
      destruct (IH st (addEvents evs w)) as (evs' & Hrun' & Hevs' & Hexc').
      rewrite Hrun'. exists (evs ++ evs'). simpl clock.
      rewrite addEvents_addEvents, evaluatedRules_app, exceptionChecks_app.
      rewrite Hevs, Hevs', Hexc, Hexc'. simpl andb.
      by destruct (notEffective rule (evaluationInstant context (clock w))).
Qed.

End Loop.

(** ** The collaborators as functions of the world *)

Lemma find_existsb {A} (f : A -> bool) (l : list A) :
  match List.find f l with Some _ => true | None => false end = existsb f l.
Proof. induction l as [|x l IH]; [done |]. simpl. by destruct (f x). Qed.

Lemma getCachedRules_run moduleName w :
  exists evs cache,
    getCachedRules moduleName w
    = (candidateRules moduleName w, setCache (fun _ => cache) (addEvents evs w))
    /\ evaluatedRules evs = [] /\ exceptionChecks evs = [].
Proof.
  unfold getCachedRules, candidateRules, ruleFindMany, bind, emit.
  assert (Hhit : w = setCache (fun _ => rulesCache w) (addEvents [] w)).
  { destruct w; unfold setCache, addEvents; simpl. by rewrite app_nil_r. }
  destruct (rulesCache w !! moduleName) as [entry|].
  - destruct (clock w - lastUpdated entry <? CACHE_TTL).
    + exists [], (rulesCache w). by rewrite <- Hhit.
    + simpl. destruct (storeAvailable w); eexists [_], _; (split; [reflexivity | done]).
  - simpl. destruct (storeAvailable w); eexists [_], _; (split; [reflexivity | done]).
Qed.

Lemma checkRuleException_run userId ruleIds w :
  exists evs,
    checkRuleException userId ruleIds w
    = (Ok (holdsException w userId ruleIds), addEvents evs w)
    /\ evaluatedRules evs = []
    /\ exceptionChecks evs = [(userId, ruleIds)].
Proof.
  destruct ruleIds as [|ruleId rest].
  - eexists [_]. split; [reflexivity | done].
  - unfold checkRuleException, holdsException, tryM, ruleExceptionFindFirst,
      emit, ret, bind.
    simpl. destruct (storeAvailable w); simpl.
    + rewrite find_existsb. eexists. split; [merge_events; reflexivity | done].
    + eexists. split; [merge_events; reflexivity | done].
Qed.

(** ** A call of [evaluateRules] as a function of the world *)

Lemma bind_ok {A B} (m : M A) (k : A -> M B) w a w' :
  m w = (Ok a, w') -> bind m k w = k a w'.
Proof. unfold bind. by intros ->. Qed.

Lemma bind_throw {A B} (m : M A) (k : A -> M B) w e w' :
  m w = (Throw e, w') -> bind m k w = (Throw e, w').
Proof. unfold bind. by intros ->. Qed.

Lemma tryM_ok {A} (body : M A) handler w a w' :
  body w = (Ok a, w') -> tryM body handler w = (Ok a, w').
Proof. unfold tryM. by intros ->. Qed.

Lemma tryM_throw {A} (body : M A) handler w e w' :
  body w = (Throw e, w') -> tryM body handler w = handler e w'.
Proof. unfold tryM. by intros ->. Qed.

Lemma setCache_same evs w :
  setCache (fun _ => rulesCache w) (addEvents evs w) = addEvents evs w.
Proof. by destruct w. Qed.

Lemma evaluateRulesWith_run evaluator context w :
  exists evs cache,
    evaluateRulesWith evaluator context w
    = (Ok (outcome evaluator context w), setCache (fun _ => cache) (addEvents evs w))
    /\ evaluatedRules evs = evaluatedDuring evaluator context w
    /\ exceptionChecks evs = checksDuring context w.
Proof.
  unfold evaluateRulesWith, outcome, evaluatedDuring, checksDuring.
  rewrite (bind_ok dateNow _ w (clock w) w) by reflexivity.
  destruct (invalidContext context).
  { erewrite tryM_throw by reflexivity.
    eexists _, (rulesCache w). rewrite setCache_same.
    split; [unfold bind, dateNow, logFailure, emit, ret; simpl;
            rewrite Z.sub_diag; merge_events; reflexivity | done]. }
  destruct (getCachedRules_run (Context.moduleName context) w)
    as (evs1 & cache & Hcached & Hev1 & Hex1).
  set (w1 := setCache (fun _ => cache) (addEvents evs1 w)) in *.
  destruct (candidateRules (Context.moduleName context) w) as [rules|e].
  2: { erewrite tryM_throw by (erewrite bind_throw by exact Hcached; reflexivity).
       exists (evs1 ++ [AuditLog FAILURE (User.id (Context.user context))
                          ("RULE_EVALUATION_ERROR_" +:+ Context.action context)
                          (Context.moduleName context) (Some e) None]), cache.
       rewrite evaluatedRules_app, exceptionChecks_app, Hev1, Hex1.
       split; [| done].
       unfold bind, dateNow, logFailure, emit, ret, w1. simpl.
       rewrite Z.sub_diag. by rewrite <- addEvents_addEvents. }
  destruct rules as [|rule rest].
  { erewrite tryM_ok by (erewrite bind_ok by exact Hcached; reflexivity).
    exists evs1, cache. simpl. by rewrite Z.sub_diag. }
  destruct (checkRuleException_run (User.id (Context.user context))
              (map Rule.id (rule :: rest)) w1) as (evs2 & Hexc & Hev2 & Hex2).
  change (holdsException w1) with (holdsException w) in Hexc.
  destruct (holdsException w (User.id (Context.user context))
              (map Rule.id (rule :: rest))) eqn:Hholds.
  { erewrite tryM_ok
      by (erewrite bind_ok by exact Hcached; cbv beta iota;
          erewrite bind_ok by exact Hexc; reflexivity).
    exists (evs1 ++ evs2), cache.
    rewrite evaluatedRules_app, exceptionChecks_app, Hev1, Hex1, Hev2, Hex2.
    split; [| done]. unfold w1. simpl. rewrite Z.sub_diag.
    by rewrite <- addEvents_addEvents. }
  destruct (evaluateLoop_run evaluator context (clock w) (rule :: rest)
              initialState (addEvents evs2 w1)) as (evs3 & Hloop & Hev3 & Hex3).
  erewrite tryM_ok
    by (erewrite bind_ok by exact Hcached; cbv beta iota;
        erewrite bind_ok by exact Hexc; exact Hloop).
  exists (evs1 ++ evs2 ++ evs3), cache.
  rewrite !evaluatedRules_app, !exceptionChecks_app, Hev1, Hex1, Hev2, Hex2, Hev3, Hex3.
  split; [| done]. unfold w1. simpl clock. rewrite Z.sub_diag.
  by rewrite <- !addEvents_addEvents.
Qed.

Lemma getCachedRules_answer moduleName w :
  fst (getCachedRules moduleName w) = candidateRules moduleName w.
Proof.
  destruct (getCachedRules_run moduleName w) as (evs & cache & Hrun & _).
  by rewrite Hrun.
Qed.

(** The result and the trace of a call, read off the run lemma. *)
Lemma evaluateRules_run H context w :
  exists w' evs,
    evaluateRules H context w = (Ok (outcome (evaluateCondition H) context w), w')
    /\ events w' = events w ++ evs
    /\ evaluatedRules evs = evaluatedDuring (evaluateCondition H) context w
    /\ exceptionChecks evs = checksDuring context w.
Proof.
  destruct (evaluateRulesWith_run (evaluateCondition H) context w)
    as (evs & cache & Hrun & Hev & Hex).
  eexists _, evs. unfold evaluateRules. rewrite Hrun. done.
Qed.

(** ** Early returns *)

(** C10. For a valid context, when the cache or the store yields no
    active rule for the module, [evaluateRules] returns [ALLOWED] with the
    message [No active rules found] and no triggered rule, and never calls
    the exception checker. *)
Theorem no_active_rules_is_allowed H context w :
  invalidContext context = false ->
  fst (getCachedRules (Context.moduleName context) w) = Ok [] ->
  exists result w' evs,
    evaluateRules H context w = (Ok result, w')
    /\ EvaluationResult.decision result = ALLOWED
    /\ EvaluationResult.message result = Some "No active rules found"
    /\ EvaluationResult.triggeredRules result = []
    /\ events w' = events w ++ evs
    /\ exceptionChecks evs = []
    /\ evaluatedRules evs = [].
Proof.
  intros Hvalid Hrules. rewrite getCachedRules_answer in Hrules.
  destruct (evaluateRules_run H context w) as (w' & evs & Hrun & Hevents & Hev & Hex).
  exists (outcome (evaluateCondition H) context w), w', evs.
  unfold outcome, evaluatedDuring, checksDuring in *.
  rewrite Hvalid, Hrules in *. done.
Qed.

(** An instance: the attendance module with an empty rule table. *)
Lemma no_active_rules_is_allowed_witness :
  exists result w' evs,
    evaluateRules Examples.host Examples.mockContext (Examples.world [] [])
    = (Ok result, w')
    /\ EvaluationResult.decision result = ALLOWED
    /\ EvaluationResult.message result = Some "No active rules found"
    /\ EvaluationResult.triggeredRules result = []
    /\ events w' = events (Examples.world [] []) ++ evs
    /\ exceptionChecks evs = []
    /\ evaluatedRules evs = [].
Proof.
  apply (no_active_rules_is_allowed Examples.host Examples.mockContext
           (Examples.world [] [])); reflexivity.
Defined.

Lemma activeException_holds w userId ruleIds :
  storeAvailable w = true ->
  activeExceptionFor w userId ruleIds ->
  holdsException w userId ruleIds = true.
Proof.
  intros Hup (e & Hin & Huser & Hrule & Hactive & Hfrom & Hto).
  unfold holdsException. destruct ruleIds as [|ruleId rest]; [destruct Hrule |].
  rewrite Hup. apply existsb_exists. exists e. split; [exact Hin |].
  unfold exceptionWhere.
  repeat (apply andb_true_iff; split).
  - by apply String.eqb_eq.
  - apply existsb_exists. exists (RuleException.ruleId e).
    split; [exact Hrule | apply String.eqb_refl].
  - exact Hactive.
  - by apply Z.leb_le.
  - by apply Z.leb_le.
Qed.

(** C3, as the code has it.  For a valid context and a non-empty
    candidate list, when the exception lookup is answered and the user
    holds an exception that is active and in force at the wall-clock
    instant of the call for one of the candidate rules, [evaluateRules]
    returns [ALLOWED] with the message [User has rule exception], no
    triggered rule, and evaluates no condition. *)
Theorem exception_bypasses_evaluation H context w rules :
  invalidContext context = false ->
  fst (getCachedRules (Context.moduleName context) w) = Ok rules ->
  rules <> [] ->
  storeAvailable w = true ->
  activeExceptionFor w (User.id (Context.user context)) (map Rule.id rules) ->
  exists result w' evs,
    evaluateRules H context w = (Ok result, w')
    /\ EvaluationResult.decision result = ALLOWED
    /\ EvaluationResult.message result = Some "User has rule exception"
    /\ EvaluationResult.triggeredRules result = []
    /\ events w' = events w ++ evs
    /\ evaluatedRules evs = [].
Proof.
  intros Hvalid Hrules Hne Hup Hexc. rewrite getCachedRules_answer in Hrules.
  pose proof (activeException_holds _ _ _ Hup Hexc) as Hholds.
  destruct (evaluateRules_run H context w) as (w' & evs & Hrun & Hevents & Hev & Hex).
  exists (outcome (evaluateCondition H) context w), w', evs.
  unfold outcome, evaluatedDuring in *.
  rewrite Hvalid, Hrules in *. destruct rules as [|rule rest]; [congruence |].
  rewrite Hholds in *. done.
Qed.

(** An instance: the blocking rule of the unit tests and an exception for it. *)
Lemma exception_bypasses_evaluation_witness :
  exists result w' evs,
    evaluateRules Examples.host Examples.mockContext
      (Examples.world [Examples.blockingRule] [Examples.exception123])
    = (Ok result, w')
    /\ EvaluationResult.decision result = ALLOWED
    /\ EvaluationResult.message result = Some "User has rule exception"
    /\ EvaluationResult.triggeredRules result = []
    /\ events w' =
       events (Examples.world [Examples.blockingRule] [Examples.exception123]) ++ evs
    /\ evaluatedRules evs = [].
Proof.
  apply (exception_bypasses_evaluation Examples.host Examples.mockContext
           (Examples.world [Examples.blockingRule] [Examples.exception123])
           [Examples.blockingRule]).
  - reflexivity.
  - reflexivity.
  - discriminate.
  - reflexivity.
  - exists Examples.exception123. simpl. repeat split; auto; lia.
Defined.

(** C3 as stated fails in three ways, each with the user holding an
    active exception for the only candidate rule: the message starts with
    a capital letter; a context without an action name is answered
    [ERROR]; and when the exception lookup fails the rules are evaluated
    as usual (here the cache is fresh and the database is down). *)
Lemma exception_claim_counterexample :
  activeExceptionFor
    (Examples.world [Examples.blockingRule] [Examples.exception123])
    "user123" ["rule123"]
  /\ (exists result,
        fst (evaluateRules Examples.host Examples.mockContext
               (Examples.world [Examples.blockingRule] [Examples.exception123]))
        = Ok result
        /\ EvaluationResult.decision result = ALLOWED
        /\ EvaluationResult.message result <> Some "user has rule exception")
  /\ (exists result,
        fst (evaluateRules Examples.host Examples.contextWithoutAction
               (Examples.world [Examples.blockingRule] [Examples.exception123]))
        = Ok result
        /\ EvaluationResult.decision result = ERROR)
  /\ (exists result,
        fst (evaluateRules Examples.host Examples.mockContext
               (Examples.cachedWorld [Examples.blockingRule] [Examples.exception123]))
        = Ok result
        /\ EvaluationResult.decision result = BLOCKED
        /\ evaluatedRules
             (events (snd (evaluateRules Examples.host Examples.mockContext
                (Examples.cachedWorld [Examples.blockingRule]
                   [Examples.exception123]))))
           = ["rule123"]).
Proof.
  split; [| split; [| split]].
  - exists Examples.exception123. simpl. repeat split; auto; lia.
  - eexists. split; [vm_compute; reflexivity |]. split; [reflexivity |].
    simpl. discriminate.
  - eexists. split; [vm_compute; reflexivity |]. reflexivity.
  - eexists. split; [vm_compute; reflexivity |]. split; reflexivity.
Qed.

(** ** The loop on a candidate list *)

Section LoopOnList.

Variable evaluator : Z -> option Condition.t -> Context.t -> Result bool.
Variable context : Context.t.
Variable wall elapsed : Z.

Local Abbreviation firesHere := (fires evaluator context wall).

Lemma fires_effective rule :
  firesHere rule = true ->
  notEffective rule (evaluationInstant context wall) = false.
Proof.
  unfold fires. intros Hf. apply andb_true_iff in Hf as [Heff _].
  by apply negb_true_iff in Heff.
Qed.

(** Without a triggered [BLOCK] the loop runs through the list. *)
Lemma loopResult_completed rules : forall st,
  (forall r, In r rules -> firesHere r = true -> isBlock r = false) ->
  loopResult evaluator context wall elapsed rules st
  = completedResult (fold_left (advance evaluator context wall) rules st) elapsed
  /\ loopEvaluated evaluator context wall rules
     = map Rule.id (effectiveRules context wall rules).
Proof.
  induction rules as [|rule rest IH]; intros st Hno; [done |].
  cbn [loopResult loopEvaluated fold_left effectiveRules List.filter].
  unfold advance at 2.
  destruct (IH (if firesHere rule then resolve rule (pushTriggered rule st) else st))
    as [Hres Hev]; [intros r Hin; apply Hno; by right |].
  fold (effectiveRules context wall rest).
  destruct (firesHere rule) eqn:Hf.
  - rewrite (Hno rule (or_introl eq_refl) Hf), (fires_effective rule Hf).
    simpl. by rewrite Hres, Hev.
  - rewrite Hres. split; [done |].
    destruct (notEffective rule (evaluationInstant context wall)); simpl;
      by rewrite Hev.
Qed.

(** With one, it returns at the first of them. *)
Lemma loopResult_blocked rules : forall st,
  (exists r, In r rules /\ firesHere r = true /\ isBlock r = true) ->
  exists pre b post,
    rules = pre ++ b :: post
    /\ firesHere b = true /\ isBlock b = true
    /\ (forall r, In r pre -> firesHere r = true -> isBlock r = false)
    /\ loopResult evaluator context wall elapsed rules st
       = blockedResult b
           (pushTriggered b (fold_left (advance evaluator context wall) pre st))
           elapsed
    /\ loopEvaluated evaluator context wall rules
       = map Rule.id (effectiveRules context wall (pre ++ [b])).
Proof.
  induction rules as [|rule rest IH]; intros st (r & Hin & Hf & Hb);
    [destruct Hin |].
  destruct (firesHere rule && isBlock rule) eqn:Hhere.
  - apply andb_true_iff in Hhere as [Hf' Hb'].
    exists [], rule, rest. repeat split; try done.
    + cbn [loopResult]. by rewrite Hf', Hb'.
    + cbn [loopEvaluated app effectiveRules List.filter].
      by rewrite (fires_effective rule Hf'), Hf', Hb'.
  - assert (Hrest : exists r, In r rest /\ firesHere r = true /\ isBlock r = true).
    { destruct Hin as [<- | Hin]; [by rewrite Hf, Hb in Hhere | eauto]. }
    destruct (IH (advance evaluator context wall st rule) Hrest)
      as (pre & b & post & -> & Hfb & Hbb & Hpre & Hres & Hev).
    exists (rule :: pre), b, post. repeat split; try done.
    + intros r' [<- | Hin'] Hf'; [| by apply Hpre].
      rewrite Hf' in Hhere. simpl in Hhere. exact Hhere.
    + cbn [loopResult app fold_left]. rewrite <- Hres. unfold advance.
      destruct (firesHere rule); [| done].
      simpl in Hhere. by rewrite Hhere.
    + cbn [loopEvaluated app effectiveRules List.filter].
      fold (effectiveRules context wall (pre ++ [b])).
      rewrite Hhere, Hev.
      by destruct (notEffective rule (evaluationInstant context wall)).
Qed.

End LoopOnList.

(** C1. When a candidate rule is effective, its condition evaluates to
    true and its action is [BLOCK], [evaluateRules] returns [BLOCKED]: the
    loop stops at the first such rule [b] (no rule served before [b] is
    triggered with the action [BLOCK]), whose message is returned, and
    the conditions evaluated are those of the effective rules up to and
    including [b]; no rule after [b] is evaluated. *)
Theorem block_stops_the_loop H context w rules :
  invalidContext context = false ->
  fst (getCachedRules (Context.moduleName context) w) = Ok rules ->
  holdsException w (User.id (Context.user context)) (map Rule.id rules) = false ->
  (exists r, In r rules
             /\ fires (evaluateCondition H) context (clock w) r = true
             /\ Rule.actionType r = BLOCK) ->
  exists result w' evs pre b post,
    evaluateRules H context w = (Ok result, w')
    /\ events w' = events w ++ evs
    /\ rules = pre ++ b :: post
    /\ (forall r, In r pre ->
                  fires (evaluateCondition H) context (clock w) r = true ->
                  Rule.actionType r <> BLOCK)
    /\ fires (evaluateCondition H) context (clock w) b = true
    /\ Rule.actionType b = BLOCK
    /\ EvaluationResult.decision result = BLOCKED
    /\ EvaluationResult.message result = Some (blockMessage b)
    /\ evaluatedRules evs = map Rule.id (effectiveRules context (clock w) (pre ++ [b])).
Proof.
  intros Hvalid Hrules Hnoexc (r & Hin & Hf & Hblock).
  rewrite getCachedRules_answer in Hrules.
  destruct (evaluateRules_run H context w) as (w' & evs & Hrun & Hevents & Hev & _).
  destruct (loopResult_blocked (evaluateCondition H) context (clock w) 0 rules
              initialState)
    as (pre & b & post & Hsplit & Hfb & Hbb & Hfirst & Hres & Hevl).
  { exists r. unfold isBlock. by rewrite Hblock. }
  exists (outcome (evaluateCondition H) context w), w', evs, pre, b, post.
  unfold outcome, evaluatedDuring in *. rewrite Hvalid, Hrules in *.
  destruct rules as [|rule rest]; [destruct Hin |].
  rewrite Hnoexc in *. rewrite Hres, Hev, Hevl.
  repeat split; try done.
  - by rewrite Hrun, Hres.
  - intros r0 Hin0 Hf0 Hb0. specialize (Hfirst r0 Hin0 Hf0).
    unfold isBlock in Hfirst. by rewrite Hb0 in Hfirst.
  - unfold isBlock in Hbb. by destruct (Rule.actionType b).
Qed.

(** An instance: an approval rule and a modification served before two
    blocking rules; the loop stops at the first of the two, and the
    second is never evaluated. *)
Lemma block_stops_the_loop_witness :
  exists result w' evs pre b post,
    evaluateRules Examples.host Examples.mockContext
      (Examples.world [Examples.laterBlock; Examples.lateBlock; Examples.modifyRule;
                       Examples.approvalRule] [])
    = (Ok result, w')
    /\ events w' =
       events (Examples.world [Examples.laterBlock; Examples.lateBlock;
                               Examples.modifyRule; Examples.approvalRule] [])
       ++ evs
    /\ [Examples.approvalRule; Examples.modifyRule; Examples.lateBlock;
        Examples.laterBlock] = pre ++ b :: post
    /\ (forall r, In r pre ->
                  fires (evaluateCondition Examples.host) Examples.mockContext 1000 r
                  = true ->
                  Rule.actionType r <> BLOCK)
    /\ fires (evaluateCondition Examples.host) Examples.mockContext 1000 b = true
    /\ Rule.actionType b = BLOCK
    /\ EvaluationResult.decision result = BLOCKED
    /\ EvaluationResult.message result = Some (blockMessage b)
    /\ evaluatedRules evs
       = map Rule.id (effectiveRules Examples.mockContext 1000 (pre ++ [b])).
Proof.
  apply (block_stops_the_loop Examples.host Examples.mockContext
           (Examples.world [Examples.laterBlock; Examples.lateBlock;
                            Examples.modifyRule; Examples.approvalRule] [])
           [Examples.approvalRule; Examples.modifyRule; Examples.lateBlock;
            Examples.laterBlock]).
  - reflexivity.
  - reflexivity.
  - reflexivity.
  - exists Examples.laterBlock.
    split; [right; right; right; left; reflexivity | split; reflexivity].
Defined.

(** Two instances: an expression that the host fails to parse, and a
    clock range whose end is not a time of day. *)
Lemma evaluateCondition_never_throws_witness :
  (exists b,
     evaluateCondition Examples.host 0 (Some Examples.brokenExpression)
       Examples.mockContext = Ok b)
  /\ evaluateCondition Examples.host 0 (Some Examples.brokenExpression)
       Examples.mockContext = Ok false
  /\ evaluateCondition Examples.host 0 (Some Examples.officeHours)
       Examples.mockContext = Ok false.
Proof.
  destruct (evaluateCondition_never_throws Examples.host 0
              (Some Examples.brokenExpression) Examples.mockContext)
    as [Hreturns Hfalse].
  split; [exact Hreturns |]. split.
  - apply Hfalse.
    apply (ExpressionRaises Examples.host 0 Examples.mockContext
             Examples.brokenExpression "data.status ===" "SyntaxError");
      reflexivity.
  - apply (proj2 (evaluateCondition_never_throws Examples.host 0
                    (Some Examples.officeHours) Examples.mockContext)).
    apply (UnparseableEndTime Examples.host 0 Examples.mockContext
             Examples.officeHours (VStr "00:00") (VStr "late"));
      [reflexivity | reflexivity |].
    intros parts [= <-]. reflexivity.
Defined.

(** ** Precedence of the actions *)

Section Precedence.

Variable evaluator : Z -> option Condition.t -> Context.t -> Result bool.
Variable context : Context.t.
Variable wall : Z.

Local Abbreviation step := (advance evaluator context wall).

Lemma fold_left_invariant (P : LoopState -> Prop) (rules : list Rule.t) :
  (forall st r, In r rules -> P st -> P (step st r)) ->
  forall st, P st -> P (fold_left step rules st).
Proof.
  induction rules as [|rule rest IH]; intros Hstep st Hst; [exact Hst |].
  simpl. apply IH.
  - intros st' r Hin. apply Hstep. by right.
  - apply Hstep; [by left | exact Hst].
Qed.

(** A triggered [ALLOW] rule changes neither the decision nor the message. *)
Lemma step_allow st rule :
  (fires evaluator context wall rule = true -> Rule.actionType rule = ALLOW) ->
  finalDecision (step st rule) = finalDecision st
  /\ finalMessage (step st rule) = finalMessage st.
Proof.
  intros Hallow. unfold advance.
  destruct (fires evaluator context wall rule); [| done].
  unfold resolve. by rewrite (Hallow eq_refl).
Qed.

(** Once the decision has left [ALLOWED], triggered [WARN] and [ALLOW]
    rules change neither the decision nor the message. *)
Lemma step_warn_late st rule :
  finalDecision st <> ALLOWED ->
  (fires evaluator context wall rule = true ->
   Rule.actionType rule = WARN \/ Rule.actionType rule = ALLOW) ->
  finalDecision (step st rule) = finalDecision st
  /\ finalMessage (step st rule) = finalMessage st.
Proof.
  intros Hne Hkind. unfold advance.
  destruct (fires evaluator context wall rule); [| done].
  unfold resolve. destruct (Hkind eq_refl) as [-> | ->]; [| done].
  unfold onWarn. simpl.
  destruct (finalDecision st) eqn:Hdecision; simpl; first [done | congruence].
Qed.

(** The accumulated value under a key after one iteration. *)
Lemma step_modifications st rule k :
  modifications (step st rule) !! k =
  match (if fires evaluator context wall rule then written rule k else None) with
  | Some v => Some v
  | None => modifications st !! k
  end.
Proof.
  unfold advance, written, resolve.
  destruct (fires evaluator context wall rule); [| done].
  destruct (Rule.actionType rule) eqn:Haction; try done;
    unfold onRequireApproval, onWarn; simpl;
    try (by destruct (decisionEqb (finalDecision st) _)).
  unfold onModify. simpl.
  destruct (Rule.actionPayload rule) as [a|]; [| done].
  destruct (Action.modifications a) as [more|]; [| done].
  unfold spread. rewrite lookup_union.
  by destruct (more !! k), (modifications st !! k).
Qed.

Lemma fold_modifications rules k : forall st,
  modifications (fold_left step rules st) !! k =
  lastWrite k (List.filter (fires evaluator context wall) rules)
    (modifications st !! k).
Proof.
  induction rules as [|rule rest IH]; intros st; [done |].
  cbn [fold_left List.filter]. rewrite IH, step_modifications.
  destruct (fires evaluator context wall rule); [| done].
  unfold lastWrite at 2. by cbn [fold_left].
Qed.

End Precedence.

(** C9. A triggered [WARN] rule sets the decision to [WARNING] and
    captures its message only while the decision is still [ALLOWED];
    otherwise it changes nothing.  In a run where a [WARN] rule is
    triggered with nothing but [ALLOW] rules triggered before it and
    nothing but [WARN] and [ALLOW] rules triggered after it, the result is
    [WARNING] with the message of that first [WARN] rule. *)
Theorem first_warning_is_kept H context w rules :
  (forall rule st,
     finalDecision st = ALLOWED ->
     finalDecision (onWarn rule st) = WARNING
     /\ finalMessage (onWarn rule st) = warnMessage rule)
  /\ (forall rule st, finalDecision st <> ALLOWED -> onWarn rule st = st)
  /\ (invalidContext context = false ->
      fst (getCachedRules (Context.moduleName context) w) = Ok rules ->
      holdsException w (User.id (Context.user context)) (map Rule.id rules) = false ->
      forall pre first post,
        rules = pre ++ first :: post ->
        (forall r, In r pre ->
                   fires (evaluateCondition H) context (clock w) r = true ->
                   Rule.actionType r = ALLOW) ->
        fires (evaluateCondition H) context (clock w) first = true ->
        Rule.actionType first = WARN ->
        (forall r, In r post ->
                   fires (evaluateCondition H) context (clock w) r = true ->
                   Rule.actionType r = WARN \/ Rule.actionType r = ALLOW) ->
        exists result w',
          evaluateRules H context w = (Ok result, w')
          /\ EvaluationResult.decision result = WARNING
          /\ EvaluationResult.message result = Some (warnMessage first)).
Proof.
  split; [| split].
  - intros rule st Hallowed. unfold onWarn. by rewrite Hallowed.
  - intros rule st Hne. unfold onWarn.
    destruct (finalDecision st) eqn:Hdecision; simpl; first [done | congruence].
  - intros Hvalid Hrules Hnoexc pre first post -> Hpre Hfirst Hwarn Hpost.
    rewrite getCachedRules_answer in Hrules.
    destruct (evaluateRules_run H context w) as (w' & evs & Hrun & _).
    exists (outcome (evaluateCondition H) context w), w'.
    split; [exact Hrun |].
    unfold outcome. rewrite Hvalid, Hrules.
    destruct (pre ++ first :: post) as [|rule rest] eqn:Hlist;
      [by destruct pre |].
    rewrite Hnoexc, <- Hlist.
    destruct (loopResult_completed (evaluateCondition H) context (clock w) 0
                (pre ++ first :: post) initialState) as [-> _].
    { intros r Hin Hf. unfold isBlock.
      apply in_app_or in Hin as [Hin | [<- | Hin]].
      - by rewrite (Hpre r Hin Hf).
      - by rewrite Hwarn.
      - by destruct (Hpost r Hin Hf) as [-> | ->]. }
    rewrite fold_left_app. cbn [fold_left].
    set (step := advance (evaluateCondition H) context (clock w)).
    assert (Hbefore : finalDecision (fold_left step pre initialState) = ALLOWED).
    { apply (fold_left_invariant (evaluateCondition H) context (clock w)
               (fun st => finalDecision st = ALLOWED)); [| done].
      intros st r Hin Hst.
      destruct (step_allow (evaluateCondition H) context (clock w) st r
                  (Hpre r Hin)) as [-> _].
      exact Hst. }
    assert (Hat : finalDecision (step (fold_left step pre initialState) first) = WARNING
                  /\ finalMessage (step (fold_left step pre initialState) first)
                     = warnMessage first).
    { unfold step at 1 3, advance. rewrite Hfirst. unfold resolve. rewrite Hwarn.
      unfold onWarn. simpl. by rewrite Hbefore. }
    assert (Hafter :
              finalDecision
                (fold_left step post (step (fold_left step pre initialState) first))
              = WARNING
              /\ finalMessage
                   (fold_left step post (step (fold_left step pre initialState) first))
                 = warnMessage first).
    { apply (fold_left_invariant (evaluateCondition H) context (clock w)
               (fun st => finalDecision st = WARNING
                          /\ finalMessage st = warnMessage first)); [| exact Hat].
      intros st r Hin [Hd Hm].
      destruct (step_warn_late (evaluateCondition H) context (clock w) st r)
        as [-> ->]; [by rewrite Hd | by apply Hpost | done]. }
    destruct Hafter as [Hd Hm]. simpl. by rewrite Hd, Hm.
Qed.

(** An instance: two warnings, of priorities 100 and 200. *)
Lemma first_warning_is_kept_witness :
  (finalDecision (onWarn Examples.lowPriorityRule initialState) = WARNING
   /\ finalMessage (onWarn Examples.lowPriorityRule initialState)
      = "Low priority warning")
  /\ onWarn Examples.secondWarning (onWarn Examples.lowPriorityRule initialState)
     = onWarn Examples.lowPriorityRule initialState
  /\ exists result w',
       evaluateRules Examples.host Examples.mockContext
         (Examples.world [Examples.secondWarning; Examples.lowPriorityRule] [])
       = (Ok result, w')
       /\ EvaluationResult.decision result = WARNING
       /\ EvaluationResult.message result
          = Some (warnMessage Examples.lowPriorityRule).
Proof.
  destruct (first_warning_is_kept Examples.host Examples.mockContext
              (Examples.world [Examples.secondWarning; Examples.lowPriorityRule] [])
              [Examples.lowPriorityRule; Examples.secondWarning])
    as (Hcapture & Hlate & Hrun).
  split; [| split].
  - apply Hcapture. reflexivity.
  - apply Hlate. simpl. discriminate.
  - apply (Hrun eq_refl eq_refl eq_refl [] Examples.lowPriorityRule
             [Examples.secondWarning] eq_refl).
    + intros r [].
    + reflexivity.
    + reflexivity.
    + intros r [<- | []] _. left. reflexivity.
Defined.

(** C2, as the code has it.  A triggered [MODIFY] rule sets the decision
    to [MODIFIED] only when the decision is neither [BLOCKED] nor
    [APPROVAL_REQUIRED]; its modification map is merged into the
    accumulated one whatever the decision is, its keys overwriting the
    earlier ones.  In a run over a non-empty candidate list without a
    triggered [BLOCK], the returned map
    holds, under every key, the value written by the last triggered
    [MODIFY] rule in evaluation order. *)
Theorem modify_merges_whatever_the_decision H context w rules :
  (forall rule st,
     finalDecision (onModify rule st)
     = if decisionEqb (finalDecision st) BLOCKED
          || decisionEqb (finalDecision st) APPROVAL_REQUIRED
       then finalDecision st else MODIFIED)
  /\ (forall rule st a more k,
        Rule.actionPayload rule = Some a ->
        Action.modifications a = Some more ->
        modifications (onModify rule st) !! k
        = match more !! k with
          | Some v => Some v
          | None => modifications st !! k
          end)
  /\ (invalidContext context = false ->
      fst (getCachedRules (Context.moduleName context) w) = Ok rules ->
      rules <> [] ->
      holdsException w (User.id (Context.user context)) (map Rule.id rules) = false ->
      (forall r, In r rules ->
                 fires (evaluateCondition H) context (clock w) r = true ->
                 Rule.actionType r <> BLOCK) ->
      exists result w' m,
        evaluateRules H context w = (Ok result, w')
        /\ EvaluationResult.modifications result = Some m
        /\ forall k,
             m !! k
             = lastWrite k
                 (List.filter (fires (evaluateCondition H) context (clock w)) rules)
                 None).
Proof.
  split; [| split].
  - reflexivity.
  - intros rule st a more k Hpayload Hmore. unfold onModify. simpl.
    rewrite Hpayload, Hmore. unfold spread. rewrite lookup_union.
    by destruct (more !! k), (modifications st !! k).
  - intros Hvalid Hrules Hne Hnoexc Hnoblock.
    rewrite getCachedRules_answer in Hrules.
    destruct (evaluateRules_run H context w) as (w' & evs & Hrun & _).
    destruct (loopResult_completed (evaluateCondition H) context (clock w) 0
                rules initialState) as [Hres _].
    { intros r Hin Hf. specialize (Hnoblock r Hin Hf). unfold isBlock.
      by destruct (Rule.actionType r). }
    exists (outcome (evaluateCondition H) context w), w'.
    unfold outcome in *. rewrite Hvalid, Hrules in *.
    destruct rules as [|rule rest]; [done |].
    rewrite Hnoexc in *. rewrite Hres in *. eexists. split; [exact Hrun |].
    split; [reflexivity |].
    intros k. rewrite fold_modifications. reflexivity.
Qed.

(** An instance: two [MODIFY] rules writing the same key. *)
Lemma modify_merges_whatever_the_decision_witness :
  finalDecision
    (onModify Examples.modifyRule (onRequireApproval Examples.approvalRule initialState))
  = APPROVAL_REQUIRED
  /\ modifications
       (onModify Examples.modifyRule
          (onRequireApproval Examples.approvalRule initialState)) !! "status"
     = Some (VStr "VERIFIED_PRESENT")
  /\ exists result w' m,
       evaluateRules Examples.host Examples.mockContext
         (Examples.world [Examples.secondModify; Examples.modifyRule] [])
       = (Ok result, w')
       /\ EvaluationResult.modifications result = Some m
       /\ forall k,
            m !! k
            = lastWrite k
                (List.filter (fires (evaluateCondition Examples.host)
                                Examples.mockContext 1000)
                   [Examples.modifyRule; Examples.secondModify])
                None.
Proof.
  destruct (modify_merges_whatever_the_decision Examples.host Examples.mockContext
              (Examples.world [Examples.secondModify; Examples.modifyRule] [])
              [Examples.modifyRule; Examples.secondModify])
    as (Hdecision & Hmerge & Hrun).
  split; [| split].
  - exact (Hdecision Examples.modifyRule
             (onRequireApproval Examples.approvalRule initialState)).
  - exact (Hmerge Examples.modifyRule
             (onRequireApproval Examples.approvalRule initialState)
             _ _ "status" eq_refl eq_refl).
  - apply Hrun.
    + reflexivity.
    + reflexivity.
    + discriminate.
    + reflexivity.
    + intros r [<- | [<- | []]] _; discriminate.
Defined.

(** C2 as stated fails: with the decision already [APPROVAL_REQUIRED]
    (rule789, priority 15), the map of the [MODIFY] rule that follows
    (rule456, priority 20) is merged into the returned modifications. *)
Lemma modify_claim_counterexample :
  exists result m,
    fst (evaluateRules Examples.host Examples.mockContext
           (Examples.world [Examples.approvalRule; Examples.modifyRule] []))
    = Ok result
    /\ EvaluationResult.decision result = APPROVAL_REQUIRED
    /\ map Triggered.ruleId (EvaluationResult.triggeredRules result)
       = ["rule789"; "rule456"]
    /\ EvaluationResult.modifications result = Some m
    /\ m !! "status" = Some (VStr "VERIFIED_PRESENT")
    /\ m <> ∅.
Proof.
  eexists _, _. split; [vm_compute; reflexivity |].
  repeat split.
  intros Hempty. apply (f_equal (fun m : gmap string value => m !! "status")) in Hempty.
  vm_compute in Hempty. discriminate.
Qed.

(** ** Order of evaluation *)

(** C4 fails on the code.  The loop takes the rules in the order in which
    the store returned them and never sorts them itself.  With the list
    of the unit test on priority order, served low priority first, the
    warning is evaluated and triggered before the block; served in
    ascending priority it is never evaluated.  Through the database, two
    rules with the same priority and the same creation time are evaluated
    in table order, and the message returned changes with that order. *)
Theorem evaluation_order_is_the_served_order :
  (exists served sorted,
     fst (evaluateRules Examples.host Examples.mockContext
            (Examples.servedWorld [Examples.lowPriorityRule; Examples.highPriorityRule]))
     = Ok served
     /\ fst (evaluateRules Examples.host Examples.mockContext
               (Examples.servedWorld
                  [Examples.highPriorityRule; Examples.lowPriorityRule]))
        = Ok sorted
     /\ map Triggered.ruleId (EvaluationResult.triggeredRules served)
        = ["rule_low"; "rule_high"]
     /\ map Triggered.ruleId (EvaluationResult.triggeredRules sorted) = ["rule_high"])
  /\ (exists ab ba,
        fst (evaluateRules Examples.host Examples.mockContext
               (Examples.world [Examples.tiedWarningA; Examples.tiedWarningB] []))
        = Ok ab
        /\ fst (evaluateRules Examples.host Examples.mockContext
                  (Examples.world [Examples.tiedWarningB; Examples.tiedWarningA] []))
           = Ok ba
        /\ EvaluationResult.message ab = Some "Warning A"
        /\ EvaluationResult.message ba = Some "Warning B"
        /\ map Triggered.ruleId (EvaluationResult.triggeredRules ab)
           = ["rule_a"; "rule_b"]
        /\ map Triggered.ruleId (EvaluationResult.triggeredRules ba)
           = ["rule_b"; "rule_a"]).
Proof.
  split.
  - eexists _, _. split; [vm_compute; reflexivity |].
    split; [vm_compute; reflexivity |]. repeat split.
  - eexists _, _. split; [vm_compute; reflexivity |].
    split; [vm_compute; reflexivity |]. repeat split.
Qed.

(** ** Versions of a rule *)

(** C7 fails on the code for [effectiveTo].  Renaming a rule that ends at
    the instant 5000 creates version 2 with the parent as [parentRuleId],
    but without an end date: [effectiveTo] is taken from the update alone.
    The parent is deactivated, and a request made after its end date is
    blocked by the new version. *)
Theorem updateRule_drops_the_end_date :
  exists newVersion w',
    updateRule "rule123" Examples.renameOnly "admin123"
      (Examples.world [Examples.expiringRule] [])
    = (Ok newVersion, w')
    /\ Rule.version newVersion = Rule.version Examples.expiringRule + 1
    /\ Rule.parentRuleId newVersion = Some "rule123"
    /\ Rule.name newVersion = "Updated Rule"
    /\ Rule.effectiveFrom newVersion = Rule.effectiveFrom Examples.expiringRule
    /\ Rule.effectiveTo Examples.expiringRule = Some 5000
    /\ Rule.effectiveTo newVersion = None
    /\ map (fun r => (Rule.id r, Rule.isActive r)) (ruleTable w')
       = [("rule123", false); ("rule_new", true)]
    /\ exists result,
         fst (evaluateRules Examples.host Examples.laterContext (advanceClock 5001 w'))
         = Ok result
         /\ EvaluationResult.decision result = BLOCKED
         /\ map Triggered.ruleId (EvaluationResult.triggeredRules result)
            = ["rule_new"].
Proof.
  eexists _, _. split; [vm_compute; reflexivity |].
  repeat split.
  eexists. split; [vm_compute; reflexivity |]. repeat split.
Qed.

Lemma In_insertRule x r sorted : In x (insertRule r sorted) <-> x = r \/ In x sorted.
Proof.
  induction sorted as [|y rest IH]; simpl; [intuition |].
  destruct (ruleOrder r y); simpl; [intuition |].
  rewrite IH. intuition.
Qed.

Lemma In_orderBy x rows : In x (orderBy rows) <-> In x rows.
Proof.
  induction rows as [|r rest IH]; simpl; [done |].
  rewrite In_insertRule, IH. intuition.
Qed.

Lemma resolve_triggeredRules rule st :
  triggeredRules (resolve rule st) = triggeredRules st.
Proof.
  unfold resolve, onRequireApproval, onModify, onWarn.
  destruct (Rule.actionType rule); try done;
    by destruct (decisionEqb (finalDecision st) _).
Qed.

(** Every triggered rule is a candidate. *)
Lemma triggered_are_candidates evaluator context wall elapsed rules : forall st x,
  In x (map Triggered.ruleId
          (EvaluationResult.triggeredRules
             (loopResult evaluator context wall elapsed rules st))) ->
  In x (map Triggered.ruleId (triggeredRules st)) \/ In x (map Rule.id rules).
Proof.
  induction rules as [|rule rest IH]; intros st x; cbn [loopResult]; [by left |].
  assert (Hpushed : forall y,
            In y (map Triggered.ruleId (triggeredRules (pushTriggered rule st))) ->
            In y (map Triggered.ruleId (triggeredRules st)) \/ y = Rule.id rule).
  { intros y. simpl. rewrite map_app, in_app_iff. simpl. intuition. }
  destruct (fires evaluator context wall rule).
  - destruct (isBlock rule).
    + simpl. intros Hin. rewrite map_app, in_app_iff in Hin. simpl in *. intuition.
    + intros Hin. apply IH in Hin as [Hin | Hin]; [| simpl; tauto].
      rewrite resolve_triggeredRules in Hin.
      apply Hpushed in Hin. simpl. intuition.
  - intros Hin. apply IH in Hin. simpl. tauto.
Qed.

(** X23. What [updateRule] does hold: the new row is version [n + 1] of
    the parent and points to it, its end date is the one of the update, every
    row with the identifier of the parent is inactive afterwards, and no
    later evaluation for the parent's module lists the parent among the
    triggered rules. *)
Lemma updateRule_supersedes_parent ruleId data updatedBy w newVersion w' :
  updateRule ruleId data updatedBy w = (Ok newVersion, w') ->
  exists parent,
    List.find (fun r => String.eqb (Rule.id r) ruleId) (ruleTable w) = Some parent
    /\ Rule.version newVersion = Rule.version parent + 1
    /\ Rule.parentRuleId newVersion = Some ruleId
    /\ Rule.effectiveTo newVersion = UpdateRuleDTO.effectiveTo data
    /\ (forall r, In r (ruleTable w') -> Rule.id r = ruleId -> Rule.isActive r = false)
    /\ forall H context d result,
         Context.moduleName context = Rule.moduleName parent ->
         fst (evaluateRules H context (advanceClock d w')) = Ok result ->
         ~ In ruleId (map Triggered.ruleId (EvaluationResult.triggeredRules result)).
Proof.
  unfold updateRule, ruleFindUnique.
  unfold bind at 1.
  destruct (storeAvailable w) eqn:Hup; [| discriminate].
  destruct (List.find (fun r => String.eqb (Rule.id r) ruleId) (ruleTable w))
    as [parent|] eqn:Hfind; [| discriminate].
  unfold bind at 1, ruleCreate. rewrite Hup.
  destruct (existsb _ (ruleTable w)); [discriminate |].
  unfold bind, ruleDeactivate, clearCache, logSuccess, emit, ret. simpl.
  intros Hrun. exists parent.
  assert (Hinactive :
            forall table r,
              In r (map (fun r => if String.eqb (Rule.id r) ruleId
                                  then deactivate r else r) table) ->
              Rule.id r = ruleId -> Rule.isActive r = false).
  { intros table r Hin Hid. apply in_map_iff in Hin as (r0 & <- & _).
    destruct (String.eqb (Rule.id r0) ruleId) eqn:Heq; [done |].
    apply String.eqb_neq in Heq. done. }
  assert (Hcache : rulesCache w' !! Rule.moduleName parent = None
                   /\ storeAvailable w' = true
                   /\ (forall r, In r (ruleTable w') -> Rule.id r = ruleId ->
                                 Rule.isActive r = false)
                   /\ Rule.version newVersion = Rule.version parent + 1
                   /\ Rule.parentRuleId newVersion = Some ruleId
                   /\ Rule.effectiveTo newVersion = UpdateRuleDTO.effectiveTo data).
  { destruct (String.eqb (Rule.moduleName parent) EmptyString);
      inversion Hrun; subst; simpl;
      (split; [first [apply lookup_empty | apply lookup_delete_eq] |]);
      (split; [reflexivity |]); (split; [apply Hinactive | done]). }
  destruct Hcache as (Hnone & Hup' & Hrows & Hversion & Hparent & Hto).
  repeat split; try done.
  intros H context d result Hmodule Hresult Htriggered.
  destruct (evaluateRules_run H context (advanceClock d w'))
    as (w'' & evs & Hrun' & _).
  rewrite Hrun' in Hresult. simpl in Hresult. injection Hresult as <-.
  unfold outcome, candidateRules, ruleFindMany, bind, emit in Htriggered.
  simpl in Htriggered. rewrite Hmodule, Hnone, Hup' in Htriggered.
  destruct (invalidContext context); [done |].
  simpl in Htriggered.
  set (candidates :=
         orderBy (List.filter (activeRuleWhere (Rule.moduleName parent) (clock w' + d))
                    (ruleTable w'))) in *.
  assert (Hcandidates : forall r, In r candidates -> Rule.id r <> ruleId).
  { intros r Hin Hid. apply In_orderBy, filter_In in Hin as [Hin Hwhere].
    unfold activeRuleWhere in Hwhere. rewrite (Hrows r Hin Hid) in Hwhere.
    rewrite andb_false_r in Hwhere. done. }
  destruct candidates as [|rule rest] eqn:Hlist; [done |].
  destruct (holdsException _ _ _); [done |].
  apply triggered_are_candidates in Htriggered as [[] | Hin].
  apply in_map_iff in Hin as (r & Hid & Hin). exact (Hcandidates r Hin Hid).
Qed.

(** ** The order of the query *)

Lemma ruleOrder_total a b : ruleOrder a b = false -> ruleOrder b a = true.
Proof. unfold ruleOrder. lia. Qed.

Lemma ruleOrder_trans a b c :
  ruleOrder a b = true -> ruleOrder b c = true -> ruleOrder a c = true.
Proof. unfold ruleOrder. lia. Qed.

Lemma ruleOrder_antisym a b :
  ruleOrder a b = true -> ruleOrder b a = true -> sortKey a = sortKey b.
Proof.
  unfold ruleOrder, sortKey. intros Hab Hba.
  assert (Rule.priority a = Rule.priority b /\ Rule.createdAt a = Rule.createdAt b)
    as [-> ->] by lia.
  reflexivity.
Qed.

Lemma insertRule_Permutation r sorted : Permutation (insertRule r sorted) (r :: sorted).
Proof.
  induction sorted as [|x rest IH]; simpl; [done |].
  destruct (ruleOrder r x); [done |].
  rewrite IH. apply perm_swap.
Qed.

Lemma orderBy_Permutation rows : Permutation (orderBy rows) rows.
Proof.
  induction rows as [|r rest IH]; simpl; [done |].
  by rewrite insertRule_Permutation, IH.
Qed.

Lemma insertRule_sorted r sorted :
  StronglySorted (fun a b => ruleOrder a b = true) sorted ->
  StronglySorted (fun a b => ruleOrder a b = true) (insertRule r sorted).
Proof.
  induction 1 as [|x rest Hsorted IH Hall]; simpl.
  - repeat constructor.
  - destruct (ruleOrder r x) eqn:Hrx.
    + constructor; [by constructor |].
      constructor; [exact Hrx |].
      eapply Forall_impl; [exact Hall |].
      intros y Hxy. simpl in Hxy. by apply (ruleOrder_trans r x y).
    + constructor; [exact IH |].
      apply Forall_forall. intros y Hin.
      apply list_elem_of_In, In_insertRule in Hin as [-> | Hin].
      * by apply ruleOrder_total.
      * rewrite Forall_forall in Hall. apply Hall. by apply list_elem_of_In.
Qed.

Lemma orderBy_sorted rows :
  StronglySorted (fun a b => ruleOrder a b = true) (orderBy rows).
Proof.
  induction rows as [|r rest IH]; simpl; [constructor |].
  by apply insertRule_sorted.
Qed.

(** Two sorted arrangements of the same rows are equal when no two
    different rows have the same priority and creation time. *)
Lemma sorted_arrangement_unique (l1 : list Rule.t) : forall l2,
  StronglySorted (fun a b => ruleOrder a b = true) l1 ->
  StronglySorted (fun a b => ruleOrder a b = true) l2 ->
  Permutation l1 l2 ->
  (forall a b, In a l1 -> In b l1 -> sortKey a = sortKey b -> a = b) ->
  l1 = l2.
Proof.
  induction l1 as [|a l1 IH]; intros l2 Hs1 Hs2 Hperm Hinj.
  - by apply Permutation_nil in Hperm.
  - destruct l2 as [|b l2]; [by apply Permutation_sym, Permutation_nil in Hperm |].
    apply StronglySorted_inv in Hs1 as [Hs1 Ha1].
    apply StronglySorted_inv in Hs2 as [Hs2 Hb2].
    rewrite Forall_forall in Ha1, Hb2.
    assert (Hab : a = b).
    { assert (Hina : In a (b :: l2)).
      { apply (Permutation_in _ Hperm). by left. }
      assert (Hinb : In b (a :: l1)).
      { apply (Permutation_in _ (Permutation_sym Hperm)). by left. }
      destruct Hina as [-> | Hina]; [done |].
      destruct Hinb as [-> | Hinb]; [done |].
      apply Hinj; [by left | by right |].
      apply ruleOrder_antisym.
      - apply Ha1. by apply list_elem_of_In.
      - apply Hb2. by apply list_elem_of_In. }
    subst b. f_equal. apply IH; try done.
    + by apply Permutation_cons_inv in Hperm.
    + intros x y Hx Hy. apply Hinj; by right.
Qed.

Lemma filter_Permutation_list {A} (f : A -> bool) (l l' : list A) :
  Permutation l l' -> Permutation (List.filter f l) (List.filter f l').
Proof.
  induction 1 as [|x l l' _ IH|x y l|l l' l'' _ IH1 _ IH2]; simpl.
  - done.
  - destruct (f x); [by constructor | done].
  - destruct (f x), (f y); try done. apply perm_swap.
  - by transitivity (List.filter f l').
Qed.

(** When no two different rows matching the query have the same priority
    and creation time, the answer of the query does not depend on the
    order of the rows in the table. *)
Lemma ruleFindMany_table_order moduleName w table' :
  Permutation (ruleTable w) table' ->
  (forall a b,
     In a (ruleTable w) -> In b (ruleTable w) ->
     activeRuleWhere moduleName (clock w) a = true ->
     activeRuleWhere moduleName (clock w) b = true ->
     sortKey a = sortKey b -> a = b) ->
  fst (ruleFindMany moduleName (setRuleTable (fun _ => table') w))
  = fst (ruleFindMany moduleName w).
Proof.
  intros Hperm Hinj. unfold ruleFindMany, bind, emit. simpl.
  destruct (storeAvailable w); [| done]. simpl. f_equal. symmetry.
  apply sorted_arrangement_unique; try apply orderBy_sorted.
  - rewrite !orderBy_Permutation. by apply filter_Permutation_list.
  - intros a b Ha Hb.
    apply In_orderBy, filter_In in Ha as [Ha Hwa].
    apply In_orderBy, filter_In in Hb as [Hb Hwb].
    by apply Hinj.
Qed.

(** X24. For such tables the result of a call does not depend on the
    order of the rows either: when no two different rows matching the
    query have the same priority and creation time, permuting the rule
    table leaves the result of [evaluateRules] unchanged. *)
Lemma evaluateRules_table_order H context w table' :
  Permutation (ruleTable w) table' ->
  (forall a b,
     In a (ruleTable w) -> In b (ruleTable w) ->
     activeRuleWhere (Context.moduleName context) (clock w) a = true ->
     activeRuleWhere (Context.moduleName context) (clock w) b = true ->
     sortKey a = sortKey b -> a = b) ->
  fst (evaluateRules H context (setRuleTable (fun _ => table') w))
  = fst (evaluateRules H context w).
Proof.
  intros Hperm Hinj.
  destruct (evaluateRules_run H context w) as (? & ? & -> & _).
  destruct (evaluateRules_run H context (setRuleTable (fun _ => table') w))
    as (? & ? & -> & _).
  simpl. f_equal. unfold outcome.
  assert (Hsame : candidateRules (Context.moduleName context)
                    (setRuleTable (fun _ => table') w)
                  = candidateRules (Context.moduleName context) w).
  { unfold candidateRules. simpl.
    rewrite (ruleFindMany_table_order _ w table' Hperm Hinj).
    done. }
  by rewrite Hsame.
Qed.

(** * Further properties of the service *)

(** ** The exact trace of a call *)

Lemma evaluateRule_trace evaluator context startTime rule st w :
  evaluateRule evaluator context startTime rule st w
  = (Ok (if fires evaluator context (clock w) rule
         then if isBlock rule
              then Return (blockedResult rule (pushTriggered rule st)
                             (clock w - startTime))
              else Continue (resolve rule (pushTriggered rule st))
         else Continue st),
     addEvents (ruleTrace evaluator context (clock w) rule st) w).
Proof.
  unfold fires, ruleTrace, evaluationInstant.
  unfold evaluateRule, tryM, bind, dateNow, emit, liftResult, logRuleEvaluation, ret.
  destruct (notEffective rule (default (clock w) (Context.timestamp context)))
    eqn:Heff; simpl.
  { by rewrite addEvents_nil. }
  destruct (evaluator (clock w) (Some (Rule.conditionPayload rule)) context)
    as [[|]|e] eqn:Hev; simpl.
  - unfold isBlock. destruct (Rule.actionType rule) eqn:Hact.
    2: { rewrite applyAction_block by exact Hact. simpl. merge_events. reflexivity. }
    all: rewrite applyAction_continue by congruence;
      merge_events; unfold resolve; rewrite Hact; reflexivity.
  - merge_events. reflexivity.
  - unfold logFailure, emit. simpl. merge_events. reflexivity.
Qed.

Lemma evaluateLoop_trace evaluator context startTime rules : forall st w,
  evaluateLoop evaluator context startTime rules st w
  = (Ok (loopResult evaluator context (clock w) (clock w - startTime) rules st),
     addEvents (loopTrace evaluator context (clock w) rules st) w).
Proof.
  induction rules as [|rule rest IH]; intros st w; [reflexivity |].
  cbn [evaluateLoop loopResult loopTrace]. unfold bind at 1.
  rewrite evaluateRule_trace. unfold advance.
  destruct (fires evaluator context (clock w) rule) eqn:Hf; simpl andb.
  - destruct (isBlock rule); [by rewrite app_nil_r |].
    rewrite IH. simpl clock. by rewrite addEvents_addEvents.
  - rewrite IH. simpl clock. by rewrite addEvents_addEvents.
Qed.

Lemma getCachedRules_trace moduleName w :
  getCachedRules moduleName w
  = (candidateRules moduleName w,
     setCache (fun _ => cacheAfter moduleName w)
       (addEvents (if cacheIsFresh moduleName w then [] else [RuleFindMany moduleName])
          w)).
Proof.
  unfold getCachedRules, candidateRules, cacheAfter, cacheIsFresh, ruleFindMany,
    bind, emit.
  destruct (rulesCache w !! moduleName) as [entry|].
  - destruct (clock w - lastUpdated entry <? CACHE_TTL).
    + by rewrite setCache_same, addEvents_nil.
    + simpl. destruct (storeAvailable w); simpl; [reflexivity |].
      by rewrite setCache_same.
  - simpl. destruct (storeAvailable w); simpl; [reflexivity |].
    by rewrite setCache_same.
Qed.

Lemma checkRuleException_trace userId ruleIds w :
  ruleIds <> [] ->
  checkRuleException userId ruleIds w
  = (Ok (holdsException w userId ruleIds),
     addEvents [CheckRuleException userId ruleIds;
                RuleExceptionFindFirst userId ruleIds] w).
Proof.
  intros Hne. destruct ruleIds as [|ruleId rest]; [done |].
  unfold checkRuleException, holdsException, tryM, ruleExceptionFindFirst,
    emit, ret, bind.
  simpl. destruct (storeAvailable w); simpl.
  - rewrite find_existsb. merge_events. reflexivity.
  - merge_events. reflexivity.
Qed.

(** A call of [evaluateRules], for any implementation of the condition
    evaluator: its result, the cache it leaves and the events it adds. *)
Lemma evaluateRulesWith_trace evaluator context w :
  evaluateRulesWith evaluator context w
  = (Ok (outcome evaluator context w),
     setCache (fun _ => if invalidContext context then rulesCache w
                        else cacheAfter (Context.moduleName context) w)
       (addEvents (callTrace evaluator context w) w)).
Proof.
  unfold evaluateRulesWith, outcome, callTrace.
  rewrite (bind_ok dateNow _ w (clock w) w) by reflexivity.
  destruct (invalidContext context).
  { erewrite tryM_throw by reflexivity. rewrite setCache_same.
    unfold bind, dateNow, logFailure, emit, ret; simpl.
    rewrite Z.sub_diag. merge_events. reflexivity. }
  pose proof (getCachedRules_trace (Context.moduleName context) w) as Hcached.
  set (evs1 := if cacheIsFresh (Context.moduleName context) w then []
               else [RuleFindMany (Context.moduleName context)]) in *.
  set (cache := cacheAfter (Context.moduleName context) w) in *.
  set (w1 := setCache (fun _ => cache) (addEvents evs1 w)) in *.
  destruct (candidateRules (Context.moduleName context) w) as [rules|e].
  2: { erewrite tryM_throw by (erewrite bind_throw by exact Hcached; reflexivity).
       unfold bind, dateNow, logFailure, emit, ret, w1. simpl.
       rewrite Z.sub_diag. merge_events. by rewrite <- addEvents_addEvents. }
  destruct rules as [|rule rest].
  { erewrite tryM_ok by (erewrite bind_ok by exact Hcached; reflexivity).
    simpl. rewrite Z.sub_diag, app_nil_r. reflexivity. }
  pose proof (checkRuleException_trace (User.id (Context.user context))
                (map Rule.id (rule :: rest)) w1 ltac:(discriminate)) as Hexc.
  change (holdsException w1) with (holdsException w) in Hexc.
  destruct (holdsException w (User.id (Context.user context))
              (map Rule.id (rule :: rest))) eqn:Hholds.
  { erewrite tryM_ok
      by (erewrite bind_ok by exact Hcached; cbv beta iota;
          erewrite bind_ok by exact Hexc; reflexivity).
    unfold w1. simpl. rewrite Z.sub_diag. by rewrite <- addEvents_addEvents. }
  pose proof (evaluateLoop_trace evaluator context (clock w) (rule :: rest)
                initialState
                (addEvents [CheckRuleException (User.id (Context.user context))
                              (map Rule.id (rule :: rest));
                            RuleExceptionFindFirst (User.id (Context.user context))
                              (map Rule.id (rule :: rest))] w1)) as Hloop.
  erewrite tryM_ok
    by (erewrite bind_ok by exact Hcached; cbv beta iota;
        erewrite bind_ok by exact Hexc; exact Hloop).
  unfold w1. simpl clock. rewrite Z.sub_diag.
  f_equal. unfold setCache, addEvents. simpl. f_equal.
  by rewrite <- !app_assoc.
Qed.

Lemma loggedDecisions_app evs evs' :
  loggedDecisions (evs ++ evs') = loggedDecisions evs ++ loggedDecisions evs'.
Proof.
  induction evs as [|e evs IH]; [done |].
  destruct e; simpl; by rewrite ?IH.
Qed.

Lemma auditEntries_app evs evs' :
  auditEntries (evs ++ evs') = auditEntries evs ++ auditEntries evs'.
Proof.
  induction evs as [|e evs IH]; [done |].
  destruct e; simpl; by rewrite ?IH.
Qed.

(** ** The decisions the loop can hold *)

Lemma resolve_finalDecision rule st :
  In (finalDecision st) [ALLOWED; WARNING; MODIFIED; APPROVAL_REQUIRED] ->
  In (finalDecision (resolve rule (pushTriggered rule st)))
     [ALLOWED; WARNING; MODIFIED; APPROVAL_REQUIRED].
Proof.
  unfold resolve, onRequireApproval, onModify, onWarn. simpl. intros Hst.
  destruct (Rule.actionType rule); simpl;
    destruct (finalDecision st) eqn:Hd; simpl; rewrite ?Hd;
    simpl in *; intuition congruence.
Qed.

Lemma advance_finalDecision evaluator context wall st rule :
  In (finalDecision st) [ALLOWED; WARNING; MODIFIED; APPROVAL_REQUIRED] ->
  In (finalDecision (advance evaluator context wall st rule))
     [ALLOWED; WARNING; MODIFIED; APPROVAL_REQUIRED].
Proof.
  intros Hst. unfold advance.
  destruct (fires evaluator context wall rule); [| exact Hst].
  by apply resolve_finalDecision.
Qed.

Lemma loopResult_decision evaluator context wall elapsed rules : forall st,
  In (finalDecision st) [ALLOWED; WARNING; MODIFIED; APPROVAL_REQUIRED] ->
  In (EvaluationResult.decision (loopResult evaluator context wall elapsed rules st))
     [BLOCKED; ALLOWED; WARNING; MODIFIED; APPROVAL_REQUIRED].
Proof.
  induction rules as [|rule rest IH]; intros st Hst; cbn [loopResult].
  - by right.
  - destruct (fires evaluator context wall rule); [| by apply IH].
    destruct (isBlock rule); [by left |].
    by apply IH, resolve_finalDecision.
Qed.

Lemma loopTrace_loggedDecisions evaluator context wall rules : forall st d,
  In (finalDecision st) [ALLOWED; WARNING; MODIFIED; APPROVAL_REQUIRED] ->
  In d (loggedDecisions (loopTrace evaluator context wall rules st)) ->
  In d [ALLOWED; WARNING; MODIFIED; APPROVAL_REQUIRED].
Proof.
  induction rules as [|rule rest IH]; intros st d Hst; cbn [loopTrace]; [done |].
  rewrite loggedDecisions_app, in_app_iff. intros [Hin | Hin].
  - unfold ruleTrace in Hin.
    destruct (notEffective rule (evaluationInstant context wall)); [done |].
    simpl in Hin.
    destruct (evaluator wall (Some (Rule.conditionPayload rule)) context)
      as [conditionMet|e]; simpl in Hin; [| done].
    destruct Hin as [<- | Hin]; [exact Hst |].
    by destruct (conditionMet && isBlock rule).
  - destruct (fires evaluator context wall rule && isBlock rule); [done |].
    eapply IH; [| exact Hin]. by apply advance_finalDecision.
Qed.

(** ** What a call never does *)

(** X1. [evaluateRules] never rejects, whatever the condition evaluator
    does: every failure inside the call becomes a result.  The decision
    is [ERROR] exactly when the context lacks a user id, a module name
    or an action, or when the cache entry of the module is not fresh and
    the database does not answer. *)
Theorem evaluateRules_always_answers evaluator context w :
  exists result w',
    evaluateRulesWith evaluator context w = (Ok result, w')
    /\ (EvaluationResult.decision result = ERROR <->
        invalidContext context = true
        \/ (cacheIsFresh (Context.moduleName context) w = false
            /\ storeAvailable w = false)).
Proof.
  eexists _, _. split; [apply evaluateRulesWith_trace |].
  unfold outcome, candidateRules, cacheIsFresh, ruleFindMany, bind, emit.
  destruct (invalidContext context); [simpl; tauto |].
  assert (Hloop : forall rules,
            EvaluationResult.decision
              (loopResult evaluator context (clock w) 0 rules initialState) <> ERROR).
  { intros rules Herr.
    pose proof (loopResult_decision evaluator context (clock w) 0 rules initialState
                  ltac:(by left)) as Hin.
    rewrite Herr in Hin. simpl in Hin. intuition discriminate. }
  assert (Hok : forall rules,
            EvaluationResult.decision
              match rules with
              | [] => allowedResult "No active rules found" 0
              | _ :: _ =>
                  if holdsException w (User.id (Context.user context))
                       (map Rule.id rules)
                  then allowedResult "User has rule exception" 0
                  else loopResult evaluator context (clock w) 0 rules initialState
              end <> ERROR).
  { intros [|rule rest]; [done |].
    destruct (holdsException _ _ _); [done | apply Hloop]. }
  destruct (rulesCache w !! Context.moduleName context) as [entry|].
  - destruct (clock w - lastUpdated entry <? CACHE_TTL).
    + split; [intros Herr; by apply Hok in Herr | intros [? | [? _]]; done].
    + simpl. destruct (storeAvailable w); simpl.
      * split; [intros Herr; by apply Hok in Herr | intros [? | [_ ?]]; done].
      * split; [by right | done].
  - simpl. destruct (storeAvailable w); simpl.
    + split; [intros Herr; by apply Hok in Herr | intros [? | [_ ?]]; done].
    + split; [by right | done].
Qed.

(** X2. A call of [evaluateRules] reads the store and never writes it:
    the rule and exception tables, the identifiers issued and the clock
    are as before; the only cache entry it can change is the one of the
    context's module, and only when that entry is not fresh; the events
    of the call are appended to the trace. *)
Theorem evaluateRules_writes_only_its_cache_entry evaluator context w :
  ruleTable (snd (evaluateRulesWith evaluator context w)) = ruleTable w
  /\ exceptionTable (snd (evaluateRulesWith evaluator context w)) = exceptionTable w
  /\ idsIssued (snd (evaluateRulesWith evaluator context w)) = idsIssued w
  /\ clock (snd (evaluateRulesWith evaluator context w)) = clock w
  /\ (forall m, m <> Context.moduleName context ->
        rulesCache (snd (evaluateRulesWith evaluator context w)) !! m
        = rulesCache w !! m)
  /\ (cacheIsFresh (Context.moduleName context) w = true ->
        rulesCache (snd (evaluateRulesWith evaluator context w)) = rulesCache w)
  /\ exists evs,
       events (snd (evaluateRulesWith evaluator context w)) = events w ++ evs.
Proof.
  rewrite evaluateRulesWith_trace. simpl.
  repeat split; try done.
  - intros m Hm. destruct (invalidContext context); [done |].
    unfold cacheAfter.
    destruct (cacheIsFresh (Context.moduleName context) w); [done |].
    destruct (fst (ruleFindMany (Context.moduleName context) w)); [| done].
    by rewrite lookup_insert_ne.
  - intros Hfresh. unfold cacheAfter. rewrite Hfresh.
    by destruct (invalidContext context).
  - by eexists.
Qed.

(** X3. The decision written to a rule log is the one reached before the
    rule's own action is applied: whatever the rules and the evaluator,
    no rule log of a call carries [BLOCKED] or [ERROR], not even the log
    of the rule that blocks the request. *)
Theorem rule_logs_never_record_a_block evaluator context w :
  exists evs,
    events (snd (evaluateRulesWith evaluator context w)) = events w ++ evs
    /\ forall d, In d (loggedDecisions evs) -> d <> BLOCKED /\ d <> ERROR.
Proof.
  rewrite evaluateRulesWith_trace. simpl.
  exists (callTrace evaluator context w). split; [done |].
  intros d Hin.
  assert (Hgood : In d [ALLOWED; WARNING; MODIFIED; APPROVAL_REQUIRED]);
    [| simpl in Hgood; intuition congruence].
  unfold callTrace in Hin.
  destruct (invalidContext context); [done |].
  rewrite loggedDecisions_app, in_app_iff in Hin. destruct Hin as [Hin | Hin].
  { by destruct (cacheIsFresh _ _). }
  destruct (candidateRules (Context.moduleName context) w) as [[|rule rest]|e];
    try done.
  cbn [loggedDecisions] in Hin. destruct (holdsException w _ _); [done |].
  eapply loopTrace_loggedDecisions; [| exact Hin]. by left.
Qed.

Lemma ruleTrace_auditEntries H context wall rule st :
  auditEntries (ruleTrace (evaluateCondition H) context wall rule st)
  = if fires (evaluateCondition H) context wall rule && isBlock rule
    then [(FAILURE, "RULE_BLOCKED_" +:+ Context.action context)]
    else [].
Proof.
  unfold ruleTrace, fires.
  destruct (notEffective rule (evaluationInstant context wall)); [done |].
  simpl.
  destruct (evaluateConditionObject_ok H wall context (Rule.conditionPayload rule))
    as [b Hb].
  rewrite Hb. simpl. by destruct b, (isBlock rule).
Qed.

Lemma loopTrace_auditEntries H context wall rules : forall st,
  auditEntries (loopTrace (evaluateCondition H) context wall rules st)
  = if triggersAction (evaluateCondition H) context wall BLOCK rules
    then [(FAILURE, "RULE_BLOCKED_" +:+ Context.action context)]
    else [(SUCCESS, "RULE_EVALUATION_" +:+ Context.action context)].
Proof.
  induction rules as [|rule rest IH]; intros st; [done |].
  cbn [loopTrace triggersAction existsb].
  rewrite auditEntries_app, ruleTrace_auditEntries.
  change (hasAction BLOCK rule) with (isBlock rule).
  destruct (fires (evaluateCondition H) context wall rule && isBlock rule); [done |].
  simpl. apply IH.
Qed.

(** X4. The audit entries of a call of [evaluateRules]: one failure
    entry when the call ends in [ERROR], one failure entry when a rule
    blocks, one success entry when the loop runs to its end, and none at
    all when the call returns early, because the module has no active
    rule or because the user holds an exception. *)
Theorem audit_entries_of_a_call H context w :
  exists evs,
    events (snd (evaluateRules H context w)) = events w ++ evs
    /\ auditEntries evs =
       if invalidContext context
       then [(FAILURE, "RULE_EVALUATION_ERROR_" +:+ Context.action context)]
       else
         match candidateRules (Context.moduleName context) w with
         | Throw _ => [(FAILURE, "RULE_EVALUATION_ERROR_" +:+ Context.action context)]
         | Ok [] => []
         | Ok rules =>
             if holdsException w (User.id (Context.user context)) (map Rule.id rules)
             then []
             else if triggersAction (evaluateCondition H) context (clock w) BLOCK rules
             then [(FAILURE, "RULE_BLOCKED_" +:+ Context.action context)]
             else [(SUCCESS, "RULE_EVALUATION_" +:+ Context.action context)]
         end.
Proof.
  unfold evaluateRules. rewrite evaluateRulesWith_trace. simpl.
  exists (callTrace (evaluateCondition H) context w). split; [done |].
  unfold callTrace.
  destruct (invalidContext context); [done |].
  rewrite auditEntries_app.
  assert (Hquery : auditEntries
                     (if cacheIsFresh (Context.moduleName context) w then []
                      else [RuleFindMany (Context.moduleName context)]) = []).
  { by destruct (cacheIsFresh _ _). }
  rewrite Hquery. simpl app.
  destruct (candidateRules (Context.moduleName context) w) as [[|rule rest]|e];
    try done.
  cbn [auditEntries]. destruct (holdsException _ _ _); [done |].
  apply loopTrace_auditEntries.
Qed.

(** ** The result of the loop *)

(** For a valid context, a non-empty candidate list and no exception, the
    result of a call is the result of the loop on the candidate list. *)
Lemma outcome_loop evaluator context w rules :
  invalidContext context = false ->
  fst (getCachedRules (Context.moduleName context) w) = Ok rules ->
  rules <> [] ->
  holdsException w (User.id (Context.user context)) (map Rule.id rules) = false ->
  fst (evaluateRulesWith evaluator context w)
  = Ok (loopResult evaluator context (clock w) 0 rules initialState).
Proof.
  intros Hvalid Hrules Hne Hnoexc. rewrite getCachedRules_answer in Hrules.
  rewrite evaluateRulesWith_trace. simpl. unfold outcome.
  rewrite Hvalid, Hrules. destruct rules as [|rule rest]; [done |].
  by rewrite Hnoexc.
Qed.

Lemma loopResult_triggered evaluator context wall elapsed rules : forall st,
  EvaluationResult.triggeredRules (loopResult evaluator context wall elapsed rules st)
  = triggeredRules st
    ++ map toTriggered
         (List.filter (fires evaluator context wall)
            (reached evaluator context wall rules)).
Proof.
  induction rules as [|rule rest IH]; intros st; cbn [loopResult reached].
  - simpl. by rewrite app_nil_r.
  - destruct (fires evaluator context wall rule) eqn:Hf; simpl andb.
    + destruct (isBlock rule).
      * simpl. by rewrite Hf.
      * rewrite IH, resolve_triggeredRules. simpl. rewrite Hf. simpl.
        by rewrite <- app_assoc.
    + rewrite IH. simpl. by rewrite Hf.
Qed.

(** X5. The triggered rules of a result are the rules whose condition
    held, in the order in which they were served, up to and including the
    first of them that blocks; each entry carries the id, the name, the
    severity and the action type of its rule. *)
Theorem triggered_rules_are_the_fired_rules H context w rules :
  invalidContext context = false ->
  fst (getCachedRules (Context.moduleName context) w) = Ok rules ->
  rules <> [] ->
  holdsException w (User.id (Context.user context)) (map Rule.id rules) = false ->
  exists result,
    fst (evaluateRules H context w) = Ok result
    /\ EvaluationResult.triggeredRules result
       = map toTriggered
           (List.filter (fires (evaluateCondition H) context (clock w))
              (reached (evaluateCondition H) context (clock w) rules)).
Proof.
  intros Hvalid Hrules Hne Hnoexc.
  eexists. split; [by apply outcome_loop |].
  by rewrite loopResult_triggered.
Qed.

Lemma triggered_rules_are_the_fired_rules_witness :
  exists result,
    fst (evaluateRules Examples.host Examples.mockContext
           (Examples.world [Examples.lowPriorityRule; Examples.approvalRule;
                            Examples.highPriorityRule] []))
    = Ok result
    /\ EvaluationResult.triggeredRules result
       = map toTriggered
           (List.filter (fires (evaluateCondition Examples.host) Examples.mockContext 1000)
              (reached (evaluateCondition Examples.host) Examples.mockContext 1000
                 [Examples.highPriorityRule; Examples.approvalRule;
                  Examples.lowPriorityRule])).
Proof.
  apply (triggered_rules_are_the_fired_rules Examples.host Examples.mockContext
           (Examples.world [Examples.lowPriorityRule; Examples.approvalRule;
                            Examples.highPriorityRule] [])
           [Examples.highPriorityRule; Examples.approvalRule;
            Examples.lowPriorityRule]).
  - reflexivity.
  - reflexivity.
  - discriminate.
  - reflexivity.
Defined.

Lemma loopResult_precedence evaluator context wall elapsed rules : forall st,
  In (finalDecision st) [ALLOWED; WARNING; MODIFIED; APPROVAL_REQUIRED] ->
  EvaluationResult.decision (loopResult evaluator context wall elapsed rules st)
  = if triggersAction evaluator context wall BLOCK rules then BLOCKED
    else if triggersAction evaluator context wall REQUIRE_APPROVAL rules
            || decisionEqb (finalDecision st) APPROVAL_REQUIRED
    then APPROVAL_REQUIRED
    else if triggersAction evaluator context wall MODIFY rules
            || decisionEqb (finalDecision st) MODIFIED
    then MODIFIED
    else if triggersAction evaluator context wall WARN rules
            || decisionEqb (finalDecision st) WARNING
    then WARNING
    else ALLOWED.
Proof.
  induction rules as [|rule rest IH]; intros st Hst.
  - simpl in *. destruct (finalDecision st); simpl; intuition congruence.
  - cbn [loopResult triggersAction existsb].
    fold (triggersAction evaluator context wall BLOCK rest).
    fold (triggersAction evaluator context wall REQUIRE_APPROVAL rest).
    fold (triggersAction evaluator context wall MODIFY rest).
    fold (triggersAction evaluator context wall WARN rest).
    destruct (fires evaluator context wall rule) eqn:Hf; simpl andb;
      [| by apply IH].
    unfold isBlock, hasAction.
    destruct (Rule.actionType rule) eqn:Hact; simpl orb; try done;
      (rewrite IH by (by apply resolve_finalDecision));
      unfold resolve, onRequireApproval, onModify, onWarn; rewrite Hact; simpl;
      destruct (finalDecision st) eqn:Hd; simpl; rewrite ?Hd; simpl;
      try (simpl in Hst; exfalso; intuition congruence);
      destruct (triggersAction evaluator context wall BLOCK rest),
        (triggersAction evaluator context wall REQUIRE_APPROVAL rest),
        (triggersAction evaluator context wall MODIFY rest),
        (triggersAction evaluator context wall WARN rest); reflexivity.
Qed.

Lemma loopResult_requiresApproval evaluator context wall elapsed rules : forall st,
  In (finalDecision st) [ALLOWED; WARNING; MODIFIED; APPROVAL_REQUIRED] ->
  triggersAction evaluator context wall BLOCK rules = false ->
  EvaluationResult.requiresApproval (loopResult evaluator context wall elapsed rules st)
  = Some (triggersAction evaluator context wall REQUIRE_APPROVAL rules
          || requiresApproval st).
Proof.
  induction rules as [|rule rest IH]; intros st Hst; [done |].
  cbn [loopResult triggersAction existsb].
  fold (triggersAction evaluator context wall BLOCK rest).
  fold (triggersAction evaluator context wall REQUIRE_APPROVAL rest).
  change (hasAction BLOCK rule) with (isBlock rule).
  destruct (fires evaluator context wall rule) eqn:Hf; simpl andb;
    [| by apply IH].
  destruct (isBlock rule) eqn:Hb; [done |]. simpl orb. intros Hno.
  rewrite IH by (done || by apply resolve_finalDecision).
  unfold isBlock in Hb. unfold hasAction, resolve, onRequireApproval, onModify, onWarn.
  destruct (Rule.actionType rule) eqn:Hact; simpl; try done.
  - by destruct (decisionEqb (finalDecision st) ALLOWED).
  - destruct (finalDecision st) eqn:Hd; simpl;
      try (simpl in Hst; exfalso; intuition congruence);
      by rewrite ?orb_true_r.
Qed.

(** X6. The decision of a call that reaches the loop depends on which
    action types are triggered, not on their order: [BLOCKED] when a
    [BLOCK] rule is triggered; otherwise [APPROVAL_REQUIRED] when a
    [REQUIRE_APPROVAL] rule is, otherwise [MODIFIED] when a [MODIFY] rule
    is, otherwise [WARNING] when a [WARN] rule is, and [ALLOWED] when
    none is.  Without a triggered [BLOCK] the approval flag says whether
    a [REQUIRE_APPROVAL] rule was triggered. *)
Theorem decision_follows_precedence H context w rules :
  invalidContext context = false ->
  fst (getCachedRules (Context.moduleName context) w) = Ok rules ->
  rules <> [] ->
  holdsException w (User.id (Context.user context)) (map Rule.id rules) = false ->
  exists result,
    fst (evaluateRules H context w) = Ok result
    /\ EvaluationResult.decision result
       = (if triggersAction (evaluateCondition H) context (clock w) BLOCK rules
          then BLOCKED
          else decisionByPrecedence (evaluateCondition H) context (clock w) rules)
    /\ (triggersAction (evaluateCondition H) context (clock w) BLOCK rules = false ->
        EvaluationResult.requiresApproval result
        = Some (triggersAction (evaluateCondition H) context (clock w)
                  REQUIRE_APPROVAL rules)).
Proof.
  intros Hvalid Hrules Hne Hnoexc.
  eexists. split; [by apply outcome_loop |]. split.
  - rewrite loopResult_precedence by (by left).
    unfold decisionByPrecedence. simpl. by rewrite !orb_false_r.
  - intros Hno. rewrite loopResult_requiresApproval by (done || by left).
    simpl. by rewrite orb_false_r.
Qed.

Lemma decision_follows_precedence_witness :
  exists result,
    fst (evaluateRules Examples.host Examples.mockContext
           (Examples.world [Examples.lowPriorityRule; Examples.modifyRule;
                            Examples.approvalRule] []))
    = Ok result
    /\ EvaluationResult.decision result
       = (if triggersAction (evaluateCondition Examples.host) Examples.mockContext
               1000 BLOCK
               [Examples.approvalRule; Examples.modifyRule; Examples.lowPriorityRule]
          then BLOCKED
          else decisionByPrecedence (evaluateCondition Examples.host)
                 Examples.mockContext 1000
                 [Examples.approvalRule; Examples.modifyRule;
                  Examples.lowPriorityRule])
    /\ (triggersAction (evaluateCondition Examples.host) Examples.mockContext 1000
          BLOCK [Examples.approvalRule; Examples.modifyRule; Examples.lowPriorityRule]
        = false ->
        EvaluationResult.requiresApproval result
        = Some (triggersAction (evaluateCondition Examples.host) Examples.mockContext
                  1000 REQUIRE_APPROVAL
                  [Examples.approvalRule; Examples.modifyRule;
                   Examples.lowPriorityRule])).
Proof.
  apply (decision_follows_precedence Examples.host Examples.mockContext
           (Examples.world [Examples.lowPriorityRule; Examples.modifyRule;
                            Examples.approvalRule] [])
           [Examples.approvalRule; Examples.modifyRule; Examples.lowPriorityRule]).
  - reflexivity.
  - reflexivity.
  - discriminate.
  - reflexivity.
Defined.

(** ** Approvers *)

Lemma existsb_eqb_In x xs : existsb (String.eqb x) xs = true <-> In x xs.
Proof.
  rewrite existsb_exists. split.
  - intros (y & Hin & Heq). apply String.eqb_eq in Heq. by subst.
  - intros Hin. exists x. split; [done | apply String.eqb_refl].
Qed.

Lemma uniqueFrom_spec xs : forall seen,
  NoDup (uniqueFrom seen xs)
  /\ forall a, In a (uniqueFrom seen xs) <-> In a xs /\ ~ In a seen.
Proof.
  induction xs as [|x rest IH]; intros seen; simpl.
  - split; [constructor | tauto].
  - destruct (existsb (String.eqb x) seen) eqn:Hseen.
    + apply existsb_eqb_In in Hseen.
      destruct (IH seen) as [Hnodup Hin]. split; [done |].
      intros a. rewrite Hin. split; [tauto |].
      intros [[-> | Ha] Hn]; tauto.
    + assert (Hx : ~ In x seen).
      { intros Hin. apply existsb_eqb_In in Hin. congruence. }
      destruct (IH (x :: seen)) as [Hnodup Hin]. split.
      * constructor; [| done].
        rewrite list_elem_of_In, Hin. simpl. tauto.
      * intros a. simpl. rewrite Hin. simpl.
        destruct (string_dec x a) as [-> | Hne]; tauto.
Qed.

Lemma unique_spec xs :
  NoDup (unique xs) /\ forall a, In a (unique xs) <-> In a xs.
Proof.
  destruct (uniqueFrom_spec xs []) as [Hnodup Hin]. split; [done |].
  intros a. unfold unique. rewrite Hin. simpl. tauto.
Qed.

Lemma advance_approvers evaluator context wall st rule :
  In (finalDecision st) [ALLOWED; WARNING; MODIFIED; APPROVAL_REQUIRED] ->
  NoDup (approvers st) ->
  NoDup (approvers (advance evaluator context wall st rule))
  /\ forall a,
       In a (approvers (advance evaluator context wall st rule))
       <-> In a (approvers st)
           \/ (fires evaluator context wall rule = true
               /\ Rule.actionType rule = REQUIRE_APPROVAL
               /\ In a (approversOf rule)).
Proof.
  intros Hst Hnodup. unfold advance.
  destruct (fires evaluator context wall rule); [| intuition congruence].
  unfold resolve, onRequireApproval, onModify, onWarn, approversOf.
  destruct (Rule.actionType rule) eqn:Hact; simpl;
    try (intuition congruence).
  - destruct (decisionEqb (finalDecision st) ALLOWED); simpl; intuition congruence.
  - destruct (decisionEqb (finalDecision st) BLOCKED) eqn:Hd.
    { destruct (finalDecision st); simpl in *; intuition congruence. }
    simpl. destruct (Rule.actionPayload rule) as [a|]; simpl;
      [| intuition congruence].
    destruct (Action.approvers a) as [more|]; simpl; [| intuition congruence].
    destruct (unique_spec (approvers st ++ more)) as [Hu Hin]. split; [done |].
    intros x. rewrite Hin, in_app_iff. intuition congruence.
Qed.

Lemma fold_approvers evaluator context wall rules : forall st,
  In (finalDecision st) [ALLOWED; WARNING; MODIFIED; APPROVAL_REQUIRED] ->
  NoDup (approvers st) ->
  NoDup (approvers (fold_left (advance evaluator context wall) rules st))
  /\ forall a,
       In a (approvers (fold_left (advance evaluator context wall) rules st))
       <-> In a (approvers st)
           \/ exists r, In r rules
                        /\ fires evaluator context wall r = true
                        /\ Rule.actionType r = REQUIRE_APPROVAL
                        /\ In a (approversOf r).
Proof.
  induction rules as [|rule rest IH]; intros st Hst Hnodup; simpl.
  - split; [done |]. intros a. split; [tauto | intros [? | (? & [] & _)]; done].
  - destruct (advance_approvers evaluator context wall st rule Hst Hnodup)
      as [Hnodup' Hin'].
    destruct (IH (advance evaluator context wall st rule)
                (advance_finalDecision evaluator context wall st rule Hst) Hnodup')
      as [Hnodup'' Hin''].
    split; [done |]. intros a. rewrite Hin'', Hin'. split.
    + intros [[Ha | (Hf & Hact & Ha)] | (r & Hr & Hf & Hact & Ha)].
      * by left.
      * right. exists rule. tauto.
      * right. exists r. tauto.
    + intros [Ha | (r & [<- | Hr] & Hf & Hact & Ha)].
      * tauto.
      * tauto.
      * right. exists r. tauto.
Qed.

(** X7. When no triggered rule blocks, the approvers of the result are
    exactly the approvers named by the triggered [REQUIRE_APPROVAL]
    rules, each of them listed once. *)
Theorem approvers_are_collected_once H context w rules :
  invalidContext context = false ->
  fst (getCachedRules (Context.moduleName context) w) = Ok rules ->
  rules <> [] ->
  holdsException w (User.id (Context.user context)) (map Rule.id rules) = false ->
  (forall r, In r rules ->
             fires (evaluateCondition H) context (clock w) r = true ->
             Rule.actionType r <> BLOCK) ->
  exists result approvers,
    fst (evaluateRules H context w) = Ok result
    /\ EvaluationResult.approvers result = Some approvers
    /\ NoDup approvers
    /\ forall a,
         In a approvers
         <-> exists r, In r rules
                       /\ fires (evaluateCondition H) context (clock w) r = true
                       /\ Rule.actionType r = REQUIRE_APPROVAL
                       /\ In a (approversOf r).
Proof.
  intros Hvalid Hrules Hne Hnoexc Hnoblock.
  destruct (loopResult_completed (evaluateCondition H) context (clock w) 0 rules
              initialState) as [Hres _].
  { intros r Hin Hf. specialize (Hnoblock r Hin Hf). unfold isBlock.
    by destruct (Rule.actionType r). }
  destruct (fold_approvers (evaluateCondition H) context (clock w) rules initialState)
    as [Hnodup Hin]; [by left | constructor |].
  eexists _, _. split; [by apply outcome_loop |].
  rewrite Hres. split; [reflexivity |]. split; [exact Hnodup |].
  intros a. rewrite Hin. simpl. tauto.
Qed.

Lemma approvers_are_collected_once_witness :
  exists result approvers,
    fst (evaluateRules Examples.host Examples.mockContext
           (Examples.world [Examples.modifyRule; Examples.approvalRule] []))
    = Ok result
    /\ EvaluationResult.approvers result = Some approvers
    /\ NoDup approvers
    /\ forall a,
         In a approvers
         <-> exists r, In r [Examples.approvalRule; Examples.modifyRule]
                       /\ fires (evaluateCondition Examples.host) Examples.mockContext
                            (clock (Examples.world [Examples.modifyRule;
                                                    Examples.approvalRule] [])) r
                          = true
                       /\ Rule.actionType r = REQUIRE_APPROVAL
                       /\ In a (approversOf r).
Proof.
  apply (approvers_are_collected_once Examples.host Examples.mockContext
           (Examples.world [Examples.modifyRule; Examples.approvalRule] [])
           [Examples.approvalRule; Examples.modifyRule]).
  - reflexivity.
  - reflexivity.
  - discriminate.
  - reflexivity.
  - intros r [<- | [<- | []]] _; discriminate.
Defined.

(** ** The cache and the query behind it *)

Lemma stale_cache_asks_the_store moduleName w :
  cacheIsFresh moduleName w = false ->
  candidateRules moduleName w = fst (ruleFindMany moduleName w).
Proof.
  unfold cacheIsFresh, candidateRules.
  destruct (rulesCache w !! moduleName) as [entry|]; [| done].
  by intros ->.
Qed.

(** X8. A list fetched from the store is served from the cache for the
    next five minutes, whatever happens to the rule table in between,
    and without asking the store; from five minutes on, the store is
    asked again. *)
Theorem cache_is_served_for_the_ttl moduleName w rules w1 :
  cacheIsFresh moduleName w = false ->
  getCachedRules moduleName w = (Ok rules, w1) ->
  forall d f,
    (d < CACHE_TTL ->
     getCachedRules moduleName (setRuleTable f (advanceClock d w1))
     = (Ok rules, setRuleTable f (advanceClock d w1)))
    /\ (CACHE_TTL <= d ->
        fst (getCachedRules moduleName (setRuleTable f (advanceClock d w1)))
        = fst (ruleFindMany moduleName (setRuleTable f (advanceClock d w1)))).
Proof.
  intros Hstale Hrun d f.
  rewrite getCachedRules_trace in Hrun. injection Hrun as Hcand Hw1.
  rewrite stale_cache_asks_the_store in Hcand by exact Hstale.
  assert (Hcache : rulesCache w1 !! moduleName
                   = Some {| rules := rules; lastUpdated := clock w |}).
  { subst w1. simpl. unfold cacheAfter. rewrite Hstale, Hcand.
    apply lookup_insert_eq. }
  assert (Hclock : clock w1 = clock w) by (by subst w1).
  set (w2 := setRuleTable f (advanceClock d w1)).
  assert (Hage : cacheIsFresh moduleName w2 = (d <? CACHE_TTL)).
  { unfold cacheIsFresh. change (rulesCache w2) with (rulesCache w1).
    rewrite Hcache. change (clock w2) with (clock w1 + d). rewrite Hclock.
    simpl lastUpdated. f_equal. lia. }
  split; intros Hd.
  - rewrite getCachedRules_trace. unfold candidateRules, cacheAfter.
    rewrite Hage. change (rulesCache w2) with (rulesCache w1). rewrite Hcache.
    change (clock w2) with (clock w1 + d). rewrite Hclock. simpl lastUpdated.
    replace (clock w + d - clock w) with d by lia.
    apply Z.ltb_lt in Hd. rewrite Hd.
    change (rulesCache w1) with (rulesCache w2).
    by rewrite setCache_same, addEvents_nil.
  - rewrite getCachedRules_answer. apply stale_cache_asks_the_store.
    rewrite Hage. by apply Z.ltb_ge.
Qed.

Lemma cache_is_served_for_the_ttl_witness :
  (1000 < CACHE_TTL ->
   getCachedRules "attendance"
     (setRuleTable (fun _ => [])
        (advanceClock 1000
           (snd (getCachedRules "attendance"
                   (Examples.world [Examples.blockingRule] [])))))
   = (Ok [Examples.blockingRule],
      setRuleTable (fun _ => [])
        (advanceClock 1000
           (snd (getCachedRules "attendance"
                   (Examples.world [Examples.blockingRule] []))))))
  /\ (CACHE_TTL <= 1000 ->
      fst (getCachedRules "attendance"
             (setRuleTable (fun _ => [])
                (advanceClock 1000
                   (snd (getCachedRules "attendance"
                           (Examples.world [Examples.blockingRule] []))))))
      = fst (ruleFindMany "attendance"
               (setRuleTable (fun _ => [])
                  (advanceClock 1000
                     (snd (getCachedRules "attendance"
                             (Examples.world [Examples.blockingRule] []))))))).
Proof.
  apply (cache_is_served_for_the_ttl "attendance"
           (Examples.world [Examples.blockingRule] []) [Examples.blockingRule]
           (snd (getCachedRules "attendance"
                   (Examples.world [Examples.blockingRule] [])))).
  - reflexivity.
  - reflexivity.
Defined.

Lemma StronglySorted_weaken {A} (R R' : A -> A -> Prop) (l : list A) :
  (forall a b, R a b -> R' a b) ->
  StronglySorted R l -> StronglySorted R' l.
Proof.
  intros Himpl. induction 1 as [|x rest Hsorted IH Hall]; constructor; [done |].
  eapply Forall_impl; [exact Hall | intros y; apply Himpl].
Qed.

Lemma activeRuleWhere_spec moduleName now r :
  activeRuleWhere moduleName now r = true
  <-> Rule.moduleName r = moduleName /\ Rule.isActive r = true
      /\ Rule.effectiveFrom r <= now
      /\ (forall to, Rule.effectiveTo r = Some to -> now <= to).
Proof.
  unfold activeRuleWhere.
  rewrite !andb_true_iff, String.eqb_eq, Z.leb_le.
  destruct (Rule.effectiveTo r) as [to|].
  - rewrite Z.leb_le. split.
    + intros [[[? ?] ?] ?]. repeat split; try done. intros ? [= <-]. done.
    + intros (? & ? & ? & Hto). repeat split; try done. by apply Hto.
  - split; [| tauto]. intros [[[? ?] ?] _]. repeat split; done.
Qed.

(** X9. A list fetched from the store holds exactly the rows of the
    module that are active and whose window of validity contains the
    instant of the query, bounds included, each once; it comes in
    ascending priority, rows of equal priority in ascending creation
    time; and every rule on it passes the window check of the loop at
    that instant. *)
Theorem fetched_rules_are_filtered_and_sorted moduleName w rules :
  cacheIsFresh moduleName w = false ->
  fst (getCachedRules moduleName w) = Ok rules ->
  (forall r,
     In r rules
     <-> In r (ruleTable w)
         /\ Rule.moduleName r = moduleName /\ Rule.isActive r = true
         /\ Rule.effectiveFrom r <= clock w
         /\ (forall to, Rule.effectiveTo r = Some to -> clock w <= to))
  /\ Permutation rules
       (List.filter (activeRuleWhere moduleName (clock w)) (ruleTable w))
  /\ StronglySorted
       (fun a b => Rule.priority a < Rule.priority b
                   \/ (Rule.priority a = Rule.priority b
                       /\ Rule.createdAt a <= Rule.createdAt b)) rules
  /\ forall r, In r rules -> notEffective r (clock w) = false.
Proof.
  intros Hstale Hrules.
  rewrite getCachedRules_answer, stale_cache_asks_the_store in Hrules
    by exact Hstale.
  unfold ruleFindMany, bind, emit in Hrules. simpl in Hrules.
  destruct (storeAvailable w); [| done]. simpl in Hrules.
  injection Hrules as <-.
  assert (Hin : forall r,
            In r (orderBy (List.filter (activeRuleWhere moduleName (clock w))
                             (ruleTable w)))
            <-> In r (ruleTable w)
                /\ Rule.moduleName r = moduleName /\ Rule.isActive r = true
                /\ Rule.effectiveFrom r <= clock w
                /\ (forall to, Rule.effectiveTo r = Some to -> clock w <= to)).
  { intros r. by rewrite In_orderBy, filter_In, activeRuleWhere_spec. }
  split; [exact Hin |]. split; [apply orderBy_Permutation |]. split.
  - eapply StronglySorted_weaken; [| apply orderBy_sorted].
    intros a b. unfold ruleOrder. simpl. lia.
  - intros r Hr. apply Hin in Hr as (_ & _ & _ & Hfrom & Hto).
    unfold notEffective. apply orb_false_iff. split; [lia |].
    destruct (Rule.effectiveTo r) as [to|]; [| done].
    specialize (Hto to eq_refl). lia.
Qed.

Lemma fetched_rules_are_filtered_and_sorted_witness :
  (forall r,
     In r [Examples.highPriorityRule; Examples.lowPriorityRule]
     <-> In r (ruleTable (Examples.world
                  [Examples.lowPriorityRule; Examples.highPriorityRule] []))
         /\ Rule.moduleName r = "attendance" /\ Rule.isActive r = true
         /\ Rule.effectiveFrom r
            <= clock (Examples.world
                        [Examples.lowPriorityRule; Examples.highPriorityRule] [])
         /\ (forall to, Rule.effectiveTo r = Some to ->
                        clock (Examples.world
                                 [Examples.lowPriorityRule;
                                  Examples.highPriorityRule] []) <= to))
  /\ Permutation [Examples.highPriorityRule; Examples.lowPriorityRule]
       (List.filter
          (activeRuleWhere "attendance"
             (clock (Examples.world
                       [Examples.lowPriorityRule; Examples.highPriorityRule] [])))
          (ruleTable (Examples.world
                        [Examples.lowPriorityRule; Examples.highPriorityRule] [])))
  /\ StronglySorted
       (fun a b => Rule.priority a < Rule.priority b
                   \/ (Rule.priority a = Rule.priority b
                       /\ Rule.createdAt a <= Rule.createdAt b))
       [Examples.highPriorityRule; Examples.lowPriorityRule]
  /\ forall r, In r [Examples.highPriorityRule; Examples.lowPriorityRule] ->
               notEffective r
                 (clock (Examples.world
                           [Examples.lowPriorityRule; Examples.highPriorityRule] []))
               = false.
Proof.
  apply (fetched_rules_are_filtered_and_sorted "attendance"
           (Examples.world [Examples.lowPriorityRule; Examples.highPriorityRule] [])
           [Examples.highPriorityRule; Examples.lowPriorityRule]).
  - reflexivity.
  - reflexivity.
Defined.

(** X10. The exception check answers [true] exactly when the database
    answers and holds an exception of the user for one of the given
    rules that is active and in force at the wall-clock instant of the
    call; it never rejects, and a lookup that fails counts as no
    exception. *)
Theorem exception_check_is_exact userId ruleIds w :
  (exists b, fst (checkRuleException userId ruleIds w) = Ok b)
  /\ (fst (checkRuleException userId ruleIds w) = Ok true
      <-> storeAvailable w = true /\ activeExceptionFor w userId ruleIds).
Proof.
  destruct (checkRuleException_run userId ruleIds w) as (evs & Hrun & _).
  rewrite Hrun. simpl. split; [by eexists |]. split.
  - intros [= Hholds]. unfold holdsException in Hholds.
    destruct ruleIds as [|ruleId rest]; [done |].
    apply andb_true_iff in Hholds as [Hup Hex]. split; [exact Hup |].
    apply existsb_exists in Hex as (e & Hin & Hwhere).
    unfold exceptionWhere in Hwhere.
    rewrite !andb_true_iff, String.eqb_eq, !Z.leb_le in Hwhere.
    destruct Hwhere as [[[[Huser Hrule] Hactive] Hfrom] Hto].
    exists e. repeat split; try done.
    apply existsb_exists in Hrule as (x & Hx & Heq).
    apply String.eqb_eq in Heq. by subst.
  - intros [Hup Hexc]. f_equal. by apply activeException_holds.
Qed.

(** ** Conditions *)

Lemma promiseAll_ok {A B} (f : A -> Result B) (g : A -> B) (xs : list A) :
  (forall x, f x = Ok (g x)) -> promiseAll f xs = Ok (map g xs).
Proof.
  intros Hf. induction xs as [|x rest IH]; [done |].
  change (promiseAll f (x :: rest))
    with (bindR (f x) (fun b => bindR (promiseAll f rest) (fun bs => Ok (b :: bs)))).
  by rewrite Hf, IH.
Qed.

Lemma evaluateCondition_memberHolds H wall context member :
  evaluateCondition H wall member context = Ok (memberHolds H wall context member).
Proof.
  unfold memberHolds. destruct member as [c|]; [| done]. simpl.
  destruct (evaluateConditionObject_ok H wall context c) as [b ->].
  by destruct b.
Qed.

Lemma logic_match {X} (logic : option string) (a b : X) :
  match logic with Some "OR" => a | _ => b end
  = if decide (logic = Some "OR") then a else b.
Proof.
  destruct (decide (logic = Some "OR")) as [-> | Hne]; [done |].
  destruct logic as [s|]; [| done].
  destruct s as [|c1 s]; [done |].
  destruct c1 as [[] [] [] [] [] [] [] []]; try done.
  destruct s as [|c2 s]; [done |].
  destruct c2 as [[] [] [] [] [] [] [] []]; try done.
  destruct s as [|c3 s]; [done | reflexivity].
Qed.

Lemma existsb_map_id {A} (g : A -> bool) (l : list A) :
  existsb (fun r => r) (map g l) = existsb g l.
Proof. induction l as [|x l IH]; simpl; by rewrite ?IH. Qed.

Lemma forallb_map_id {A} (g : A -> bool) (l : list A) :
  forallb (fun r => r) (map g l) = forallb g l.
Proof. induction l as [|x l IH]; simpl; by rewrite ?IH. Qed.

(** X11. A composite condition holds when one of its members holds if
    its logic is [OR], and when all of them hold otherwise ([AND], an
    absent or any other logic); a member that is not a condition counts
    as false, and a composite without members is false whatever its
    logic. *)
Theorem composite_combines_its_members H wall context c members :
  Condition.type c = Some "composite" ->
  Condition.conditions c = Some members ->
  evaluateCondition H wall (Some c) context
  = Ok (match members with
        | [] => false
        | _ =>
            if decide (Condition.logic c = Some "OR")
            then existsb (memberHolds H wall context) members
            else forallb (memberHolds H wall context) members
        end).
Proof.
  intros Htype Hmembers. simpl.
  rewrite evaluateConditionObject_unfold, Htype. simpl.
  unfold evaluateComposite. rewrite Hmembers.
  destruct members as [|first rest]; [done |].
  rewrite (promiseAll_ok _ (memberHolds H wall context))
    by apply evaluateCondition_memberHolds.
  cbn [bindR]. rewrite logic_match, existsb_map_id, forallb_map_id.
  by destruct (decide (Condition.logic c = Some "OR")).
Qed.

Lemma composite_combines_its_members_witness :
  evaluateCondition Examples.host 0
    (Some (Condition.make (Some "composite") None None None VUndefined
             (Some [Some Examples.statusIsPresent; None]) (Some "OR") None None None
             None))
    Examples.mockContext
  = Ok (if decide (Some "OR" = Some "OR")
        then existsb (memberHolds Examples.host 0 Examples.mockContext)
               [Some Examples.statusIsPresent; None]
        else forallb (memberHolds Examples.host 0 Examples.mockContext)
               [Some Examples.statusIsPresent; None]).
Proof.
  apply (composite_combines_its_members Examples.host 0 Examples.mockContext
           (Condition.make (Some "composite") None None None VUndefined
              (Some [Some Examples.statusIsPresent; None]) (Some "OR") None None None
              None)
           [Some Examples.statusIsPresent; None]).
  - reflexivity.
  - reflexivity.
Defined.

(** X12. A numeric comparison ([gt], [gte], [lt], [lte], [between]) on a
    field whose value does not convert to a number is false, whatever
    the bound: such a field is neither above nor below any threshold. *)
Theorem numeric_comparison_needs_a_number H c context name op :
  Condition.field c = Some name ->
  Condition.operator c = Some op ->
  In op ["gt"; "gte"; "lt"; "lte"; "between"] ->
  toNumber H (resourceField H context name) = NaN ->
  evaluateThreshold H c context = Ok false.
Proof.
  intros Hfield Hop Hin Hnan. unfold evaluateThreshold.
  rewrite Hfield, Hop. simpl default.
  destruct (missing (Some name) || missing (Some op)
            || match Condition.value c with VUndefined => true | _ => false end);
    [done |].
  assert (Hcompare : forall bound,
            greaterThan (toNumber H (resourceField H context name)) bound = false
            /\ greaterEqual (toNumber H (resourceField H context name)) bound = false
            /\ lessThan (toNumber H (resourceField H context name)) bound = false
            /\ lessEqual (toNumber H (resourceField H context name)) bound = false).
  { intros bound. rewrite Hnan.
    unfold greaterThan, greaterEqual, lessThan, lessEqual. by destruct bound. }
  destruct (resourceField H context name) eqn:Hvalue; try done;
    simpl in Hin; destruct Hin as [<- | [<- | [<- | [<- | [<- | []]]]]]; simpl;
    try (by rewrite (proj1 (Hcompare _)));
    try (by rewrite (proj1 (proj2 (Hcompare _))));
    try (by rewrite (proj1 (proj2 (proj2 (Hcompare _)))));
    try (by rewrite (proj2 (proj2 (proj2 (Hcompare _)))));
    destruct (Condition.value c) as [| | | | |[|lo [|hi [|]]]| |]; try done;
    by rewrite (proj1 (proj2 (Hcompare _))).
Qed.

Lemma numeric_comparison_needs_a_number_witness :
  evaluateThreshold Examples.host
    (Condition.make (Some "threshold") None (Some "status") (Some "lt")
       (VNum (Num 5)) None None None None None None)
    Examples.mockContext
  = Ok false.
Proof.
  apply (numeric_comparison_needs_a_number Examples.host
           (Condition.make (Some "threshold") None (Some "status") (Some "lt")
              (VNum (Num 5)) None None None None None None)
           Examples.mockContext "status" "lt").
  - reflexivity.
  - reflexivity.
  - simpl. tauto.
  - reflexivity.
Defined.

(** X13. A time range whose start is later in the day than its end, such
    as a night shift from 22:00 to 06:00, is never matched, at any time
    of day: the window does not wrap around midnight. *)
Theorem overnight_window_never_matches
    H wall c context start end_ startParts endParts sh sm eh em :
  Condition.timeRange c = Some (start, end_) ->
  parseClock H start = Ok startParts ->
  parseClock H end_ = Ok endParts ->
  element 0 startParts = Num sh -> element 1 startParts = Num sm ->
  element 0 endParts = Num eh -> element 1 endParts = Num em ->
  eh * 60 + em < sh * 60 + sm ->
  evaluateTimeBased H wall c context = Ok false.
Proof.
  intros Hrange Hstart Hend Hsh Hsm Heh Hem Hlate.
  unfold evaluateTimeBased. rewrite Hrange, Hstart, Hend. cbn [bindR].
  rewrite Hsh, Hsm, Heh, Hem. simpl. f_equal.
  apply andb_false_iff. lia.
Qed.

Lemma overnight_window_never_matches_witness :
  evaluateTimeBased Examples.host 0
    (Condition.make (Some "time_based") None None None VUndefined None None
       (Some (VStr "22:00", VStr "06:00")) None None None)
    Examples.mockContext
  = Ok false.
Proof.
  apply (overnight_window_never_matches Examples.host 0
           (Condition.make (Some "time_based") None None None VUndefined None None
              (Some (VStr "22:00", VStr "06:00")) None None None)
           Examples.mockContext (VStr "22:00") (VStr "06:00")
           [Num 22; Num 0] [Num 6; Num 0] 22 0 6 0).
  - reflexivity.
  - reflexivity.
  - reflexivity.
  - reflexivity.
  - reflexivity.
  - reflexivity.
  - reflexivity.
  - lia.
Defined.

(** ** The sanitizer of expressions *)

Lemma isAllowed_single c :
  isAllowed (String c EmptyString) = true -> sequenceLength c = 1%nat.
Proof.
  destruct c as [[] [] [] [] [] [] [] []]; vm_compute; intros Hc;
    first [reflexivity | discriminate Hc].
Qed.

(** An allowed character is cut off again from the front of the text it
    was joined to. *)
Lemma charactersFrom_allowed ch s :
  isAllowed ch = true ->
  charactersFrom (ch +:+ s) EmptyString O = ch :: charactersFrom s EmptyString O.
Proof.
  intros Hallowed. destruct ch as [|c [|c2 rest]].
  - discriminate Hallowed.
  - simpl. by rewrite (isAllowed_single c Hallowed).
  - remember (String c (String c2 rest)) as ch eqn:Hch.
    assert (Hin : In ch unicodeSpaces).
    { unfold isAllowed, isSpace in Hallowed. rewrite Hch in Hallowed.
      rewrite orb_false_r in Hallowed. rewrite <- Hch in Hallowed.
      apply existsb_exists in Hallowed as (x & Hx & Heq).
      apply String.eqb_eq in Heq. by subst x. }
    clear Hch Hallowed. unfold unicodeSpaces in Hin. simpl in Hin.
    repeat (destruct Hin as [<- | Hin]; [reflexivity |]). destruct Hin.
Qed.

Lemma characters_joinCharacters chs :
  Forall (fun ch => isAllowed ch = true) chs ->
  characters (joinCharacters chs) = chs.
Proof.
  induction 1 as [|ch rest Hch _ IH]; [done |].
  unfold characters in *. simpl joinCharacters.
  by rewrite charactersFrom_allowed, IH.
Qed.

Lemma filter_kept {A} (keep : A -> bool) (l : list A) :
  Forall (fun x => keep x = true) (List.filter keep l).
Proof.
  induction l as [|x rest IH]; simpl; [constructor |].
  destruct (keep x) eqn:Hkeep; [by constructor | done].
Qed.

Lemma filter_all {A} (keep : A -> bool) (l : list A) :
  Forall (fun x => keep x = true) l -> List.filter keep l = l.
Proof.
  induction 1 as [|x rest Hx _ IH]; simpl; [done |]. by rewrite Hx, IH.
Qed.

Lemma trimStart_Forall (P : string -> Prop) chs :
  Forall P chs -> Forall P (trimStart chs).
Proof.
  induction 1 as [|ch rest Hch Hrest IH]; simpl; [constructor |].
  destruct (isSpace ch); [exact IH | by constructor].
Qed.

Lemma trimEnd_Forall (P : string -> Prop) chs :
  Forall P chs -> Forall P (trimEnd chs).
Proof.
  induction 1 as [|ch rest Hch Hrest IH]; simpl; [constructor |].
  destruct (trimEnd rest) as [|d rest'].
  - destruct (isSpace ch); [constructor | by repeat constructor].
  - by constructor.
Qed.

Lemma trimEnd_idempotent chs : trimEnd (trimEnd chs) = trimEnd chs.
Proof.
  induction chs as [|ch rest IH]; simpl; [done |].
  destruct (trimEnd rest) as [|d rest'] eqn:Hrest.
  - destruct (isSpace ch) eqn:Hspace; simpl; [done |]. by rewrite Hspace.
  - change (trimEnd (ch :: d :: rest'))
      with (match trimEnd (d :: rest') with
            | [] => if isSpace ch then [] else [ch]
            | rest'' => ch :: rest''
            end).
    by rewrite IH.
Qed.

(** A text that is empty or starts with a character other than white
    space is left alone by [trimStart]; [trimEnd] keeps that form. *)
Lemma trimStart_head chs :
  match trimStart chs with
  | [] => True
  | ch :: _ => isSpace ch = false
  end.
Proof.
  induction chs as [|ch rest IH]; simpl; [done |].
  by destruct (isSpace ch) eqn:Hspace.
Qed.

Lemma trimEnd_head chs :
  match chs with [] => True | ch :: _ => isSpace ch = false end ->
  match trimEnd chs with
  | [] => True
  | ch :: _ => isSpace ch = false
  end.
Proof.
  destruct chs as [|ch rest]; simpl; [done |]. intros Hspace.
  destruct (trimEnd rest); [by rewrite Hspace | done].
Qed.

Lemma trimStart_id chs :
  match chs with [] => True | ch :: _ => isSpace ch = false end ->
  trimStart chs = chs.
Proof. destruct chs as [|ch rest]; simpl; [done |]. by intros ->. Qed.

(** The white space outside ASCII is white space for the sanitizer too: a
    no-break space inside an expression is kept, one at its end is
    trimmed, and a character outside the class is dropped. *)
Lemma sanitize_unicode_space :
  sanitize ("a" +:+ utf8 [194; 160]%nat +:+ "b;" +:+ utf8 [226; 128; 131]%nat)
  = "a" +:+ utf8 [194; 160]%nat +:+ "b".
Proof. reflexivity. Qed.

(** X14. The sanitizer of expressions keeps nothing but letters, digits,
    white space (that of Unicode included) and the listed punctuation;
    its result neither starts nor ends with white space; and sanitizing
    a sanitized expression changes nothing. *)
Theorem sanitize_is_a_projection expression :
  Forall (fun ch => isAllowed ch = true) (characters (sanitize expression))
  /\ trim (characters (sanitize expression)) = characters (sanitize expression)
  /\ sanitize (sanitize expression) = sanitize expression.
Proof.
  unfold sanitize.
  set (kept := List.filter isAllowed (characters expression)).
  assert (Hall : Forall (fun ch => isAllowed ch = true) (trim kept)).
  { apply trimEnd_Forall, trimStart_Forall, filter_kept. }
  assert (Htrim : trim (trim kept) = trim kept).
  { unfold trim. rewrite (trimStart_id (trimEnd (trimStart kept))).
    - apply trimEnd_idempotent.
    - apply trimEnd_head, trimStart_head. }
  rewrite (characters_joinCharacters _ Hall).
  split; [exact Hall |]. split; [exact Htrim |].
  by rewrite (filter_all _ _ Hall), Htrim.
Qed.

(** ** Creating and switching rules *)

Lemma find_none_of_absent ruleId (table : list Rule.t) :
  ~ In ruleId (map Rule.id table) ->
  List.find (fun r => String.eqb (Rule.id r) ruleId) table = None.
Proof.
  induction table as [|r rest IH]; simpl; [done |].
  intros Habsent. destruct (String.eqb (Rule.id r) ruleId) eqn:Heq.
  - apply String.eqb_eq in Heq. tauto.
  - apply IH. tauto.
Qed.

Lemma find_some_existsb ruleId (table : list Rule.t) rule :
  List.find (fun r => String.eqb (Rule.id r) ruleId) table = Some rule ->
  existsb (fun r => String.eqb (Rule.id r) ruleId) table = true.
Proof.
  intros Hfind. rewrite <- find_existsb. by rewrite Hfind.
Qed.

(** A rule without an active row is never triggered once the cache entry
    of its module is gone. *)
Lemma inactive_rule_is_never_triggered ruleId moduleName w :
  rulesCache w !! moduleName = None ->
  (forall r, In r (ruleTable w) -> Rule.id r = ruleId -> Rule.isActive r = false) ->
  forall H context d result,
    Context.moduleName context = moduleName ->
    fst (evaluateRules H context (advanceClock d w)) = Ok result ->
    ~ In ruleId (map Triggered.ruleId (EvaluationResult.triggeredRules result)).
Proof.
  intros Hnone Hrows H context d result Hmodule Hresult Htriggered.
  unfold evaluateRules in Hresult. rewrite evaluateRulesWith_trace in Hresult.
  simpl in Hresult. injection Hresult as <-.
  unfold outcome, candidateRules, ruleFindMany, bind, emit in Htriggered.
  simpl in Htriggered. rewrite Hmodule, Hnone in Htriggered.
  destruct (invalidContext context); [done |].
  destruct (storeAvailable w); [| done].
  simpl in Htriggered.
  set (candidates :=
         orderBy (List.filter (activeRuleWhere moduleName (clock w + d))
                    (ruleTable w))) in *.
  assert (Hcandidates : forall r, In r candidates -> Rule.id r <> ruleId).
  { intros r Hin Hid. apply In_orderBy, filter_In in Hin as [Hin Hwhere].
    apply activeRuleWhere_spec in Hwhere as (_ & Hactive & _).
    rewrite (Hrows r Hin Hid) in Hactive. done. }
  destruct candidates as [|rule rest] eqn:Hlist; [done |].
  destruct (holdsException _ _ _); [done |].
  apply triggered_are_candidates in Htriggered as [[] | Hin].
  apply in_map_iff in Hin as (r & Hid & Hin). exact (Hcandidates r Hin Hid).
Qed.

Lemma clearCache_lookup moduleName w :
  rulesCache (snd (clearCache (Some moduleName) w)) !! moduleName = None.
Proof.
  unfold clearCache. destruct (String.eqb moduleName EmptyString); simpl.
  - apply lookup_empty.
  - apply lookup_delete_eq.
Qed.

(** X15. A rule that [createRule] stores is served at once: whatever
    the cache held, the next list for its module contains it, provided
    the rule is not created inactive and its window of validity contains
    the instant of creation.  The row is appended to the table under a
    fresh identifier. *)
Theorem created_rule_is_served_at_once initialVersion data createdBy w rule w1 :
  createRule initialVersion data createdBy w = (Ok rule, w1) ->
  CreateRuleDTO.isActive data <> Some false ->
  (forall from, CreateRuleDTO.effectiveFrom data = Some from -> from <= clock w) ->
  (forall to, CreateRuleDTO.effectiveTo data = Some to -> clock w <= to) ->
  ruleTable w1 = ruleTable w ++ [rule]
  /\ ~ In (Rule.id rule) (map Rule.id (ruleTable w))
  /\ exists rules,
       fst (getCachedRules (CreateRuleDTO.moduleName data) w1) = Ok rules
       /\ In rule rules.
Proof.
  intros Hrun Hactive Hfrom Hto.
  unfold createRule in Hrun. unfold bind at 1 in Hrun. unfold ruleCreate in Hrun.
  destruct (storeAvailable w) eqn:Hup; [| done].
  destruct (existsb _ (ruleTable w)) eqn:Hfresh; [done |].
  unfold bind at 1 in Hrun.
  set (w0 := {| ruleTable := _ |}) in Hrun.
  pose proof (clearCache_lookup (CreateRuleDTO.moduleName data) w0) as Hnone.
  destruct (clearCache (Some (CreateRuleDTO.moduleName data)) w0)
    as [[[]|e] w0'] eqn:Hclear;
    [| unfold clearCache in Hclear;
       destruct (String.eqb _ _) in Hclear; discriminate].
  assert (Hframe : ruleTable w0' = ruleTable w0 /\ storeAvailable w0' = true
                   /\ clock w0' = clock w).
  { unfold clearCache in Hclear.
    destruct (String.eqb _ _) in Hclear; injection Hclear as <-; by rewrite <- Hup. }
  destruct Hframe as (Htable & Hup' & Hclock). simpl in Hnone.
  unfold bind, logSuccess, emit, ret in Hrun. simpl in Hrun.
  injection Hrun as <- <-. simpl. rewrite Htable. split; [reflexivity |]. split.
  { intros Hin. apply in_map_iff in Hin as (r & Hid & Hin).
    assert (Hex : existsb (fun r => String.eqb (Rule.id r)
                                      (idSupply w (idsIssued w))) (ruleTable w) = true).
    { apply existsb_exists. exists r. split; [done |]. by apply String.eqb_eq. }
    congruence. }
  rewrite getCachedRules_answer, stale_cache_asks_the_store.
  2: { unfold cacheIsFresh. simpl. by rewrite Hnone. }
  unfold ruleFindMany, bind, emit. simpl. rewrite Hup'. simpl.
  eexists. split; [reflexivity |].
  rewrite In_orderBy, filter_In, Htable. split.
  - unfold w0. simpl. apply in_app_iff. right. by left.
  - apply activeRuleWhere_spec. simpl. rewrite Hclock. repeat split.
    + destruct (CreateRuleDTO.isActive data) as [[|]|]; done.
    + destruct (CreateRuleDTO.effectiveFrom data) as [from|]; simpl; [by apply Hfrom | lia].
    + exact Hto.
Qed.

Lemma created_rule_is_served_at_once_witness :
  ruleTable (snd (createRule 1 Examples.testRuleData "admin123" Examples.testWorld))
  = ruleTable Examples.testWorld ++ [Examples.testRule]
  /\ ~ In (Rule.id Examples.testRule) (map Rule.id (ruleTable Examples.testWorld))
  /\ exists rules,
       fst (getCachedRules (CreateRuleDTO.moduleName Examples.testRuleData)
              (snd (createRule 1 Examples.testRuleData "admin123"
                      Examples.testWorld)))
       = Ok rules
       /\ In Examples.testRule rules.
Proof.
  apply (created_rule_is_served_at_once 1 Examples.testRuleData "admin123"
           Examples.testWorld Examples.testRule
           (snd (createRule 1 Examples.testRuleData "admin123" Examples.testWorld))).
  - reflexivity.
  - discriminate.
  - discriminate.
  - discriminate.
Defined.

Lemma toggleRuleStatus_run ruleId isActive updatedBy w w' :
  toggleRuleStatus ruleId isActive updatedBy w = (Ok tt, w') ->
  exists rule,
    List.find (fun r => String.eqb (Rule.id r) ruleId) (ruleTable w) = Some rule
    /\ storeAvailable w = true
    /\ ruleTable w'
       = map (fun r => if String.eqb (Rule.id r) ruleId then setActive isActive r
                       else r) (ruleTable w)
    /\ rulesCache w' !! Rule.moduleName rule = None.
Proof.
  unfold toggleRuleStatus, ruleFindUnique. unfold bind at 1.
  destruct (storeAvailable w) eqn:Hup; [| done].
  destruct (List.find (fun r => String.eqb (Rule.id r) ruleId) (ruleTable w))
    as [rule|] eqn:Hfind; [| done].
  unfold bind at 1, ruleUpdate. rewrite Hup, (find_some_existsb _ _ _ Hfind).
  unfold bind at 1.
  set (w0 := setRuleTable _ w).
  pose proof (clearCache_lookup (Rule.moduleName rule) w0) as Hnone.
  assert (Htable : ruleTable (snd (clearCache (Some (Rule.moduleName rule)) w0))
                   = ruleTable w0).
  { unfold clearCache. by destruct (String.eqb _ _). }
  destruct (clearCache (Some (Rule.moduleName rule)) w0) as [[[]|e] w0'] eqn:Hclear;
    [| unfold clearCache in Hclear;
       destruct (String.eqb _ _) in Hclear; discriminate].
  simpl in Hnone, Htable. unfold logSuccess, emit.
  intros [= <-]. exists rule. simpl. by rewrite Htable.
Qed.

(** X16. A rule switched off by [toggleRuleStatus] is never triggered
    again: after the call every row with its identifier is inactive, the
    cache holds no entry for its module, and no later evaluation for
    that module lists the rule among the triggered rules. *)
Theorem deactivated_rule_is_never_triggered ruleId updatedBy w w' :
  toggleRuleStatus ruleId false updatedBy w = (Ok tt, w') ->
  exists rule,
    List.find (fun r => String.eqb (Rule.id r) ruleId) (ruleTable w) = Some rule
    /\ (forall r, In r (ruleTable w') -> Rule.id r = ruleId -> Rule.isActive r = false)
    /\ rulesCache w' !! Rule.moduleName rule = None
    /\ forall H context d result,
         Context.moduleName context = Rule.moduleName rule ->
         fst (evaluateRules H context (advanceClock d w')) = Ok result ->
         ~ In ruleId (map Triggered.ruleId (EvaluationResult.triggeredRules result)).
Proof.
  intros Hrun.
  destruct (toggleRuleStatus_run _ _ _ _ _ Hrun) as (rule & Hfind & _ & Htable & Hnone).
  assert (Hrows : forall r, In r (ruleTable w') -> Rule.id r = ruleId ->
                            Rule.isActive r = false).
  { intros r Hin Hid. rewrite Htable in Hin.
    apply in_map_iff in Hin as (r0 & <- & _).
    destruct (String.eqb (Rule.id r0) ruleId) eqn:Heq; [done |].
    apply String.eqb_neq in Heq. done. }
  exists rule. split; [exact Hfind |]. split; [exact Hrows |].
  split; [exact Hnone |].
  by apply inactive_rule_is_never_triggered.
Qed.

Lemma deactivated_rule_is_never_triggered_witness :
  exists rule,
    List.find (fun r => String.eqb (Rule.id r) "rule123")
      (ruleTable (Examples.servedWorld [Examples.blockingRule; Examples.modifyRule]))
    = Some rule
    /\ (forall r,
          In r (ruleTable
                  (snd (toggleRuleStatus "rule123" false "admin123"
                          (Examples.servedWorld [Examples.blockingRule;
                                                 Examples.modifyRule])))) ->
          Rule.id r = "rule123" -> Rule.isActive r = false)
    /\ rulesCache
         (snd (toggleRuleStatus "rule123" false "admin123"
                 (Examples.servedWorld [Examples.blockingRule; Examples.modifyRule])))
         !! Rule.moduleName rule = None
    /\ forall H context d result,
         Context.moduleName context = Rule.moduleName rule ->
         fst (evaluateRules H context
                (advanceClock d
                   (snd (toggleRuleStatus "rule123" false "admin123"
                           (Examples.servedWorld [Examples.blockingRule;
                                                  Examples.modifyRule])))))
         = Ok result ->
         ~ In "rule123"
             (map Triggered.ruleId (EvaluationResult.triggeredRules result)).
Proof.
  apply (deactivated_rule_is_never_triggered "rule123" "admin123"
           (Examples.servedWorld [Examples.blockingRule; Examples.modifyRule])
           (snd (toggleRuleStatus "rule123" false "admin123"
                   (Examples.servedWorld [Examples.blockingRule;
                                          Examples.modifyRule])))).
  reflexivity.
Defined.

Lemma setActive_same r : setActive (Rule.isActive r) r = r.
Proof. by destruct r. Qed.

(** X17. Of two successive calls of [toggleRuleStatus] on a rule, the
    second decides: the table is the one the second call alone would
    leave.  In particular, switching a rule off and on again restores
    the table when the rule was active. *)
Theorem last_toggle_decides ruleId first second actor1 actor2 w w1 w2 :
  toggleRuleStatus ruleId first actor1 w = (Ok tt, w1) ->
  toggleRuleStatus ruleId second actor2 w1 = (Ok tt, w2) ->
  ruleTable w2 = ruleTable (snd (toggleRuleStatus ruleId second actor2 w))
  /\ ((forall r, In r (ruleTable w) -> Rule.id r = ruleId ->
                 Rule.isActive r = second) ->
      ruleTable w2 = ruleTable w).
Proof.
  intros Hfirst Hsecond.
  destruct (toggleRuleStatus_run _ _ _ _ _ Hfirst) as (rule & Hfind & Hup & Htable1 & _).
  destruct (toggleRuleStatus_run _ _ _ _ _ Hsecond) as (_ & _ & _ & Htable2 & _).
  assert (Htwice : ruleTable w2
                   = map (fun r => if String.eqb (Rule.id r) ruleId
                                   then setActive second r else r) (ruleTable w)).
  { rewrite Htable2, Htable1, map_map. apply map_ext. intros r.
    by destruct (String.eqb (Rule.id r) ruleId) eqn:Heq; simpl; rewrite Heq. }
  split.
  - destruct (toggleRuleStatus ruleId second actor2 w) as [[[]|e] w3] eqn:Hdirect.
    + destruct (toggleRuleStatus_run _ _ _ _ _ Hdirect) as (_ & _ & _ & Heq & _).
      simpl. rewrite Heq. exact Htwice.
    + exfalso. revert Hdirect.
      unfold toggleRuleStatus, ruleFindUnique. unfold bind at 1.
      rewrite Hup, Hfind. unfold bind at 1, ruleUpdate.
      rewrite Hup, (find_some_existsb _ _ _ Hfind).
      unfold bind, clearCache, logSuccess, emit.
      by destruct (String.eqb _ _).
  - intros Hrows. rewrite Htwice.
    rewrite <- (map_id (ruleTable w)) at 2. apply map_ext_in. intros r Hin.
    destruct (String.eqb (Rule.id r) ruleId) eqn:Heq; [| done].
    apply String.eqb_eq in Heq. rewrite <- (Hrows r Hin Heq).
    apply setActive_same.
Qed.

Lemma last_toggle_decides_witness :
  ruleTable
    (snd (toggleRuleStatus "rule123" true "admin123"
            (snd (toggleRuleStatus "rule123" false "admin123"
                    (Examples.world [Examples.blockingRule; Examples.modifyRule] [])))))
  = ruleTable
      (snd (toggleRuleStatus "rule123" true "admin123"
              (Examples.world [Examples.blockingRule; Examples.modifyRule] [])))
  /\ ((forall r,
         In r (ruleTable (Examples.world [Examples.blockingRule;
                                          Examples.modifyRule] [])) ->
         Rule.id r = "rule123" -> Rule.isActive r = true) ->
      ruleTable
        (snd (toggleRuleStatus "rule123" true "admin123"
                (snd (toggleRuleStatus "rule123" false "admin123"
                        (Examples.world [Examples.blockingRule;
                                         Examples.modifyRule] [])))))
      = ruleTable (Examples.world [Examples.blockingRule; Examples.modifyRule] [])).
Proof.
  apply (last_toggle_decides "rule123" false true "admin123" "admin123"
           (Examples.world [Examples.blockingRule; Examples.modifyRule] [])
           (snd (toggleRuleStatus "rule123" false "admin123"
                   (Examples.world [Examples.blockingRule; Examples.modifyRule] [])))
           (snd (toggleRuleStatus "rule123" true "admin123"
                   (snd (toggleRuleStatus "rule123" false "admin123"
                           (Examples.world [Examples.blockingRule;
                                            Examples.modifyRule] [])))))).
  - reflexivity.
  - reflexivity.
Defined.

(** X18. [toggleRuleStatus] and [updateRule] reject an identifier that no
    row carries with the error [Rule not found], and leave everything as
    it was: no row, no cache entry and no audit entry is written. *)
Theorem unknown_rule_is_rejected_without_effect ruleId w :
  storeAvailable w = true ->
  ~ In ruleId (map Rule.id (ruleTable w)) ->
  (forall isActive updatedBy,
     toggleRuleStatus ruleId isActive updatedBy w = (Throw "Rule not found", w))
  /\ (forall data updatedBy,
        updateRule ruleId data updatedBy w = (Throw "Rule not found", w)).
Proof.
  intros Hup Habsent. apply find_none_of_absent in Habsent.
  split; intros; unfold toggleRuleStatus, updateRule, ruleFindUnique, bind;
    by rewrite Hup, Habsent.
Qed.

Lemma unknown_rule_is_rejected_without_effect_witness :
  (forall isActive updatedBy,
     toggleRuleStatus "rule000" isActive updatedBy
       (Examples.world [Examples.blockingRule] [])
     = (Throw "Rule not found", Examples.world [Examples.blockingRule] []))
  /\ (forall data updatedBy,
        updateRule "rule000" data updatedBy
          (Examples.world [Examples.blockingRule] [])
        = (Throw "Rule not found", Examples.world [Examples.blockingRule] [])).
Proof.
  apply (unknown_rule_is_rejected_without_effect "rule000"
           (Examples.world [Examples.blockingRule] [])).
  - reflexivity.
  - simpl. intros [Heq | []]. discriminate.
Defined.

(** ** Bulk updates *)

Lemma bulkChange_otherColumns update r :
  otherColumns (bulkChange update r) = otherColumns r.
Proof.
  unfold bulkChange.
  by destruct (BulkUpdate.isActive update), (BulkUpdate.priority update).
Qed.

Lemma bulkChange_id update r : Rule.id (bulkChange update r) = Rule.id r.
Proof.
  unfold bulkChange.
  by destruct (BulkUpdate.isActive update), (BulkUpdate.priority update).
Qed.

Lemma bulkChange_moduleName update r :
  Rule.moduleName (bulkChange update r) = Rule.moduleName r.
Proof.
  unfold bulkChange.
  by destruct (BulkUpdate.isActive update), (BulkUpdate.priority update).
Qed.

Lemma find_map_rows ruleId (g : Rule.t -> Rule.t) (table : list Rule.t) :
  (forall r, Rule.id (g r) = Rule.id r) ->
  List.find (fun r => String.eqb (Rule.id r) ruleId) (map g table)
  = option_map g (List.find (fun r => String.eqb (Rule.id r) ruleId) table).
Proof.
  intros Hid. induction table as [|r rest IH]; simpl; [done |].
  rewrite Hid. by destruct (String.eqb (Rule.id r) ruleId).
Qed.

Lemma setAdd_In m x xs : In m (setAdd x xs) <-> m = x \/ In m xs.
Proof.
  unfold setAdd. destruct (existsb (String.eqb x) xs) eqn:Hseen.
  - apply existsb_eqb_In in Hseen. split; [tauto | intros [-> | ?]; done].
  - rewrite in_app_iff. simpl. intuition congruence.
Qed.

Lemma bulkUpdateLoop_run updates : forall affected w,
  storeAvailable w = true ->
  exists table' affected',
    bulkUpdateLoop updates affected w = (Ok affected', setRuleTable (fun _ => table') w)
    /\ map otherColumns table' = map otherColumns (ruleTable w)
    /\ (forall r, In r (ruleTable w) ->
                  ~ In (Rule.id r) (map BulkUpdate.ruleId updates) -> In r table')
    /\ (forall m, In m affected -> In m affected')
    /\ (forall u rule,
          In u updates ->
          List.find (fun r => String.eqb (Rule.id r) (BulkUpdate.ruleId u))
            (ruleTable w) = Some rule ->
          In (Rule.moduleName rule) affected').
Proof.
  induction updates as [|update rest IH]; intros affected w Hup.
  - exists (ruleTable w), affected. repeat split; try done. by destruct w.
  - cbn [bulkUpdateLoop]. unfold bind at 1, ruleFindUnique. rewrite Hup.
    destruct (List.find (fun r => String.eqb (Rule.id r) (BulkUpdate.ruleId update))
                (ruleTable w)) as [found|] eqn:Hfind.
    + unfold bind at 1, ruleUpdate. rewrite Hup, (find_some_existsb _ _ _ Hfind).
      set (g := fun r => if String.eqb (Rule.id r) (BulkUpdate.ruleId update)
                         then bulkChange update r else r).
      assert (Hgid : forall r, Rule.id (g r) = Rule.id r).
      { intros r. unfold g. destruct (String.eqb _ _); [apply bulkChange_id | done]. }
      destruct (IH (setAdd (Rule.moduleName found) affected) (setRuleTable (map g) w) Hup)
        as (table' & affected' & Hrun & Hcolumns & Hframe & Hmono & Hmodules).
      exists table', affected'. split; [exact Hrun |]. split; [| split; [| split]].
      * rewrite Hcolumns. simpl. rewrite map_map. apply map_ext. intros r.
        unfold g. destruct (String.eqb _ _); [apply bulkChange_otherColumns | done].
      * intros r Hin Hnot. simpl in Hnot. apply Hframe; [| tauto].
        simpl. apply in_map_iff. exists r. split; [| done].
        unfold g. destruct (String.eqb (Rule.id r) (BulkUpdate.ruleId update)) eqn:Heq;
          [| done].
        apply String.eqb_eq in Heq. exfalso. apply Hnot. by left.
      * intros m Hin. apply Hmono, setAdd_In. by right.
      * intros u rule [<- | Hin] Hrule.
        -- rewrite Hfind in Hrule. injection Hrule as <-.
           apply Hmono, setAdd_In. by left.
        -- specialize (Hmodules u (g rule) Hin). simpl in Hmodules.
           rewrite find_map_rows, Hrule in Hmodules by exact Hgid.
           specialize (Hmodules eq_refl).
           replace (Rule.moduleName (g rule)) with (Rule.moduleName rule) in Hmodules;
             [done |].
           unfold g. destruct (String.eqb _ _); [| done].
           by rewrite bulkChange_moduleName.
    + destruct (IH affected w Hup)
        as (table' & affected' & Hrun & Hcolumns & Hframe & Hmono & Hmodules).
      exists table', affected'. split; [exact Hrun |]. repeat split; try done.
      * intros r Hin Hnot. simpl in Hnot. apply Hframe; tauto.
      * intros u rule [<- | Hin] Hrule; [congruence | by eapply Hmodules].
Qed.

Lemma forEach_clearCache modules : forall w,
  exists cache',
    forEach (fun moduleName => clearCache (Some moduleName)) modules w
    = (Ok tt, setCache (fun _ => cache') w)
    /\ (forall m, In m modules -> cache' !! m = None)
    /\ (forall m, cache' !! m = None \/ cache' !! m = rulesCache w !! m).
Proof.
  induction modules as [|m0 rest IH]; intros w.
  - exists (rulesCache w). repeat split; [by destruct w | done | by right].
  - cbn [forEach]. unfold bind at 1.
    assert (Hclear : exists h,
              clearCache (Some m0) w = (Ok tt, setCache h w)
              /\ h (rulesCache w) !! m0 = None
              /\ forall m, h (rulesCache w) !! m = None
                           \/ h (rulesCache w) !! m = rulesCache w !! m).
    { unfold clearCache. destruct (String.eqb m0 EmptyString).
      - exists (fun _ => ∅). split; [reflexivity |]. split; [apply lookup_empty |].
        intros m. left. apply lookup_empty.
      - exists (delete m0). split; [reflexivity |]. split; [apply lookup_delete_eq |].
        intros m. destruct (decide (m = m0)) as [-> | Hne].
        + left. apply lookup_delete_eq.
        + right. by apply lookup_delete_ne. }
    destruct Hclear as (h & -> & Hm0 & Hshrink).
    destruct (IH (setCache h w)) as (cache' & Hrun & Hnone & Hshrink').
    exists cache'. split; [exact Hrun |]. split.
    + intros m [<- | Hin]; [| by apply Hnone].
      destruct (Hshrink' m0) as [? | Heq]; [done |]. rewrite Heq. exact Hm0.
    + intros m. destruct (Hshrink' m) as [? | Heq]; [by left |].
      rewrite Heq. apply Hshrink.
Qed.

(** X19. [bulkUpdateRules] writes nothing but the status and the
    priority of the rules it names: the table keeps its rows, in their
    order, with every other column as it was, and a rule that no update
    names is left untouched.  The cache entry of the module of every
    rule named is dropped. *)
Theorem bulkUpdateRules_changes_only_status_and_priority updates updatedBy w w' :
  bulkUpdateRules updates updatedBy w = (Ok tt, w') ->
  map otherColumns (ruleTable w') = map otherColumns (ruleTable w)
  /\ (forall r, In r (ruleTable w) ->
                ~ In (Rule.id r) (map BulkUpdate.ruleId updates) ->
                In r (ruleTable w'))
  /\ (forall u rule,
        In u updates ->
        List.find (fun r => String.eqb (Rule.id r) (BulkUpdate.ruleId u))
          (ruleTable w) = Some rule ->
        rulesCache w' !! Rule.moduleName rule = None)
  /\ exceptionTable w' = exceptionTable w.
Proof.
  unfold bulkUpdateRules. unfold bind at 1, transaction.
  destruct (storeAvailable w) eqn:Hup; [| done].
  destruct (bulkUpdateLoop_run updates [] w Hup)
    as (table' & affected' & -> & Hcolumns & Hframe & _ & Hmodules).
  unfold bind at 1.
  destruct (forEach_clearCache affected' (setRuleTable (fun _ => table') w))
    as (cache' & -> & Hnone & _).
  unfold logSuccess, emit. intros [= <-]. simpl.
  repeat split; try done.
  intros u rule Hin Hfind. apply Hnone. by eapply Hmodules.
Qed.

Lemma bulkUpdateRules_changes_only_status_and_priority_witness :
  map otherColumns
    (ruleTable (snd (bulkUpdateRules Examples.bulkUpdates "admin123"
                       (Examples.servedWorld [Examples.blockingRule;
                                              Examples.modifyRule]))))
  = map otherColumns
      (ruleTable (Examples.servedWorld [Examples.blockingRule; Examples.modifyRule]))
  /\ (forall r,
        In r (ruleTable (Examples.servedWorld [Examples.blockingRule;
                                               Examples.modifyRule])) ->
        ~ In (Rule.id r) (map BulkUpdate.ruleId Examples.bulkUpdates) ->
        In r (ruleTable (snd (bulkUpdateRules Examples.bulkUpdates "admin123"
                                (Examples.servedWorld [Examples.blockingRule;
                                                       Examples.modifyRule])))))
  /\ (forall u rule,
        In u Examples.bulkUpdates ->
        List.find (fun r => String.eqb (Rule.id r) (BulkUpdate.ruleId u))
          (ruleTable (Examples.servedWorld [Examples.blockingRule;
                                            Examples.modifyRule]))
        = Some rule ->
        rulesCache (snd (bulkUpdateRules Examples.bulkUpdates "admin123"
                           (Examples.servedWorld [Examples.blockingRule;
                                                  Examples.modifyRule])))
          !! Rule.moduleName rule = None)
  /\ exceptionTable (snd (bulkUpdateRules Examples.bulkUpdates "admin123"
                            (Examples.servedWorld [Examples.blockingRule;
                                                   Examples.modifyRule])))
     = exceptionTable (Examples.servedWorld [Examples.blockingRule;
                                             Examples.modifyRule]).
Proof.
  apply (bulkUpdateRules_changes_only_status_and_priority Examples.bulkUpdates
           "admin123"
           (Examples.servedWorld [Examples.blockingRule; Examples.modifyRule])
           (snd (bulkUpdateRules Examples.bulkUpdates "admin123"
                   (Examples.servedWorld [Examples.blockingRule;
                                          Examples.modifyRule])))).
  reflexivity.
Defined.

Lemma bulkUpdateLoop_unknown updates : forall affected w,
  storeAvailable w = true ->
  (forall u, In u updates -> ~ In (BulkUpdate.ruleId u) (map Rule.id (ruleTable w))) ->
  bulkUpdateLoop updates affected w = (Ok affected, w).
Proof.
  induction updates as [|update rest IH]; intros affected w Hup Hunknown; [done |].
  cbn [bulkUpdateLoop]. unfold bind at 1, ruleFindUnique.
  rewrite Hup, find_none_of_absent by (apply Hunknown; by left).
  apply IH; [done |]. intros u Hin. apply Hunknown. by right.
Qed.

(** X20. Unlike [toggleRuleStatus], [bulkUpdateRules] does not reject
    an identifier that no row carries: a bulk update that names only
    unknown rules succeeds, changes no row and no cache entry, and still
    writes its audit entry. *)
Theorem bulkUpdateRules_skips_unknown_rules updates updatedBy w :
  storeAvailable w = true ->
  (forall u, In u updates -> ~ In (BulkUpdate.ruleId u) (map Rule.id (ruleTable w))) ->
  bulkUpdateRules updates updatedBy w
  = (Ok tt, addEvent (AuditLog SUCCESS updatedBy "RULES_BULK_UPDATED" "Rule" None None)
              w).
Proof.
  intros Hup Hunknown. unfold bulkUpdateRules, transaction. unfold bind at 1.
  by rewrite Hup, bulkUpdateLoop_unknown.
Qed.

Lemma bulkUpdateRules_skips_unknown_rules_witness :
  bulkUpdateRules
    [ {| BulkUpdate.ruleId := "rule000"; BulkUpdate.isActive := Some false;
         BulkUpdate.priority := None |} ] "admin123"
    (Examples.world [Examples.blockingRule] [])
  = (Ok tt,
     addEvent (AuditLog SUCCESS "admin123" "RULES_BULK_UPDATED" "Rule" None None)
       (Examples.world [Examples.blockingRule] [])).
Proof.
  apply (bulkUpdateRules_skips_unknown_rules
           [ {| BulkUpdate.ruleId := "rule000"; BulkUpdate.isActive := Some false;
                BulkUpdate.priority := None |} ] "admin123"
           (Examples.world [Examples.blockingRule] [])).
  - reflexivity.
  - intros u [<- | []]. simpl. intros [Heq | []]. discriminate.
Defined.

(** ** Listing the rules of a module *)

Lemma In_insertByPriority x r sorted :
  In x (insertByPriority r sorted) <-> x = r \/ In x sorted.
Proof.
  induction sorted as [|y rest IH]; simpl; [intuition |].
  destruct (Rule.priority r <=? Rule.priority y); simpl; [intuition |].
  rewrite IH. intuition.
Qed.

Lemma In_orderByPriority x rows : In x (orderByPriority rows) <-> In x rows.
Proof.
  induction rows as [|r rest IH]; simpl; [done |].
  rewrite In_insertByPriority, IH. intuition.
Qed.

Lemma insertByPriority_sorted r sorted :
  StronglySorted (fun a b => Rule.priority a <= Rule.priority b) sorted ->
  StronglySorted (fun a b => Rule.priority a <= Rule.priority b)
    (insertByPriority r sorted).
Proof.
  induction 1 as [|x rest Hsorted IH Hall]; simpl.
  - repeat constructor.
  - destruct (Rule.priority r <=? Rule.priority x) eqn:Hrx.
    + apply Z.leb_le in Hrx. constructor; [by constructor |].
      constructor; [exact Hrx |].
      eapply Forall_impl; [exact Hall |]. intros y Hxy. simpl in Hxy. lia.
    + apply Z.leb_gt in Hrx. constructor; [exact IH |].
      apply Forall_forall. intros y Hin.
      apply list_elem_of_In, In_insertByPriority in Hin as [-> | Hin]; [lia |].
      rewrite Forall_forall in Hall. apply Hall. by apply list_elem_of_In.
Qed.

Lemma orderByPriority_sorted rows :
  StronglySorted (fun a b => Rule.priority a <= Rule.priority b)
    (orderByPriority rows).
Proof.
  induction rows as [|r rest IH]; simpl; [constructor |].
  by apply insertByPriority_sorted.
Qed.

(** X21. [getRulesByModule] lists every active rule of the module in
    ascending priority, whatever its dates: the list contains every rule
    the evaluation would fetch at that instant, and also the active
    rules that are not yet or no longer in force.  The call changes
    nothing. *)
Theorem getRulesByModule_ignores_the_dates moduleName w rules w' :
  getRulesByModule moduleName w = (Ok rules, w') ->
  w' = w
  /\ (forall r,
        In r rules
        <-> In r (ruleTable w)
            /\ Rule.moduleName r = moduleName /\ Rule.isActive r = true)
  /\ StronglySorted (fun a b => Rule.priority a <= Rule.priority b) rules
  /\ forall fetched r,
       fst (ruleFindMany moduleName w) = Ok fetched -> In r fetched -> In r rules.
Proof.
  unfold getRulesByModule. destruct (storeAvailable w) eqn:Hup; [| done].
  intros [= <- <-].
  assert (Hin : forall r,
            In r (orderByPriority
                    (List.filter
                       (fun r => String.eqb (Rule.moduleName r) moduleName
                                 && Rule.isActive r) (ruleTable w)))
            <-> In r (ruleTable w)
                /\ Rule.moduleName r = moduleName /\ Rule.isActive r = true).
  { intros r. by rewrite In_orderByPriority, filter_In, andb_true_iff, String.eqb_eq. }
  split; [done |]. split; [exact Hin |]. split; [apply orderByPriority_sorted |].
  intros fetched r. unfold ruleFindMany, bind, emit. simpl. rewrite Hup. simpl.
  intros [= <-] Hr. apply Hin.
  apply In_orderBy, filter_In in Hr as [Hr Hwhere].
  apply activeRuleWhere_spec in Hwhere. tauto.
Qed.

Lemma getRulesByModule_ignores_the_dates_witness :
  advanceClock 5001 (Examples.world [Examples.expiringRule; Examples.modifyRule] [])
  = advanceClock 5001 (Examples.world [Examples.expiringRule; Examples.modifyRule] [])
  /\ (forall r,
        In r [Examples.expiringRule; Examples.modifyRule]
        <-> In r (ruleTable
                    (advanceClock 5001
                       (Examples.world [Examples.expiringRule;
                                        Examples.modifyRule] [])))
            /\ Rule.moduleName r = "attendance" /\ Rule.isActive r = true)
  /\ StronglySorted (fun a b => Rule.priority a <= Rule.priority b)
       [Examples.expiringRule; Examples.modifyRule]
  /\ forall fetched r,
       fst (ruleFindMany "attendance"
              (advanceClock 5001
                 (Examples.world [Examples.expiringRule; Examples.modifyRule] [])))
       = Ok fetched ->
       In r fetched -> In r [Examples.expiringRule; Examples.modifyRule].
Proof.
  apply (getRulesByModule_ignores_the_dates "attendance"
           (advanceClock 5001
              (Examples.world [Examples.expiringRule; Examples.modifyRule] []))
           [Examples.expiringRule; Examples.modifyRule]
           (advanceClock 5001
              (Examples.world [Examples.expiringRule; Examples.modifyRule] []))).
  reflexivity.
Defined.

(** ** Scope of a module *)

Lemma filter_module_first moduleName now (table : list Rule.t) :
  List.filter (activeRuleWhere moduleName now) table
  = List.filter (activeRuleWhere moduleName now)
      (List.filter (fun r => String.eqb (Rule.moduleName r) moduleName) table).
Proof.
  induction table as [|r rest IH]; simpl; [done |].
  destruct (String.eqb (Rule.moduleName r) moduleName) eqn:Hmodule; simpl.
  - by rewrite IH.
  - unfold activeRuleWhere at 1. rewrite Hmodule. simpl. exact IH.
Qed.

(** X22. The rules of other modules never interfere: the result of an
    evaluation is the same in any two rule tables that hold the same
    rows, in the same order, for the module of the context. *)
Theorem other_modules_never_interfere H context w table' :
  List.filter (fun r => String.eqb (Rule.moduleName r) (Context.moduleName context))
    table'
  = List.filter (fun r => String.eqb (Rule.moduleName r) (Context.moduleName context))
      (ruleTable w) ->
  fst (evaluateRules H context (setRuleTable (fun _ => table') w))
  = fst (evaluateRules H context w).
Proof.
  intros Hsame. unfold evaluateRules. rewrite !evaluateRulesWith_trace. simpl.
  f_equal. unfold outcome.
  assert (Hcandidates : candidateRules (Context.moduleName context)
                          (setRuleTable (fun _ => table') w)
                        = candidateRules (Context.moduleName context) w).
  { unfold candidateRules, ruleFindMany, bind, emit. simpl.
    rewrite (filter_module_first _ _ table'), Hsame, <- filter_module_first.
    destruct (rulesCache w !! Context.moduleName context) as [entry|];
      [destruct (clock w - lastUpdated entry <? CACHE_TTL); [done |] |];
      by destruct (storeAvailable w). }
  by rewrite Hcandidates.
Qed.

Lemma other_modules_never_interfere_witness :
  fst (evaluateRules Examples.host Examples.mockContext
         (setRuleTable (fun _ => [Examples.testRule; Examples.blockingRule])
            (Examples.world [Examples.blockingRule] [])))
  = fst (evaluateRules Examples.host Examples.mockContext
           (Examples.world [Examples.blockingRule] [])).
Proof.
  apply (other_modules_never_interfere Examples.host Examples.mockContext
           (Examples.world [Examples.blockingRule] [])
           [Examples.testRule; Examples.blockingRule]).
  reflexivity.
Defined.

(** ** Instances for the versions of a rule and the order of the query *)

(** An instance: the renaming of the rule that ends at the instant 5000. *)
Lemma updateRule_supersedes_parent_witness :
  exists parent,
    List.find (fun r => String.eqb (Rule.id r) "rule123")
      (ruleTable (Examples.world [Examples.expiringRule] []))
    = Some parent
    /\ Rule.version Examples.renamedRule = Rule.version parent + 1
    /\ Rule.parentRuleId Examples.renamedRule = Some "rule123"
    /\ Rule.effectiveTo Examples.renamedRule
       = UpdateRuleDTO.effectiveTo Examples.renameOnly
    /\ (forall r,
          In r (ruleTable
                  (snd (updateRule "rule123" Examples.renameOnly "admin123"
                          (Examples.world [Examples.expiringRule] [])))) ->
          Rule.id r = "rule123" -> Rule.isActive r = false)
    /\ forall H context d result,
         Context.moduleName context = Rule.moduleName parent ->
         fst (evaluateRules H context
                (advanceClock d
                   (snd (updateRule "rule123" Examples.renameOnly "admin123"
                           (Examples.world [Examples.expiringRule] [])))))
         = Ok result ->
         ~ In "rule123"
             (map Triggered.ruleId (EvaluationResult.triggeredRules result)).
Proof.
  apply (updateRule_supersedes_parent "rule123" Examples.renameOnly "admin123"
           (Examples.world [Examples.expiringRule] []) Examples.renamedRule
           (snd (updateRule "rule123" Examples.renameOnly "admin123"
                   (Examples.world [Examples.expiringRule] [])))).
  reflexivity.
Defined.

(** An instance: the two rules of the unit test on priority order, stored
    in either order. *)
Lemma evaluateRules_table_order_witness :
  fst (evaluateRules Examples.host Examples.mockContext
         (setRuleTable (fun _ => [Examples.highPriorityRule; Examples.lowPriorityRule])
            (Examples.world [Examples.lowPriorityRule; Examples.highPriorityRule] [])))
  = fst (evaluateRules Examples.host Examples.mockContext
           (Examples.world [Examples.lowPriorityRule; Examples.highPriorityRule] [])).
Proof.
  apply (evaluateRules_table_order Examples.host Examples.mockContext
           (Examples.world [Examples.lowPriorityRule; Examples.highPriorityRule] [])
           [Examples.highPriorityRule; Examples.lowPriorityRule]).
  - simpl. apply perm_swap.
  - simpl. intros a b [<- | [<- | []]] [<- | [<- | []]] _ _ Hkey;
      try reflexivity; discriminate Hkey.
Defined.

(** ** Updates keep the history *)

(** X25. [updateRule] only appends: the table after a successful update
    is the table before it followed by the new version, whose identifier
    is fresh; no existing row is removed or reordered, the only column of
    an existing row that can change is [isActive], and only on the rows
    that carry the identifier of the updated rule. *)
Theorem updateRule_is_append_only ruleId data updatedBy w newVersion w' :
  updateRule ruleId data updatedBy w = (Ok newVersion, w') ->
  exists before,
    ruleTable w' = before ++ [newVersion]
    /\ ~ In (Rule.id newVersion) (map Rule.id (ruleTable w))
    /\ map (fun r => (otherColumns r, Rule.priority r)) before
       = map (fun r => (otherColumns r, Rule.priority r)) (ruleTable w)
    /\ forall r, In r (ruleTable w) -> Rule.id r <> ruleId -> In r before.
Proof.
  unfold updateRule, ruleFindUnique.
  unfold bind at 1.
  destruct (storeAvailable w) eqn:Hup; [| discriminate].
  destruct (List.find (fun r => String.eqb (Rule.id r) ruleId) (ruleTable w))
    as [parent|] eqn:Hfind; [| discriminate].
  unfold bind at 1, ruleCreate. rewrite Hup.
  destruct (existsb _ (ruleTable w)) eqn:Hfresh; [discriminate |].
  unfold bind, ruleDeactivate, clearCache, logSuccess, emit, ret. simpl.
  assert (Hnew : idSupply w (idsIssued w) <> ruleId).
  { intros Heq. apply find_some_existsb in Hfind. rewrite <- Heq in Hfind.
    congruence. }
  apply String.eqb_neq in Hnew.
  intros Hrun.
  exists (map (fun r => if String.eqb (Rule.id r) ruleId then deactivate r else r)
            (ruleTable w)).
  assert (Htable : ruleTable w'
                   = map (fun r => if String.eqb (Rule.id r) ruleId
                                   then deactivate r else r) (ruleTable w)
                     ++ [newVersion]
                   /\ Rule.id newVersion = idSupply w (idsIssued w)).
  { destruct (String.eqb (Rule.moduleName parent) EmptyString);
      inversion Hrun; subst; simpl; rewrite map_app; simpl; by rewrite Hnew. }
  destruct Htable as [Htable Hid]. split; [exact Htable |]. split; [| split].
  - rewrite Hid. intros Hin. apply in_map_iff in Hin as (r & Hr & Hin).
    assert (Hex : existsb (fun r => String.eqb (Rule.id r)
                                      (idSupply w (idsIssued w))) (ruleTable w) = true).
    { apply existsb_exists. exists r. split; [done |]. by apply String.eqb_eq. }
    congruence.
  - rewrite map_map. apply map_ext. intros r.
    by destruct (String.eqb (Rule.id r) ruleId).
  - intros r Hin Hne. apply in_map_iff. exists r. split; [| done].
    apply String.eqb_neq in Hne. by rewrite Hne.
Qed.

Lemma updateRule_is_append_only_witness :
  exists before,
    ruleTable (snd (updateRule "rule123" Examples.renameOnly "admin123"
                      (Examples.world [Examples.expiringRule; Examples.modifyRule] [])))
    = before ++ [Examples.renamedRule]
    /\ ~ In (Rule.id Examples.renamedRule)
           (map Rule.id
              (ruleTable (Examples.world [Examples.expiringRule;
                                          Examples.modifyRule] [])))
    /\ map (fun r => (otherColumns r, Rule.priority r)) before
       = map (fun r => (otherColumns r, Rule.priority r))
           (ruleTable (Examples.world [Examples.expiringRule; Examples.modifyRule] []))
    /\ forall r,
         In r (ruleTable (Examples.world [Examples.expiringRule;
                                          Examples.modifyRule] [])) ->
         Rule.id r <> "rule123" -> In r before.
Proof.
  apply (updateRule_is_append_only "rule123" Examples.renameOnly "admin123"
           (Examples.world [Examples.expiringRule; Examples.modifyRule] [])
           Examples.renamedRule
           (snd (updateRule "rule123" Examples.renameOnly "admin123"
                   (Examples.world [Examples.expiringRule; Examples.modifyRule] [])))).
  reflexivity.
Defined.

(** ** Isolation of evaluator failures *)

Lemma fires_recover evaluator context wall rule :
  fires (recover evaluator) context wall rule = fires evaluator context wall rule.
Proof.
  unfold fires, recover.
  by destruct (evaluator wall (Some (Rule.conditionPayload rule)) context) as [[|]|].
Qed.

Lemma loopResult_recover evaluator context wall elapsed rules : forall st,
  loopResult (recover evaluator) context wall elapsed rules st
  = loopResult evaluator context wall elapsed rules st.
Proof.
  induction rules as [|rule rest IH]; intros st; [done |].
  cbn [loopResult]. rewrite fires_recover, !IH. done.
Qed.

Lemma reached_recover evaluator context wall rules :
  reached (recover evaluator) context wall rules
  = reached evaluator context wall rules.
Proof.
  induction rules as [|rule rest IH]; [done |].
  cbn [reached]. by rewrite fires_recover, IH.
Qed.

(** The conditions the loop evaluates are those of the effective rules
    among the rules it reaches. *)
Lemma loopEvaluated_reached evaluator context wall rules :
  loopEvaluated evaluator context wall rules
  = map Rule.id (effectiveRules context wall (reached evaluator context wall rules)).
Proof.
  induction rules as [|rule rest IH]; [done |].
  cbn [loopEvaluated reached].
  destruct (notEffective rule (evaluationInstant context wall)) eqn:Heff.
  - assert (Hf : fires evaluator context wall rule = false).
    { unfold fires. by rewrite Heff. }
    rewrite Hf. unfold effectiveRules in *. simpl. rewrite Heff. simpl. exact IH.
  - destruct (fires evaluator context wall rule && isBlock rule);
      unfold effectiveRules in *; simpl; rewrite Heff; simpl; [done |].
    by rewrite IH.
Qed.

(** C6. When the evaluation of a rule's condition raises, the iteration
    leaves the decision, the triggered rules and the modifications as
    they were, writes a failure entry, and the loop goes on: in a call
    that reaches the loop the conditions of all the effective rules are
    evaluated, up to the first rule that is triggered and blocks; the
    rules whose evaluation raised are not triggered; and the triggered
    rules, the decision and the whole result are those of the rule list
    read with an evaluator that answers [false] where this one raises. *)
Theorem condition_error_is_isolated evaluator context w :
  (forall startTime rule st e,
     notEffective rule (evaluationInstant context (clock w)) = false ->
     evaluator (clock w) (Some (Rule.conditionPayload rule)) context = Throw e ->
     evaluateRule evaluator context startTime rule st w
     = (Ok (Continue st),
        addEvents
          [EvaluateCondition (Rule.id rule);
           AuditLog FAILURE (User.id (Context.user context)) "RULE_EVALUATION_ERROR"
             (Context.moduleName context)
             (Some ("Error in rule " +:+ Rule.name rule +:+ ": " +:+ e))
             (Some (Rule.id rule))] w))
  /\ fst (evaluateRulesWith evaluator context w)
     = fst (evaluateRulesWith (recover evaluator) context w)
  /\ forall rules,
       invalidContext context = false ->
       fst (getCachedRules (Context.moduleName context) w) = Ok rules ->
       rules <> [] ->
       holdsException w (User.id (Context.user context)) (map Rule.id rules) = false ->
       exists result evs,
         fst (evaluateRulesWith evaluator context w) = Ok result
         /\ events (snd (evaluateRulesWith evaluator context w)) = events w ++ evs
         /\ evaluatedRules evs
            = map Rule.id
                (effectiveRules context (clock w)
                   (reached (recover evaluator) context (clock w) rules))
         /\ (forall r e,
               evaluator (clock w) (Some (Rule.conditionPayload r)) context = Throw e ->
               fires (recover evaluator) context (clock w) r = false)
         /\ EvaluationResult.triggeredRules result
            = map toTriggered
                (List.filter (fires (recover evaluator) context (clock w))
                   (reached (recover evaluator) context (clock w) rules))
         /\ EvaluationResult.decision result
            = (if triggersAction (recover evaluator) context (clock w) BLOCK rules
               then BLOCKED
               else decisionByPrecedence (recover evaluator) context (clock w) rules)
         /\ result
            = loopResult (recover evaluator) context (clock w) 0 rules initialState.
Proof.
  split; [| split].
  - intros startTime rule st e Heff Hraise.
    rewrite evaluateRule_trace. unfold fires, ruleTrace.
    by rewrite Heff, Hraise.
  - rewrite !evaluateRulesWith_trace. simpl. f_equal. unfold outcome.
    destruct (invalidContext context); [done |].
    destruct (candidateRules (Context.moduleName context) w) as [[|rule rest]|];
      try done.
    destruct (holdsException w _ _); [done |].
    by rewrite loopResult_recover.
  - intros rules Hvalid Hrules Hne Hnoexc.
    pose proof (outcome_loop evaluator context w rules Hvalid Hrules Hne Hnoexc)
      as Hresult.
    rewrite <- loopResult_recover in Hresult.
    destruct (evaluateRulesWith_run evaluator context w)
      as (evs & cache & Hrun & Hev & _).
    exists (loopResult (recover evaluator) context (clock w) 0 rules initialState),
           evs.
    split; [exact Hresult |]. split; [by rewrite Hrun |]. split; [| split].
    + rewrite Hev. unfold evaluatedDuring. rewrite Hvalid.
      rewrite getCachedRules_answer in Hrules. rewrite Hrules.
      destruct rules as [|rule rest]; [done |]. rewrite Hnoexc.
      by rewrite loopEvaluated_reached, reached_recover.
    + intros r e Hraise. unfold fires, recover. rewrite Hraise.
      apply andb_false_r.
    + split; [apply loopResult_triggered |]. split; [| reflexivity].
      rewrite loopResult_precedence by (by left).
      unfold decisionByPrecedence. simpl. by rewrite !orb_false_r.
Qed.

(** An instance: the evaluation of the first of three rules raises; the
    two rules after it are evaluated and triggered. *)
Lemma condition_error_is_isolated_witness :
  exists result evs,
    fst (evaluateRulesWith Examples.raisingOnRoles Examples.mockContext
           (Examples.world [Examples.approvalRule; Examples.modifyRule;
                            Examples.lowPriorityRule] []))
    = Ok result
    /\ events (snd (evaluateRulesWith Examples.raisingOnRoles Examples.mockContext
                      (Examples.world [Examples.approvalRule; Examples.modifyRule;
                                       Examples.lowPriorityRule] [])))
       = events (Examples.world [Examples.approvalRule; Examples.modifyRule;
                                 Examples.lowPriorityRule] []) ++ evs
    /\ evaluatedRules evs
       = map Rule.id
           (effectiveRules Examples.mockContext 1000
              (reached (recover Examples.raisingOnRoles) Examples.mockContext 1000
                 [Examples.approvalRule; Examples.modifyRule;
                  Examples.lowPriorityRule]))
    /\ (forall r e,
          Examples.raisingOnRoles 1000 (Some (Rule.conditionPayload r))
            Examples.mockContext = Throw e ->
          fires (recover Examples.raisingOnRoles) Examples.mockContext 1000 r = false)
    /\ EvaluationResult.triggeredRules result
       = map toTriggered
           (List.filter (fires (recover Examples.raisingOnRoles) Examples.mockContext 1000)
              (reached (recover Examples.raisingOnRoles) Examples.mockContext 1000
                 [Examples.approvalRule; Examples.modifyRule;
                  Examples.lowPriorityRule]))
    /\ EvaluationResult.decision result
       = (if triggersAction (recover Examples.raisingOnRoles) Examples.mockContext
               1000 BLOCK
               [Examples.approvalRule; Examples.modifyRule; Examples.lowPriorityRule]
          then BLOCKED
          else decisionByPrecedence (recover Examples.raisingOnRoles)
                 Examples.mockContext 1000
                 [Examples.approvalRule; Examples.modifyRule;
                  Examples.lowPriorityRule])
    /\ result
       = loopResult (recover Examples.raisingOnRoles) Examples.mockContext 1000 0
           [Examples.approvalRule; Examples.modifyRule; Examples.lowPriorityRule]
           initialState.
Proof.
  destruct (condition_error_is_isolated Examples.raisingOnRoles Examples.mockContext
              (Examples.world [Examples.approvalRule; Examples.modifyRule;
                               Examples.lowPriorityRule] []))
    as (_ & _ & Hrun).
  apply (Hrun [Examples.approvalRule; Examples.modifyRule; Examples.lowPriorityRule]).
  - reflexivity.
  - reflexivity.
  - discriminate.
  - reflexivity.
Defined.

(** ** Repeated calls *)






